(** * Channel injection into the APK Signing Block (src/core/walle_python_impl.py)

    A shallow embedding of [WallePythonImpl]: the EOCD locator, the
    central-directory reference, the signing-block locator, the ID/value
    pair codec, [inject_channel] and [get_channel], followed by the
    properties of the specification that concern them.

    Files are byte lists held in a finite map from paths to contents,
    Python integers are [Z], Python exceptions are values of [exn], and
    the insertion-ordered [dict] of the pair codec is an association list
    with unique keys. *)

From Stdlib Require Import ZArith Lia.
From Stdlib.Strings Require Import Byte.
From stdpp Require Import base option list gmap strings.

Local Open Scope Z_scope.

(** ** Bytes, exceptions and outcomes *)

Abbreviation bytes := (list byte).
Abbreviation filesystem := (gmap string (list byte)).

(** The call sites of [raise SignatureNotFoundException(...)], one per
    message of the source. *)
Inductive sig_msg : Type :=
| EocdNotFound        (* _get_comment_length, line 62 *)
| BlockTooSmall       (* _find_apk_signing_block, line 89 *)
| BadMagic            (* _find_apk_signing_block, line 102 *)
| OffsetOutOfRange    (* _find_apk_signing_block, line 112 *)
| SizeMismatch        (* _find_apk_signing_block, line 121 *)
| SignatureEntryMissing. (* inject_channel, line 241 *)

Inductive exn : Type :=
| SignatureNotFoundException (m : sig_msg)
| StructError          (* struct.error: buffer of the wrong size, value out of range *)
| SeekError            (* seek to a negative position *)
| FileNotFoundError    (* open / copy of a missing path *)
| UnicodeEncodeError   (* str.encode('utf-8') *)
| AttributeError       (* .get on a value that is not a dict *)
| RecursionError.      (* json.loads on text nested too deeply *)

(** What running a piece of the program gives: a value, a propagating
    exception, or [Diverges] when the fuel of a loop model is used up. *)
Inductive outcome (A : Type) : Type :=
| Returns (a : A)
| Raises (e : exn)
| Diverges.
Arguments Returns {A} a.
Arguments Raises {A} e.
Arguments Diverges {A}.

(** Sequencing: the first exception (or loss of fuel) ends the run.
    The instances give the [x ← m; k] notation. *)
#[export] Instance outcome_bind : MBind outcome := fun A B k m =>
  match m with
  | Returns a => k a
  | Raises e => Raises e
  | Diverges => Diverges
  end.
#[export] Instance outcome_ret : MRet outcome := fun A a => Returns a.

Definition len (b : bytes) : Z := Z.of_nat (length b).

(** ** struct.pack / struct.unpack, little endian, unsigned *)

Definition byte_val (b : byte) : Z := Z.of_N (Byte.to_N b).

Definition byte_of_Z (z : Z) : byte :=
  match Byte.of_N (Z.to_N z) with
  | Some b => b
  | None => "000"%byte
  end.

Fixpoint le_to_Z (b : bytes) : Z :=
  match b with
  | [] => 0
  | x :: r => byte_val x + 256 * le_to_Z r
  end.

Fixpoint Z_to_le (n : nat) (v : Z) : bytes :=
  match n with
  | O => []
  | S n' => byte_of_Z (v mod 256) :: Z_to_le n' (v / 256)
  end.

(** [struct.unpack('<Q' | '<I' | '<H', b)[0]] for [n] = 8, 4, 2: the
    buffer must have exactly [n] bytes. *)
Definition struct_unpack (n : nat) (b : bytes) : outcome Z :=
  if (length b =? n)%nat then Returns (le_to_Z b) else Raises StructError.

(** [struct.pack('<Q' | '<I', v)]: the value must fit in [n] bytes. *)
Definition struct_pack (n : nat) (v : Z) : outcome bytes :=
  if (0 <=? v) && (v <? 256 ^ Z.of_nat n)
  then Returns (Z_to_le n v) else Raises StructError.

(** ** Slices and positioned reads *)

(** A slice index of Python, clamped to the sequence. *)
Definition clamp (length_ i : Z) : Z :=
  if i <? 0 then Z.max 0 (i + length_) else Z.min i length_.

(** [b[i:j]] *)
Definition slice (b : bytes) (i j : Z) : bytes :=
  let i' := clamp (len b) i in
  let j' := clamp (len b) j in
  take (Z.to_nat (j' - i')) (drop (Z.to_nat i') b).

(** [f.seek(pos); f.read(n)] on a file opened 'rb' with contents [data],
    for [n >= 0]: a negative position raises, a read at or past the end
    is short or empty. *)
Definition read_at (data : bytes) (pos n : Z) : outcome bytes :=
  if pos <? 0 then Raises SeekError
  else Returns (take (Z.to_nat n) (drop (Z.to_nat pos) data)).

(** [open(file_path, 'rb')] *)
Definition open_rb (fs : filesystem) (file_path : string) : outcome bytes :=
  match fs !! file_path with
  | Some data => Returns data
  | None => Raises FileNotFoundError
  end.

(** ** Constants of [WallePythonImpl] *)

Definition WALLE_CHANNEL_BLOCK_ID : Z := 0x71777777.
Definition APK_SIG_BLOCK_MAGIC_LO : Z := 0x20676953204b5041.
Definition APK_SIG_BLOCK_MAGIC_HI : Z := 0x3234206b636f6c42.
Definition APK_SIGNATURE_SCHEME_V2_BLOCK_ID : Z := 0x7109871a.
Definition VERITY_PADDING_BLOCK_ID : Z := 0x42726577.
Definition APK_SIG_BLOCK_MIN_SIZE : Z := 32.
Definition EOCD_SIGNATURE : Z := 0x06054b50.

(** ** _get_comment_length *)

(** The [for expected_comment_length in range(0, max + 1)] loop, with
    [n] candidates left starting at [expected_comment_length]. *)
Fixpoint scan_eocd (data : bytes) (file_size : Z) (n : nat)
    (expected_comment_length : Z) : outcome Z :=
  match n with
  | O => Raises (SignatureNotFoundException EocdNotFound)
  | S n' =>
      let eocd_pos := file_size - 22 - expected_comment_length in
      b ← read_at data eocd_pos 4;
      sig ← struct_unpack 4 b;
      if sig =? EOCD_SIGNATURE then
        (b2 ← read_at data (eocd_pos + 20) 2;
         actual_comment_length ← struct_unpack 2 b2;
         if actual_comment_length =? expected_comment_length
         then Returns actual_comment_length
         else scan_eocd data file_size n' (expected_comment_length + 1))
      else scan_eocd data file_size n' (expected_comment_length + 1)
  end.

Definition comment_length_of (data : bytes) : outcome Z :=
  let file_size := len data in
  let max_comment_length := Z.min (file_size - 22) 65535 in
  scan_eocd data file_size (Z.to_nat (max_comment_length + 1)) 0.

Definition _get_comment_length (fs : filesystem) (file_path : string) : outcome Z :=
  data ← open_rb fs file_path;
  comment_length_of data.

(** ** _find_central_dir_start_offset *)

Definition central_dir_offset_of (data : bytes) (comment_length : Z) : outcome Z :=
  let file_size := len data in
  b ← read_at data (file_size - comment_length - 6) 4;
  struct_unpack 4 b.

Definition _find_central_dir_start_offset (fs : filesystem) (file_path : string)
    (comment_length : Z) : outcome Z :=
  data ← open_rb fs file_path;
  central_dir_offset_of data comment_length.

(** ** _find_apk_signing_block *)

(** The body of the [with open(file_path, 'rb')] block. *)
Definition signing_block_in (data : bytes) (central_dir_offset : Z)
    : outcome (bytes * Z) :=
  footer ← read_at data (central_dir_offset - 24) 24;
  footer_magic_lo ← struct_unpack 8 (slice footer 8 16);
  footer_magic_hi ← struct_unpack 8 (slice footer 16 24);
  if negb (footer_magic_lo =? APK_SIG_BLOCK_MAGIC_LO)
     || negb (footer_magic_hi =? APK_SIG_BLOCK_MAGIC_HI)
  then Raises (SignatureNotFoundException BadMagic)
  else
    footer_size ← struct_unpack 8 (slice footer 0 8);
    let apk_signing_block_size := footer_size + 8 in
    let apk_signing_block_offset := central_dir_offset - apk_signing_block_size in
    if apk_signing_block_offset <? 0
    then Raises (SignatureNotFoundException OffsetOutOfRange)
    else
      apk_signing_block ← read_at data apk_signing_block_offset apk_signing_block_size;
      header_size ← struct_unpack 8 (slice apk_signing_block 0 8);
      if negb (header_size =? footer_size)
      then Raises (SignatureNotFoundException SizeMismatch)
      else Returns (apk_signing_block, apk_signing_block_offset).

Definition _find_apk_signing_block (fs : filesystem) (file_path : string)
    (central_dir_offset : Z) : outcome (bytes * Z) :=
  if central_dir_offset <? APK_SIG_BLOCK_MIN_SIZE
  then Raises (SignatureNotFoundException BlockTooSmall)
  else
    data ← open_rb fs file_path;
    signing_block_in data central_dir_offset.

(** ** The [id_values] dict

    A Python dict keeps its keys in insertion order: assigning to a key
    that is present replaces the value in place, assigning to a new key
    appends it. *)

Abbreviation dict := (list (Z * list byte)).

Fixpoint dict_set (k : Z) (v : bytes) (d : dict) : dict :=
  match d with
  | [] => [(k, v)]
  | (k', v') :: r => if k' =? k then (k, v) :: r else (k', v') :: dict_set k v r
  end.

Fixpoint dict_get (k : Z) (d : dict) : option bytes :=
  match d with
  | [] => None
  | (k', v') :: r => if k' =? k then Some v' else dict_get k r
  end.

(** [k in d] *)
Definition dict_mem (k : Z) (d : dict) : bool :=
  match dict_get k d with Some _ => true | None => false end.

(** [del d[k]] for a key that is present *)
Fixpoint dict_del (k : Z) (d : dict) : dict :=
  match d with
  | [] => []
  | (k', v') :: r => if k' =? k then r else (k', v') :: dict_del k r
  end.

(** ** _find_id_values *)

(** The [while pos < end] loop. Every iteration moves [pos] forward by
    at least 8, so [fuel] iterations are enough whenever
    [end_ - pos <= fuel] (lemma [find_id_values_loop_fuel]). *)
Fixpoint find_id_values_loop (fuel : nat) (apk_signing_block : bytes)
    (end_ pos : Z) (id_values : dict) : outcome dict :=
  if pos <? end_ then
    match fuel with
    | O => Diverges
    | S fuel' =>
        entry_size ← struct_unpack 8 (slice apk_signing_block pos (pos + 8));
        let pos := pos + 8 in
        entry_id ← struct_unpack 4 (slice apk_signing_block pos (pos + 4));
        let pos := pos + 4 in
        let value_size := entry_size - 4 in
        let entry_value := slice apk_signing_block pos (pos + value_size) in
        let pos := pos + value_size in
        find_id_values_loop fuel' apk_signing_block end_ pos
          (dict_set entry_id entry_value id_values)
    end
  else Returns id_values.

Definition _find_id_values (apk_signing_block : bytes) : outcome dict :=
  let pos := 8 in
  let end_ := len apk_signing_block - 24 in
  find_id_values_loop (length apk_signing_block) apk_signing_block end_ pos [].

(** ** _create_apk_signing_block *)

(** The [for entry_id, entry_value in id_values.items()] loop. *)
Fixpoint pairs_of (id_values : dict) (pairs_data : bytes) : outcome bytes :=
  match id_values with
  | [] => Returns pairs_data
  | (entry_id, entry_value) :: rest =>
      let entry_size := 4 + len entry_value in
      size_bytes ← struct_pack 8 entry_size;
      let pairs_data := pairs_data ++ size_bytes in
      id_bytes ← struct_pack 4 entry_id;
      let pairs_data := pairs_data ++ id_bytes in
      let pairs_data := pairs_data ++ entry_value in
      pairs_of rest pairs_data
  end.

Definition _create_apk_signing_block (id_values : dict) : outcome bytes :=
  pairs_data ← pairs_of id_values [];
  let total_size := 8 + len pairs_data + 24 in
  let apk_signing_block : bytes := [] in
  b1 ← struct_pack 8 (total_size - 8);
  let apk_signing_block := apk_signing_block ++ b1 in
  let apk_signing_block := apk_signing_block ++ pairs_data in
  b2 ← struct_pack 8 (total_size - 8);
  let apk_signing_block := apk_signing_block ++ b2 in
  b3 ← struct_pack 8 APK_SIG_BLOCK_MAGIC_LO;
  let apk_signing_block := apk_signing_block ++ b3 in
  b4 ← struct_pack 8 APK_SIG_BLOCK_MAGIC_HI;
  let apk_signing_block := apk_signing_block ++ b4 in
  Returns apk_signing_block.

(** ** The JSON and text codecs of the Python library

    [create_channel_info] and [parse_channel_info] go through
    [json.dumps], [json.loads], [str.encode] and [bytes.decode]. These
    belong to the Python library, not to this repository, so the
    embedding takes them as an interface. *)

(** What [json.loads] does with a text: it returns a value, raises
    [json.JSONDecodeError], or raises something else (a
    [RecursionError] when the text is nested too deeply). *)
Inductive json_result (V : Type) : Type :=
| Parsed (v : V)
| DecodeError
| OtherError (e : exn).
Arguments Parsed {V} v.
Arguments DecodeError {V}.
Arguments OtherError {V} e.

Class PyLib : Type := {
  str : Type;
    (* Python text *)
  value : Type;
    (* what json.loads can return *)
  value_of_str : str -> value;
    (* a text as a Python value *)
  json_dumps_channel : str -> str;
    (* json.dumps({'channel': channel}, ensure_ascii=False) *)
  str_encode : str -> option bytes;
    (* s.encode('utf-8'); None when it raises UnicodeEncodeError *)
  bytes_decode : bytes -> option str;
    (* b.decode('utf-8'); None when it raises UnicodeDecodeError *)
  bytes_decode_ignore : bytes -> str;
    (* b.decode('utf-8', errors='ignore') *)
  json_loads : str -> json_result value;
    (* json.loads(s) *)
  value_get_channel : value -> option (option value)
    (* v.get('channel', None): None when v has no .get (AttributeError),
       Some None when the result is Python's None *)
}.

(** ** A file opened 'r+b'

    The contents and the position of the handle. A write past the end
    fills the gap with zero bytes, as the operating system does. *)

Record handle : Type := { h_data : bytes; h_pos : Z }.

(** [f.seek(pos)] *)
Definition h_seek (h : handle) (pos : Z) : outcome handle :=
  if pos <? 0 then Raises SeekError
  else Returns {| h_data := h_data h; h_pos := pos |}.

(** [f.seek(0, 2)] *)
Definition h_seek_end (h : handle) : handle :=
  {| h_data := h_data h; h_pos := len (h_data h) |}.

(** [f.tell()] *)
Definition h_tell (h : handle) : Z := h_pos h.

(** [f.read()] *)
Definition h_read_all (h : handle) : bytes * handle :=
  let got := drop (Z.to_nat (h_pos h)) (h_data h) in
  (got, {| h_data := h_data h; h_pos := h_pos h + len got |}).

(** [f.write(b)] *)
Definition h_write (h : handle) (b : bytes) : handle :=
  match b with
  | [] => h
  | _ =>
      let p := Z.to_nat (h_pos h) in
      {| h_data := take p (h_data h) ++ replicate (p - length (h_data h)) "000"%byte
                     ++ b ++ drop (p + length b) (h_data h);
         h_pos := h_pos h + len b |}
  end.

(** [f.truncate()] *)
Definition h_truncate (h : handle) : handle :=
  let p := Z.to_nat (h_pos h) in
  {| h_data := take p (h_data h) ++ replicate (p - length (h_data h)) "000"%byte;
     h_pos := h_pos h |}.

(** A step that can raise inside a [with] block: the handle keeps what
    was written before the exception. *)
Definition h_try {A} (h : handle) (m : outcome A)
    (k : A -> handle * outcome unit) : handle * outcome unit :=
  match m with
  | Returns a => k a
  | Raises e => (h, Raises e)
  | Diverges => (h, Diverges)
  end.

(** The body of [with open(target_apk, 'r+b') as f] in [inject_channel]
    (step 10). *)
Definition write_signing_block (f : handle)
    (central_dir_offset apk_signing_block_offset : Z)
    (new_apk_signing_block : bytes) (comment_length : Z)
    : handle * outcome unit :=
  h_try f (h_seek f central_dir_offset) (fun f =>
  let '(central_dir_data, f) := h_read_all f in
  h_try f (h_seek f apk_signing_block_offset) (fun f =>
  let f := h_write f new_apk_signing_block in
  let f := h_write f central_dir_data in
  let f := h_truncate f in
  let new_central_dir_offset := apk_signing_block_offset + len new_apk_signing_block in
  let f := h_seek_end f in
  h_try f (h_seek f (h_tell f - comment_length - 6)) (fun f =>
  h_try f (struct_pack 4 new_central_dir_offset) (fun packed =>
  (h_write f packed, Returns tt))))).

(** [with open(path, 'r+b') as f: body]; what was written stays in the
    file when the body raises. *)
Definition with_open_rw (fs : filesystem) (path : string)
    (body : handle -> handle * outcome unit) : filesystem * outcome unit :=
  match fs !! path with
  | None => (fs, Raises FileNotFoundError)
  | Some data =>
      let '(f, r) := body {| h_data := data; h_pos := 0 |} in
      (<[path := h_data f]> fs, r)
  end.

(** [shutil.copy2(source, target)], in a file system where every path
    of the map names a regular file of its own and any other path can be
    created: no directories, links or aliases, which the map does not
    represent. *)
Definition copy2 (fs : filesystem) (source target : string) : outcome filesystem :=
  match fs !! source with
  | Some data => Returns (<[target := data]> fs)
  | None => Raises FileNotFoundError
  end.

Section WallePythonImpl.
Context `{PyLib}.

(** ** create_channel_info, parse_channel_info *)

Definition create_channel_info (channel : str) : str :=
  json_dumps_channel channel.

(** The dict that [parse_channel_info] returns: what [json.loads] gave,
    or the literal [{'channel': text}] of the [except] branch. *)
Inductive channel_info : Type :=
| Loaded (v : value)
| Fallback (text : str).

(** The [except] clause catches [UnicodeDecodeError] and
    [json.JSONDecodeError] only; any other exception of [json.loads]
    leaves the function. *)
Definition parse_channel_info (channel_value : bytes) : outcome channel_info :=
  match bytes_decode channel_value with
  | Some channel_str =>
      match json_loads channel_str with
      | Parsed v => Returns (Loaded v)
      | DecodeError => Returns (Fallback (bytes_decode_ignore channel_value))
      | OtherError e => Raises e
      end
  | None => Returns (Fallback (bytes_decode_ignore channel_value))
  end.

(** [channel_info.get('channel', None)] *)
Definition info_get_channel (channel_info_ : channel_info) : outcome (option value) :=
  match channel_info_ with
  | Loaded v =>
      match value_get_channel v with
      | Some r => Returns r
      | None => Raises AttributeError
      end
  | Fallback text => Returns (Some (value_of_str text))
  end.

(** ** inject_channel *)

(** Steps 1 to 9 of [inject_channel], which only read the target: they
    give what step 10 writes. *)
Definition plan_injection (fs : filesystem) (target_apk : string) (channel : str)
    : outcome (Z * Z * Z * bytes) :=
  comment_length ← _get_comment_length fs target_apk;
  central_dir_offset ← _find_central_dir_start_offset fs target_apk comment_length;
  '(apk_signing_block, apk_signing_block_offset) ←
    _find_apk_signing_block fs target_apk central_dir_offset;
  id_values ← _find_id_values apk_signing_block;
  if negb (dict_mem APK_SIGNATURE_SCHEME_V2_BLOCK_ID id_values)
  then Raises (SignatureNotFoundException SignatureEntryMissing)
  else
    let need_padding := dict_mem VERITY_PADDING_BLOCK_ID id_values in
    let id_values :=
      if need_padding then dict_del VERITY_PADDING_BLOCK_ID id_values else id_values in
    let channel_json := create_channel_info channel in
    channel_bytes ←
      match str_encode channel_json with
      | Some b => Returns b
      | None => Raises UnicodeEncodeError
      end;
    let id_values := dict_set WALLE_CHANNEL_BLOCK_ID channel_bytes id_values in
    new_apk_signing_block ← _create_apk_signing_block id_values;
    Returns (comment_length, central_dir_offset, apk_signing_block_offset,
             new_apk_signing_block).

(** The body of the [try] of [inject_channel]: the file system it
    leaves, and whether it ran to the end or raised. *)
Definition inject_channel_body (fs : filesystem) (source_apk target_apk : string)
    (channel : str) : filesystem * outcome unit :=
  match (if decide (source_apk = target_apk) then Returns fs
         else copy2 fs source_apk target_apk) with
  | Returns fs =>
      match plan_injection fs target_apk channel with
      | Returns (comment_length, central_dir_offset, apk_signing_block_offset,
                 new_apk_signing_block) =>
          with_open_rw fs target_apk (fun f =>
            write_signing_block f central_dir_offset apk_signing_block_offset
              new_apk_signing_block comment_length)
      | Raises e => (fs, Raises e)
      | Diverges => (fs, Diverges)
      end
  | Raises e => (fs, Raises e)
  | Diverges => (fs, Diverges)
  end.

(** [try: ...; return True except Exception: return False] *)
Definition inject_channel (fs : filesystem) (source_apk target_apk : string)
    (channel : str) : outcome (filesystem * bool) :=
  match inject_channel_body fs source_apk target_apk channel with
  | (fs', Returns _) => Returns (fs', true)
  | (fs', Raises _) => Returns (fs', false)
  | (_, Diverges) => Diverges
  end.

(** ** get_channel *)

(** The body of the [try] of [get_channel]; [None] is Python's [None]. *)
Definition get_channel_body (fs : filesystem) (apk_path : string)
    : outcome (option value) :=
  comment_length ← _get_comment_length fs apk_path;
  central_dir_offset ← _find_central_dir_start_offset fs apk_path comment_length;
  '(apk_signing_block, _) ← _find_apk_signing_block fs apk_path central_dir_offset;
  id_values ← _find_id_values apk_signing_block;
  if dict_mem WALLE_CHANNEL_BLOCK_ID id_values then
    match dict_get WALLE_CHANNEL_BLOCK_ID id_values with
    | Some channel_value =>
        channel_info_ ← parse_channel_info channel_value;
        channel ← info_get_channel channel_info_;
        Returns channel
    | None => Returns None
    end
  else Returns None.

(** [try: ... except Exception: return None] *)
Definition get_channel (fs : filesystem) (apk_path : string)
    : outcome (option value) :=
  match get_channel_body fs apk_path with
  | Returns channel => Returns channel
  | Raises _ => Returns None
  | Diverges => Diverges
  end.

End WallePythonImpl.

(** ** A small instance of the library interface

    Texts are byte strings; [json_dumps_channel] writes the object with
    the single key [channel] and no escapes, and [json_loads] reads back
    exactly that shape. It stands for the Python library on channel
    names made of plain ASCII letters, digits and underscores, and is
    used to run the embedding on concrete archives. *)

Definition ascii (s : string) : bytes := String.list_byte_of_string s.

Definition quote : bytes := [x22].

(** [{"channel": "] and ["}] *)
Definition json_prefix : bytes :=
  ascii "{" ++ quote ++ ascii "channel" ++ quote ++ ascii ": " ++ quote.
Definition json_suffix : bytes := quote ++ ascii "}".

Fixpoint strip_prefix_bytes (p s : bytes) : option bytes :=
  match p, s with
  | [], _ => Some s
  | x :: p', y :: s' => if Byte.eqb x y then strip_prefix_bytes p' s' else None
  | _ :: _, [] => None
  end.

Definition strip_suffix_bytes (p s : bytes) : option bytes :=
  match strip_prefix_bytes (rev p) (rev s) with
  | Some r => Some (rev r)
  | None => None
  end.

Inductive plain_value : Type :=
| PText (s : bytes)            (* a text *)
| PObject (channel : bytes).   (* {'channel': text} *)

Definition plain_loads (s : bytes) : option plain_value :=
  match strip_prefix_bytes json_prefix s with
  | Some r =>
      match strip_suffix_bytes json_suffix r with
      | Some c => Some (PObject c)
      | None => None
      end
  | None => None
  end.

#[export] Instance plain_lib : PyLib := {|
  str := bytes;
  value := plain_value;
  value_of_str := PText;
  json_dumps_channel := fun c => json_prefix ++ c ++ json_suffix;
  str_encode := Some;
  bytes_decode := Some;
  bytes_decode_ignore := fun b => b;
  json_loads := fun s =>
    match plain_loads s with
    | Some v => Parsed v
    | None => DecodeError
    end;
  value_get_channel := fun v =>
    match v with
    | PObject c => Some (Some (PText c))
    | PText _ => None
    end
|}.

(** ** Archives for the examples *)

(** One pair entry, well formed. *)
Definition pair_entry (id : Z) (v : bytes) : bytes :=
  Z_to_le 8 (4 + len v) ++ Z_to_le 4 id ++ v.

(** A signing container around the given pair bytes. *)
Definition container (pairs : bytes) : bytes :=
  Z_to_le 8 (len pairs + 24) ++ pairs ++ Z_to_le 8 (len pairs + 24)
    ++ Z_to_le 8 APK_SIG_BLOCK_MAGIC_LO ++ Z_to_le 8 APK_SIG_BLOCK_MAGIC_HI.

(** An end-of-central-directory record with its comment. *)
Definition eocd_record (cd_size cd_offset : Z) (comment : bytes) : bytes :=
  Z_to_le 4 EOCD_SIGNATURE ++ Z_to_le 2 0 ++ Z_to_le 2 0 ++ Z_to_le 2 1 ++ Z_to_le 2 1
    ++ Z_to_le 4 cd_size ++ Z_to_le 4 cd_offset ++ Z_to_le 2 (len comment) ++ comment.

(** Entries, signing container, central directory, EOCD. *)
Definition archive (entries pairs central_dir : bytes) (cd_size : Z) (comment : bytes)
    : bytes :=
  entries ++ container pairs ++ central_dir
    ++ eocd_record cd_size (len entries + len (container pairs)) comment.

Definition v2_signature : bytes := ascii "signature-bytes".

(** A signed archive that was never injected. *)
Definition signed_apk : bytes :=
  archive (ascii "zip-entries") (pair_entry APK_SIGNATURE_SCHEME_V2_BLOCK_ID v2_signature)
    (ascii "central-dir") 11 [].

(** An archive whose container has no v2 signature entry. *)
Definition unsigned_apk : bytes :=
  archive (ascii "zip-entries") (pair_entry 0x12345678 (ascii "other"))
    (ascii "central-dir") 11 [].

(** A container whose single entry declares 1000 bytes but has 7. *)
Definition overlong_container : bytes :=
  container (Z_to_le 8 1000 ++ Z_to_le 4 APK_SIGNATURE_SCHEME_V2_BLOCK_ID ++ ascii "payload").

(** A signed archive with a 13-byte comment whose EOCD record holds the
    bytes 50 4b 05 right before its central-directory offset field (the
    upper bytes of the central-directory size). *)
Definition ambiguous_apk : bytes :=
  archive (replicate 175 x00) (pair_entry APK_SIGNATURE_SCHEME_V2_BLOCK_ID v2_signature)
    (ascii "central-dir") 0x054b5000 (replicate 13 x00).

(** ** Vocabulary of the statements *)

(** The unsigned little-endian field of [n] bytes at offset [off]. *)
Definition field (n : nat) (data : bytes) (off : Z) : Z :=
  le_to_Z (take n (drop (Z.to_nat off) data)).

(** Comment length [c] passes both checks of the EOCD scan: the
    signature at [size - 22 - c] and the comment-length field at
    [size - 2 - c]. *)
Definition eocd_candidate (data : bytes) (c : Z) : bool :=
  (field 4 data (len data - 22 - c) =? EOCD_SIGNATURE)
  && (field 2 data (len data - 2 - c) =? c).

(** The keys of a dict are pairwise distinct 32-bit identifiers. *)
Definition dict_ok (d : dict) : Prop :=
  NoDup (d.*1) /\ Forall (fun kv => 0 <= kv.1 < 2 ^ 32) d.

(** The locator as the specification words it: footer at [cd - 24],
    magic check, size and start, range check, header cross-check. *)
Definition signing_block_spec (data : bytes) (cd : Z) : outcome (bytes * Z) :=
  if cd <? 32 then Raises (SignatureNotFoundException BlockTooSmall)
  else if len data <? cd then Raises StructError
  else if negb (field 8 data (cd - 16) =? APK_SIG_BLOCK_MAGIC_LO)
          || negb (field 8 data (cd - 8) =? APK_SIG_BLOCK_MAGIC_HI)
  then Raises (SignatureNotFoundException BadMagic)
  else
    let footer_size := field 8 data (cd - 24) in
    let size := footer_size + 8 in
    let start := cd - size in
    if start <? 0 then Raises (SignatureNotFoundException OffsetOutOfRange)
    else if negb (field 8 data start =? footer_size)
    then Raises (SignatureNotFoundException SizeMismatch)
    else Returns (take (Z.to_nat size) (drop (Z.to_nat start) data), start).

(** The pair bytes of a dict, entry after entry in dict order. *)
Definition pairs_bytes (d : dict) : bytes :=
  flat_map (fun kv => pair_entry kv.1 kv.2) d.

(** An entry that [struct.pack] accepts: a 32-bit identifier and a
    64-bit entry size. *)
Definition entry_fits (kv : Z * bytes) : Prop :=
  0 <= kv.1 < 2 ^ 32 /\ 4 + len kv.2 < 2 ^ 64.

(** The three locating steps succeed on the file at [path]: comment
    length [c], central-directory offset [cd], signing container
    [block] at offset [off]. *)
Definition located (fs : filesystem) (path : string) (c cd : Z) (block : bytes) (off : Z)
    : Prop :=
  _get_comment_length fs path = Returns c
  /\ _find_central_dir_start_offset fs path c = Returns cd
  /\ _find_apk_signing_block fs path cd = Returns (block, off).

(** The dict that [inject_channel] encodes: padding entry dropped,
    channel entry set. *)
Definition injected_dict (d : dict) (channel_bytes : bytes) : dict :=
  dict_set WALLE_CHANNEL_BLOCK_ID channel_bytes
    (if dict_mem VERITY_PADDING_BLOCK_ID d then dict_del VERITY_PADDING_BLOCK_ID d else d).

(** The file after the container at [off .. cd) is replaced by [nb]. *)
Definition rewritten (data : bytes) (off cd : Z) (nb : bytes) : bytes :=
  take (Z.to_nat off) data ++ nb ++ drop (Z.to_nat cd) data.

(** The file with the 4-byte field at [size - c - 6] set to [v]. *)
Definition patched (data : bytes) (c v : Z) : bytes :=
  let p := Z.to_nat (len data - c - 6) in
  take p data ++ Z_to_le 4 v ++ drop (p + 4) data.

(** Injection stops in steps 2 to 4 with exception [e]: the EOCD scan,
    the central-directory offset read, the container locator, the pair
    decoder or the check for the v2 signature entry raises. *)
Inductive early_failure (fs : filesystem) (path : string) (e : exn) : Prop :=
| fail_eocd :
    _get_comment_length fs path = Raises e -> early_failure fs path e
| fail_central_dir (c : Z) :
    _get_comment_length fs path = Returns c ->
    _find_central_dir_start_offset fs path c = Raises e -> early_failure fs path e
| fail_locator (c cd : Z) :
    _get_comment_length fs path = Returns c ->
    _find_central_dir_start_offset fs path c = Returns cd ->
    _find_apk_signing_block fs path cd = Raises e -> early_failure fs path e
| fail_decode (c cd off : Z) (block : bytes) :
    located fs path c cd block off ->
    _find_id_values block = Raises e -> early_failure fs path e
| fail_gate (c cd off : Z) (block : bytes) (d : dict) :
    located fs path c cd block off ->
    _find_id_values block = Returns d ->
    dict_mem APK_SIGNATURE_SCHEME_V2_BLOCK_ID d = false ->
    e = SignatureNotFoundException SignatureEntryMissing ->
    early_failure fs path e.

(** A file system for the examples. *)
Definition demo_fs : filesystem :=
  {[ "signed.apk"%string := signed_apk;
     "unsigned.apk"%string := unsigned_apk;
     "ambiguous.apk"%string := ambiguous_apk;
     "broken.apk"%string := ascii "not a zip archive" ]}.

(** The containers of [signed_apk] and [unsigned_apk], and what
    injecting the channel [test_channel_123] into [signed_apk] with the
    small library instance writes. *)
Definition signed_container : bytes :=
  container (pair_entry APK_SIGNATURE_SCHEME_V2_BLOCK_ID v2_signature).

Definition unsigned_container : bytes :=
  container (pair_entry 0x12345678 (ascii "other")).

Definition test_channel : bytes := ascii "test_channel_123".

Definition test_channel_bytes : bytes := json_prefix ++ test_channel ++ json_suffix.

Definition injected_container : bytes :=
  container (pairs_bytes [(APK_SIGNATURE_SCHEME_V2_BLOCK_ID, v2_signature);
                          (WALLE_CHANNEL_BLOCK_ID, test_channel_bytes)]).

Definition injected_apk : bytes :=
  patched (rewritten signed_apk 11 70 injected_container) 0 (11 + len injected_container).

(** ** Vocabulary of the further properties *)

(** The value of the last entry under identifier [k] in a sequence of
    entries, if there is one. *)
Fixpoint last_value (k : Z) (l : dict) : option bytes :=
  match l with
  | [] => None
  | (k', v) :: r =>
      match last_value k r with
      | Some w => Some w
      | None => if k' =? k then Some v else None
      end
  end.

(** The bytes that the entry under [k] takes in the pair section:
    8 of size, 4 of identifier and the value; 0 when [k] is absent. *)
Definition entry_span (k : Z) (d : dict) : Z :=
  match dict_get k d with
  | Some v => 12 + len v
  | None => 0
  end.

(** A container with two entries under the same identifier. *)
Definition duplicate_entries : dict :=
  [(APK_SIGNATURE_SCHEME_V2_BLOCK_ID, ascii "first");
   (0x12345678, ascii "other");
   (APK_SIGNATURE_SCHEME_V2_BLOCK_ID, ascii "second")].

(** A signed archive whose channel entry holds plain text, not JSON. *)
Definition legacy_container : bytes :=
  container (pairs_bytes [(APK_SIGNATURE_SCHEME_V2_BLOCK_ID, v2_signature);
                          (WALLE_CHANNEL_BLOCK_ID, ascii "huawei")]).

Definition legacy_apk : bytes :=
  ascii "zip-entries" ++ legacy_container ++ ascii "central-dir"
    ++ eocd_record 11 (11 + len legacy_container) [].

(** A signed archive with a verity padding entry. *)
Definition padded_entries : dict :=
  [(APK_SIGNATURE_SCHEME_V2_BLOCK_ID, v2_signature);
   (VERITY_PADDING_BLOCK_ID, replicate 20 x00);
   (0x12345678, ascii "other")].

(** A second channel, and what injecting it into [signed_apk] writes. *)
Definition other_channel : bytes := ascii "huawei".

Definition other_channel_bytes : bytes := json_prefix ++ other_channel ++ json_suffix.

Definition reinjected_container : bytes :=
  container (pairs_bytes [(APK_SIGNATURE_SCHEME_V2_BLOCK_ID, v2_signature);
                          (WALLE_CHANNEL_BLOCK_ID, other_channel_bytes)]).

Definition reinjected_apk : bytes :=
  patched (rewritten signed_apk 11 70 reinjected_container) 0 (11 + len reinjected_container).

(** A file system with the legacy archive. *)
Definition legacy_fs : filesystem := {[ "legacy.apk"%string := legacy_apk ]}.

(** An archive whose container lies inside the EOCD comment: the EOCD
    record starts at offset 3, its comment of 63 bytes holds the
    container of [signed_apk] at offset 27, and the central-directory
    offset field says 86, the end of that container. *)
Definition inside_apk : bytes :=
  ascii "zip" ++ eocd_record 11 86 (ascii "--" ++ signed_container ++ ascii "cd").

Definition inside_fs : filesystem := {[ "inside.apk"%string := inside_apk ]}.

(* ================================================================== *)
(** * Properties *)

(** ** Integers and bytes *)

Lemma len_nonneg (b : bytes) : 0 <= len b.
Proof. unfold len. lia. Qed.

Lemma len_app (a b : bytes) : len (a ++ b) = len a + len b.
Proof. unfold len. rewrite length_app. lia. Qed.

Lemma len_nil : len [] = 0.
Proof. reflexivity. Qed.

Lemma byte_val_range (b : byte) : 0 <= byte_val b < 256.
Proof.
  unfold byte_val. pose proof (Byte.to_N_bounded b). lia.
Qed.

Lemma byte_val_of_Z (z : Z) : 0 <= z < 256 -> byte_val (byte_of_Z z) = z.
Proof.
  intros Hz. unfold byte_val, byte_of_Z.
  destruct (Byte.of_N (Z.to_N z)) as [b|] eqn:E.
  - apply Byte.to_of_N in E. rewrite E. lia.
  - apply Byte.of_N_None_iff in E. lia.
Qed.

Lemma byte_of_Z_val (b : byte) : byte_of_Z (byte_val b) = b.
Proof.
  unfold byte_val, byte_of_Z. rewrite N2Z.id, Byte.of_to_N. reflexivity.
Qed.

Lemma le_to_Z_range (b : bytes) : 0 <= le_to_Z b < 256 ^ len b.
Proof.
  induction b as [|x r IH]; simpl.
  - unfold len. simpl. lia.
  - pose proof (byte_val_range x).
    replace (len (x :: r)) with (Z.succ (len r)) by (unfold len; simpl; lia).
    rewrite Z.pow_succ_r by apply len_nonneg. lia.
Qed.

Lemma length_Z_to_le (n : nat) (v : Z) : length (Z_to_le n v) = n.
Proof. revert v. induction n; intros v; simpl; auto. Qed.

Lemma len_Z_to_le (n : nat) (v : Z) : len (Z_to_le n v) = Z.of_nat n.
Proof. unfold len. rewrite length_Z_to_le. reflexivity. Qed.

Lemma le_to_Z_to_le (n : nat) (v : Z) :
  0 <= v < 256 ^ Z.of_nat n -> le_to_Z (Z_to_le n v) = v.
Proof.
  revert v. induction n as [|n IH]; intros v Hv.
  - simpl in *. lia.
  - rewrite Nat2Z.inj_succ, Z.pow_succ_r in Hv by lia.
    simpl Z_to_le. simpl le_to_Z.
    rewrite byte_val_of_Z by (apply Z.mod_pos_bound; lia).
    rewrite IH.
    + pose proof (Z.div_mod v 256). lia.
    + split; [apply Z.div_pos; lia | apply Z.div_lt_upper_bound; lia].
Qed.

Lemma Z_to_le_to_Z (b : bytes) : Z_to_le (length b) (le_to_Z b) = b.
Proof.
  induction b as [|x r IH]; simpl; [reflexivity|].
  pose proof (byte_val_range x).
  replace ((byte_val x + 256 * le_to_Z r) mod 256) with (byte_val x)
    by (apply (Z.mod_unique_pos _ _ (le_to_Z r)); lia).
  replace ((byte_val x + 256 * le_to_Z r) / 256) with (le_to_Z r)
    by (apply (Z.div_unique_pos _ _ _ (byte_val x)); lia).
  rewrite byte_of_Z_val, IH. reflexivity.
Qed.

(** ** struct.pack and struct.unpack *)

Lemma struct_unpack_Returns (n : nat) (b : bytes) :
  length b = n -> struct_unpack n b = Returns (le_to_Z b).
Proof.
  intros E. unfold struct_unpack. rewrite (proj2 (Nat.eqb_eq _ _) E). reflexivity.
Qed.

Lemma struct_unpack_inv (n : nat) (b : bytes) (v : Z) :
  struct_unpack n b = Returns v -> length b = n /\ v = le_to_Z b.
Proof.
  unfold struct_unpack. destruct (Nat.eqb_spec (length b) n); [|discriminate].
  intros [= <-]. auto.
Qed.

Lemma struct_unpack_cases (n : nat) (b : bytes) :
  struct_unpack n b = Returns (le_to_Z b) /\ length b = n
  \/ struct_unpack n b = Raises StructError /\ length b <> n.
Proof.
  unfold struct_unpack. destruct (Nat.eqb_spec (length b) n); auto.
Qed.

Lemma struct_pack_Returns (n : nat) (v : Z) :
  0 <= v < 256 ^ Z.of_nat n -> struct_pack n v = Returns (Z_to_le n v).
Proof.
  intros [H1 H2]. unfold struct_pack.
  rewrite (proj2 (Z.leb_le _ _) H1), (proj2 (Z.ltb_lt _ _) H2). reflexivity.
Qed.

Lemma struct_pack_inv (n : nat) (v : Z) (b : bytes) :
  struct_pack n v = Returns b -> 0 <= v < 256 ^ Z.of_nat n /\ b = Z_to_le n v.
Proof.
  unfold struct_pack.
  destruct (Z.leb_spec 0 v); [|discriminate].
  destruct (Z.ltb_spec v (256 ^ Z.of_nat n)); [|discriminate].
  simpl. intros [= <-]. auto.
Qed.

Lemma struct_pack_cases (n : nat) (v : Z) :
  struct_pack n v = Returns (Z_to_le n v) /\ 0 <= v < 256 ^ Z.of_nat n
  \/ struct_pack n v = Raises StructError.
Proof.
  unfold struct_pack.
  destruct (Z.leb_spec 0 v); [|auto].
  destruct (Z.ltb_spec v (256 ^ Z.of_nat n)); simpl; auto.
Qed.

(** ** Slices and reads *)

Lemma slice_nonneg (b : bytes) (i j : Z) :
  0 <= i -> 0 <= j ->
  slice b i j = take (Z.to_nat (j - i)) (drop (Z.to_nat i) b).
Proof.
  intros Hi Hj. unfold slice, clamp.
  destruct (Z.ltb_spec i 0); [lia|]. destruct (Z.ltb_spec j 0); [lia|].
  pose proof (len_nonneg b) as Hl. unfold len in *.
  destruct (Z.le_gt_cases i (Z.of_nat (length b))) as [Hil|Hil].
  - rewrite (Z.min_l i) by lia.
    destruct (Z.le_gt_cases j (Z.of_nat (length b))) as [Hjl|Hjl].
    + rewrite (Z.min_l j) by lia. reflexivity.
    + rewrite (Z.min_r j) by lia.
      rewrite !take_ge; [reflexivity | rewrite length_drop; lia ..].
  - rewrite (Z.min_r i) by lia.
    rewrite !drop_ge by lia. rewrite !take_nil. reflexivity.
Qed.

Lemma read_at_Returns (data : bytes) (pos n : Z) :
  0 <= pos ->
  read_at data pos n = Returns (take (Z.to_nat n) (drop (Z.to_nat pos) data)).
Proof.
  intros Hp. unfold read_at. destruct (Z.ltb_spec pos 0); [lia|reflexivity].
Qed.

Lemma length_take_drop (data : bytes) (pos n : Z) :
  0 <= pos -> 0 <= n -> pos + n <= len data ->
  length (take (Z.to_nat n) (drop (Z.to_nat pos) data)) = Z.to_nat n.
Proof.
  intros Hp Hn Hl. unfold len in Hl. rewrite length_take, length_drop. lia.
Qed.

Lemma open_rb_Returns (fs : filesystem) (path : string) (data : bytes) :
  fs !! path = Some data -> open_rb fs path = Returns data.
Proof. intros E. unfold open_rb. rewrite E. reflexivity. Qed.

(** ** The EOCD scan *)

Lemma read_field (n : nat) (data : bytes) (pos : Z) :
  0 <= pos -> pos + Z.of_nat n <= len data ->
  (b ← read_at data pos (Z.of_nat n); struct_unpack n b) = Returns (field n data pos).
Proof.
  intros Hp Hl. rewrite read_at_Returns by lia. simpl.
  rewrite struct_unpack_Returns by (rewrite length_take_drop; lia).
  rewrite Nat2Z.id. reflexivity.
Qed.

Lemma scan_eocd_step (data : bytes) (n : nat) (c : Z) :
  0 <= c -> c <= len data - 22 ->
  scan_eocd data (len data) (S n) c =
    if eocd_candidate data c then Returns c
    else scan_eocd data (len data) n (c + 1).
Proof.
  intros Hc Hl. simpl scan_eocd.
  rewrite (read_at_Returns data (len data - 22 - c) 4) by lia.
  rewrite (read_at_Returns data (len data - 22 - c + 20) 2) by lia.
  replace (len data - 22 - c + 20) with (len data - 2 - c) by lia.
  unfold mbind, outcome_bind.
  rewrite (struct_unpack_Returns 4) by (rewrite (length_take_drop data _ 4); lia).
  rewrite (struct_unpack_Returns 2) by (rewrite (length_take_drop data _ 2); lia).
  unfold eocd_candidate, field.
  change (Z.to_nat 4) with 4%nat. change (Z.to_nat 2) with 2%nat.
  destruct (_ =? EOCD_SIGNATURE); [|reflexivity]. simpl.
  destruct (Z.eqb_spec (le_to_Z (take 2 (drop (Z.to_nat (len data - 2 - c)) data))) c)
    as [->|]; reflexivity.
Qed.

Lemma scan_eocd_spec (data : bytes) (n : nat) (c0 : Z) :
  0 <= c0 -> (n = 0%nat \/ c0 + Z.of_nat n <= len data - 22 + 1) ->
  match scan_eocd data (len data) n c0 with
  | Returns c =>
      c0 <= c < c0 + Z.of_nat n /\ eocd_candidate data c = true
      /\ forall c', c0 <= c' < c -> eocd_candidate data c' = false
  | Raises e =>
      e = SignatureNotFoundException EocdNotFound
      /\ forall c', c0 <= c' < c0 + Z.of_nat n -> eocd_candidate data c' = false
  | Diverges => False
  end.
Proof.
  revert c0. induction n as [|n IH]; intros c0 H0 Hn.
  - simpl. split; [reflexivity|]. intros c' Hc'. lia.
  - rewrite scan_eocd_step by lia.
    destruct (eocd_candidate data c0) eqn:E.
    + split; [lia|]. split; [exact E|]. intros c' Hc'. lia.
    + specialize (IH (c0 + 1) ltac:(lia) ltac:(lia)).
      destruct (scan_eocd data (len data) n (c0 + 1)) as [c|e|]; [| |exact IH].
      * destruct IH as (Hr & Hc & Hmin). split; [lia|]. split; [exact Hc|].
        intros c' Hc'. destruct (Z.eq_dec c' c0) as [->|]; [exact E|].
        apply Hmin. lia.
      * destruct IH as (He & Hall). split; [exact He|].
        intros c' Hc'. destruct (Z.eq_dec c' c0) as [->|]; [exact E|].
        apply Hall. lia.
Qed.

(** What [comment_length_of] computes: the least comment length in
    [0 .. min (size - 22) 65535] that passes both checks, or the
    not-found exception when there is none. *)
Lemma comment_length_of_spec (data : bytes) :
  match comment_length_of data with
  | Returns c =>
      0 <= c <= Z.min (len data - 22) 65535 /\ eocd_candidate data c = true
      /\ forall c', 0 <= c' < c -> eocd_candidate data c' = false
  | Raises e =>
      e = SignatureNotFoundException EocdNotFound
      /\ forall c', 0 <= c' <= Z.min (len data - 22) 65535 ->
           eocd_candidate data c' = false
  | Diverges => False
  end.
Proof.
  unfold comment_length_of.
  remember (Z.min (len data - 22) 65535) as m eqn:Em.
  pose proof (scan_eocd_spec data (Z.to_nat (m + 1)) 0 ltac:(lia)) as S.
  assert (Hb : Z.to_nat (m + 1) = 0%nat
               \/ 0 + Z.of_nat (Z.to_nat (m + 1)) <= len data - 22 + 1) by lia.
  specialize (S Hb).
  destruct (scan_eocd data (len data) (Z.to_nat (m + 1)) 0) as [c|e|]; [| |exact S].
  - destruct S as (Hr & Hc & Hmin). split; [lia|]. auto.
  - destruct S as (He & Hall). split; [exact He|]. intros c' Hc'. apply Hall. lia.
Qed.

Lemma comment_length_of_Returns (data : bytes) (c : Z) :
  0 <= c <= Z.min (len data - 22) 65535 ->
  eocd_candidate data c = true ->
  (forall c', 0 <= c' < c -> eocd_candidate data c' = false) ->
  comment_length_of data = Returns c.
Proof.
  intros Hr Hc Hmin. pose proof (comment_length_of_spec data) as S.
  destruct (comment_length_of data) as [c1|e|]; [| |contradiction].
  - destruct S as (Hr1 & Hc1 & Hmin1).
    destruct (Z.lt_trichotomy c c1) as [Hlt|[->|Hgt]]; [|reflexivity|].
    + rewrite Hmin1 in Hc by lia. discriminate.
    + rewrite Hmin in Hc1 by lia. discriminate.
  - destruct S as (_ & Hall). rewrite Hall in Hc by lia. discriminate.
Qed.

(** ** The signing-block locator *)

Lemma slice_take_drop (data : bytes) (pos n i j : Z) :
  0 <= pos -> 0 <= i -> i <= j -> j <= n ->
  slice (take (Z.to_nat n) (drop (Z.to_nat pos) data)) i j
  = take (Z.to_nat (j - i)) (drop (Z.to_nat (pos + i)) data).
Proof.
  intros Hp Hi Hij Hjn. rewrite slice_nonneg by lia.
  rewrite skipn_firstn_comm, take_take, drop_drop.
  f_equal; [lia|]. f_equal. lia.
Qed.

Lemma length_take_drop_short (data : bytes) (pos : Z) (n : nat) :
  (0 < n)%nat -> 0 <= pos -> len data < pos + Z.of_nat n ->
  length (take n (drop (Z.to_nat pos) data)) <> n.
Proof.
  intros Hn Hp Hl. unfold len in Hl. rewrite length_take, length_drop. lia.
Qed.

Lemma field_nonneg (n : nat) (data : bytes) (off : Z) : 0 <= field n data off.
Proof. unfold field. apply le_to_Z_range. Qed.

Lemma signing_block_in_spec (data : bytes) (cd : Z) :
  32 <= cd -> signing_block_in data cd = signing_block_spec data cd.
Proof.
  intros Hcd. unfold signing_block_in, signing_block_spec.
  destruct (Z.ltb_spec cd 32); [lia|].
  rewrite (read_at_Returns data (cd - 24) 24) by lia.
  unfold mbind at 1, outcome_bind at 1.
  rewrite (slice_take_drop data (cd - 24) 24 8 16) by lia.
  rewrite (slice_take_drop data (cd - 24) 24 16 24) by lia.
  rewrite (slice_take_drop data (cd - 24) 24 0 8) by lia.
  replace (cd - 24 + 8) with (cd - 16) by lia.
  replace (cd - 24 + 16) with (cd - 8) by lia.
  replace (cd - 24 + 0) with (cd - 24) by lia.
  change (Z.to_nat (16 - 8)) with 8%nat. change (Z.to_nat (24 - 16)) with 8%nat.
  change (Z.to_nat (8 - 0)) with 8%nat.
  destruct (Z.ltb_spec (len data) cd) as [Hshort|Hlong].
  - (* the footer read came back short *)
    destruct (struct_unpack_cases 8 (take 8 (drop (Z.to_nat (cd - 16)) data)))
      as [[-> _]|[-> _]]; [|reflexivity].
    unfold mbind at 1, outcome_bind at 1.
    destruct (struct_unpack_cases 8 (take 8 (drop (Z.to_nat (cd - 8)) data)))
      as [[_ E]|[-> _]]; [|reflexivity].
    exfalso. revert E. apply length_take_drop_short; lia.
  - rewrite !struct_unpack_Returns
      by (rewrite (length_take_drop data _ 8); lia).
    unfold mbind, outcome_bind. fold (field 8 data (cd - 16)).
    fold (field 8 data (cd - 8)). fold (field 8 data (cd - 24)).
    destruct (negb _ || negb _); [reflexivity|].
    pose proof (field_nonneg 8 data (cd - 24)) as Hfs.
    set (fsz := field 8 data (cd - 24)) in *.
    destruct (Z.ltb_spec (cd - (fsz + 8)) 0) as [|Hoff]; [reflexivity|].
    rewrite read_at_Returns by lia.
    rewrite (slice_take_drop data (cd - (fsz + 8)) (fsz + 8) 0 8) by lia.
    replace (cd - (fsz + 8) + 0) with (cd - (fsz + 8)) by lia.
    change (Z.to_nat (8 - 0)) with 8%nat.
    rewrite struct_unpack_Returns by (rewrite (length_take_drop data _ 8); lia).
    fold (field 8 data (cd - (fsz + 8))).
    destruct (negb _); reflexivity.
Qed.

(** ** The pair decoder *)

Lemma length_take_drop_nat (data : bytes) (pos : Z) (n : nat) :
  0 <= pos -> pos + Z.of_nat n <= len data ->
  length (take n (drop (Z.to_nat pos) data)) = n.
Proof.
  intros Hp Hl. unfold len in Hl. rewrite length_take, length_drop. lia.
Qed.

(** One iteration of the [while] loop, for a cursor before the footer. *)
Lemma find_id_values_loop_step (fuel : nat) (block : bytes) (end_ pos : Z) (d : dict) :
  0 <= pos -> pos < end_ -> end_ <= len block - 24 ->
  find_id_values_loop (S fuel) block end_ pos d
  = find_id_values_loop fuel block end_ (pos + 8 + field 8 block pos)
      (dict_set (field 4 block (pos + 8))
         (take (Z.to_nat (field 8 block pos - 4)) (drop (Z.to_nat (pos + 12)) block)) d).
Proof.
  intros Hp Hlt Hend. simpl find_id_values_loop.
  destruct (Z.ltb_spec pos end_); [|lia].
  rewrite !slice_nonneg by (pose proof (field_nonneg 8 block pos); unfold field in *; lia).
  replace (pos + 8 - pos) with 8 by lia.
  replace (pos + 8 + 4 - (pos + 8)) with 4 by lia.
  change (Z.to_nat 8) with 8%nat. change (Z.to_nat 4) with 4%nat.
  rewrite (struct_unpack_Returns 8)
    by (apply length_take_drop_nat; lia).
  unfold mbind at 1, outcome_bind at 1.
  rewrite (struct_unpack_Returns 4)
    by (apply length_take_drop_nat; lia).
  unfold mbind at 1, outcome_bind at 1.
  fold (field 8 block pos). fold (field 4 block (pos + 8)).
  rewrite slice_nonneg by (pose proof (field_nonneg 8 block pos); lia).
  f_equal; [lia|]. f_equal. f_equal; [f_equal; lia|]. f_equal. lia.
Qed.

(** The loop always comes to an end: it neither raises nor runs out of
    fuel when the fuel covers the distance to the footer. *)
Lemma find_id_values_loop_fuel (fuel : nat) (block : bytes) (end_ pos : Z) (d : dict) :
  0 <= pos -> end_ <= len block - 24 -> end_ - pos <= Z.of_nat fuel ->
  exists d', find_id_values_loop fuel block end_ pos d = Returns d'.
Proof.
  revert pos d. induction fuel as [|fuel IH]; intros pos d Hp Hend Hf.
  - simpl. destruct (Z.ltb_spec pos end_); [lia|]. eauto.
  - destruct (Z.lt_ge_cases pos end_) as [Hlt|Hge].
    + rewrite find_id_values_loop_step by lia.
      pose proof (field_nonneg 8 block pos).
      apply IH; lia.
    + simpl. destruct (Z.ltb_spec pos end_); [lia|]. eauto.
Qed.

Lemma _find_id_values_total (block : bytes) :
  exists d, _find_id_values block = Returns d.
Proof.
  unfold _find_id_values. apply find_id_values_loop_fuel; unfold len; lia.
Qed.

(** An entry whose declared length carries the cursor to or past the
    footer start is the last one decoded; its value is what the slice
    finds, cut at the end of the container. *)
Lemma find_id_values_loop_overrun (fuel : nat) (block : bytes) (pos : Z) (d : dict) :
  0 <= pos -> pos < len block - 24 ->
  len block - 24 <= pos + 8 + field 8 block pos ->
  find_id_values_loop (S fuel) block (len block - 24) pos d
  = Returns (dict_set (field 4 block (pos + 8))
               (take (Z.to_nat (field 8 block pos - 4)) (drop (Z.to_nat (pos + 12)) block)) d).
Proof.
  intros Hp Hlt Hover. rewrite find_id_values_loop_step by lia.
  destruct fuel; simpl;
    (destruct (Z.ltb_spec (pos + 8 + field 8 block pos) (len block - 24)); [lia|reflexivity]).
Qed.

(** ** The dict *)

Lemma dict_get_set_eq (k : Z) (v : bytes) (d : dict) :
  dict_get k (dict_set k v d) = Some v.
Proof.
  induction d as [|[k' v'] r IH]; simpl.
  - rewrite Z.eqb_refl. reflexivity.
  - destruct (Z.eqb_spec k' k) as [->|Hne]; simpl.
    + rewrite Z.eqb_refl. reflexivity.
    + destruct (Z.eqb_spec k' k); [contradiction|]. exact IH.
Qed.

Lemma dict_get_set_ne (k k' : Z) (v : bytes) (d : dict) :
  k <> k' -> dict_get k' (dict_set k v d) = dict_get k' d.
Proof.
  intros Hne. induction d as [|[k0 v0] r IH]; simpl.
  - destruct (Z.eqb_spec k k'); [contradiction|]. reflexivity.
  - destruct (Z.eqb_spec k0 k) as [->|H0]; simpl.
    + destruct (Z.eqb_spec k k'); [contradiction|]. reflexivity.
    + destruct (Z.eqb_spec k0 k'); [reflexivity|]. exact IH.
Qed.

Lemma dict_get_del_ne (k k' : Z) (d : dict) :
  k <> k' -> dict_get k' (dict_del k d) = dict_get k' d.
Proof.
  intros Hne. induction d as [|[k0 v0] r IH]; simpl; [reflexivity|].
  destruct (Z.eqb_spec k0 k) as [->|H0]; simpl.
  - destruct (Z.eqb_spec k k'); [contradiction|]. reflexivity.
  - destruct (Z.eqb_spec k0 k'); [reflexivity|]. exact IH.
Qed.

Lemma dict_mem_get (k : Z) (d : dict) :
  dict_mem k d = true <-> exists v, dict_get k d = Some v.
Proof.
  unfold dict_mem. destruct (dict_get k d) as [v|].
  - split; eauto.
  - split; [discriminate|]. intros [v Hv]. discriminate.
Qed.

Lemma dict_get_None_keys (k : Z) (d : dict) :
  dict_get k d = None <-> k ∉ d.*1.
Proof.
  induction d as [|[k0 v0] r IH]; simpl.
  - split; [intros _; apply not_elem_of_nil | reflexivity].
  - rewrite not_elem_of_cons. destruct (Z.eqb_spec k0 k) as [->|H0].
    + split; [discriminate | intros [Hk _]; contradiction].
    + rewrite IH. split; [intros Hr; split; [congruence | exact Hr] | intros [_ Hr]; exact Hr].
Qed.

Lemma dict_set_fresh (k : Z) (v : bytes) (d : dict) :
  k ∉ d.*1 -> dict_set k v d = d ++ [(k, v)].
Proof.
  induction d as [|[k0 v0] r IH]; simpl; [reflexivity|].
  rewrite not_elem_of_cons. intros [Hk Hr].
  destruct (Z.eqb_spec k0 k); [congruence|]. rewrite IH by exact Hr. reflexivity.
Qed.

Lemma dict_set_keys (k x : Z) (v : bytes) (d : dict) :
  x ∈ (dict_set k v d).*1 <-> x = k \/ x ∈ d.*1.
Proof.
  induction d as [|[k0 v0] r IH]; simpl.
  - rewrite list_elem_of_singleton. split; [auto | intros [Hx|Hx]; [exact Hx|]].
    apply elem_of_nil in Hx. contradiction.
  - destruct (Z.eqb_spec k0 k) as [->|H0]; simpl; rewrite !elem_of_cons.
    + tauto.
    + rewrite IH. tauto.
Qed.

Lemma dict_del_keys (k x : Z) (d : dict) :
  x ∈ (dict_del k d).*1 -> x ∈ d.*1.
Proof.
  induction d as [|[k0 v0] r IH]; simpl; [auto|].
  destruct (Z.eqb_spec k0 k) as [->|H0]; simpl; rewrite !elem_of_cons; tauto.
Qed.

Lemma dict_set_ok (k : Z) (v : bytes) (d : dict) :
  0 <= k < 2 ^ 32 -> dict_ok d -> dict_ok (dict_set k v d).
Proof.
  intros Hk [Hnd Hr]. split.
  - clear Hr. induction d as [|[k0 v0] r IH]; simpl.
    + apply NoDup_singleton.
    + apply NoDup_cons in Hnd as [Hk0 Hnd].
      destruct (Z.eqb_spec k0 k) as [->|H0]; simpl.
      * apply NoDup_cons. auto.
      * apply NoDup_cons. split; [|auto].
        rewrite dict_set_keys. intros [->|Hin]; [congruence | contradiction].
  - clear Hnd. induction d as [|[k0 v0] r IH]; simpl.
    + repeat constructor; simpl; lia.
    + apply Forall_cons in Hr as [H0 Hr].
      destruct (Z.eqb_spec k0 k) as [->|Hne]; apply Forall_cons; auto.
Qed.

Lemma dict_del_ok (k : Z) (d : dict) : dict_ok d -> dict_ok (dict_del k d).
Proof.
  intros [Hnd Hr]. split.
  - clear Hr. induction d as [|[k0 v0] r IH]; simpl; [exact Hnd|].
    apply NoDup_cons in Hnd as [Hk0 Hnd].
    destruct (Z.eqb_spec k0 k) as [->|H0]; simpl; [exact Hnd|].
    apply NoDup_cons. split; [|auto]. intros Hin. apply Hk0.
    eapply dict_del_keys. exact Hin.
  - clear Hnd. induction d as [|[k0 v0] r IH]; simpl; [exact Hr|].
    apply Forall_cons in Hr as [H0 Hr].
    destruct (Z.eqb_spec k0 k) as [->|Hne]; [exact Hr|]. apply Forall_cons; auto.
Qed.

Lemma dict_ok_nil : dict_ok [].
Proof. split; [apply NoDup_nil_2 | apply Forall_nil_2]. Qed.

(** Filling an empty dict from a list without repeated keys gives the
    list back. *)
Lemma fold_dict_set_nodup (d acc : dict) :
  NoDup (acc.*1 ++ d.*1) ->
  fold_left (fun a kv => dict_set kv.1 kv.2 a) d acc = acc ++ d.
Proof.
  revert acc. induction d as [|[k v] r IH]; intros acc Hnd; simpl.
  - rewrite app_nil_r. reflexivity.
  - rewrite dict_set_fresh.
    + rewrite IH.
      * rewrite <- app_assoc. reflexivity.
      * rewrite fmap_app. simpl. rewrite <- app_assoc. exact Hnd.
    + simpl in Hnd. apply NoDup_app in Hnd as (_ & Hdisj & _).
      intros Hin. apply (Hdisj k Hin). apply elem_of_cons. auto.
Qed.

(** The decoder keeps the dict well formed. *)
Lemma find_id_values_loop_ok (fuel : nat) (block : bytes) (end_ pos : Z) (d d' : dict) :
  0 <= pos -> end_ <= len block - 24 -> dict_ok d ->
  find_id_values_loop fuel block end_ pos d = Returns d' -> dict_ok d'.
Proof.
  revert pos d. induction fuel as [|fuel IH]; intros pos d Hp Hend Hd.
  - simpl. destruct (pos <? end_); [discriminate|]. intros [= <-]. exact Hd.
  - destruct (Z.lt_ge_cases pos end_) as [Hlt|Hge].
    + rewrite find_id_values_loop_step by lia.
      pose proof (field_nonneg 8 block pos).
      apply IH; [lia | lia |]. apply dict_set_ok; [|exact Hd].
      unfold field. pose proof (le_to_Z_range (take 4 (drop (Z.to_nat (pos + 8)) block))) as R.
      assert (len (take 4 (drop (Z.to_nat (pos + 8)) block)) <= 4)
        by (unfold len; rewrite length_take; lia).
      split; [lia|]. eapply Z.lt_le_trans; [apply R|].
      change (2 ^ 32) with (256 ^ 4). apply Z.pow_le_mono_r; lia.
    + simpl. destruct (Z.ltb_spec pos end_); [lia|]. intros [= <-]. exact Hd.
Qed.

Lemma _find_id_values_ok (block : bytes) (d : dict) :
  _find_id_values block = Returns d -> dict_ok d.
Proof.
  unfold _find_id_values. apply find_id_values_loop_ok; [lia | lia | apply dict_ok_nil].
Qed.

(** ** The pair encoder *)

Lemma pairs_of_cases (d : dict) (acc : bytes) :
  pairs_of d acc = Returns (acc ++ pairs_bytes d) /\ Forall entry_fits d
  \/ pairs_of d acc = Raises StructError /\ ~ Forall entry_fits d.
Proof.
  revert acc. induction d as [|[k v] r IH]; intros acc.
  - left. simpl. rewrite app_nil_r. split; [reflexivity | constructor].
  - simpl pairs_of.
    destruct (struct_pack_cases 8 (4 + len v)) as [[-> Hs]|E1].
    + cbn [mbind outcome_bind].
      destruct (struct_pack_cases 4 k) as [[-> Hk]|E2].
      * cbn [mbind outcome_bind].
        destruct (IH (((acc ++ Z_to_le 8 (4 + len v)) ++ Z_to_le 4 k) ++ v))
          as [[-> Hr]|[-> Hr]].
        -- left. split.
           ++ f_equal. simpl. unfold pair_entry. simpl.
              rewrite <- !app_assoc. reflexivity.
           ++ constructor; [|exact Hr]. split; simpl; lia.
        -- right. split; [reflexivity|]. intros Hf. apply Hr.
           apply Forall_cons in Hf. tauto.
      * right. rewrite E2. split; [reflexivity|].
        intros Hf. apply Forall_cons in Hf as [[Hk _] _]. simpl in Hk.
        rewrite struct_pack_Returns in E2 by (simpl; lia). discriminate.
    + right. rewrite E1. split; [reflexivity|].
      intros Hf. apply Forall_cons in Hf as [[_ Hs] _]. simpl in Hs.
      rewrite struct_pack_Returns in E1
        by (pose proof (len_nonneg v); simpl; lia).
      discriminate.
Qed.

(** What [_create_apk_signing_block] builds when it returns. *)
Lemma _create_apk_signing_block_cases (d : dict) :
  _create_apk_signing_block d = Returns (container (pairs_bytes d))
    /\ Forall entry_fits d /\ len (pairs_bytes d) + 24 < 2 ^ 64
  \/ _create_apk_signing_block d = Raises StructError.
Proof.
  unfold _create_apk_signing_block.
  destruct (pairs_of_cases d []) as [[-> Hf]|[-> _]]; [|right; reflexivity].
  cbn [mbind outcome_bind]. rewrite !app_nil_l.
  replace (8 + len (pairs_bytes d) + 24 - 8) with (len (pairs_bytes d) + 24) by lia.
  destruct (struct_pack_cases 8 (len (pairs_bytes d) + 24)) as [[-> Hs]| ->];
    [|right; reflexivity].
  left. split; [|split; [exact Hf | simpl in Hs; lia]].
  cbn [mbind outcome_bind].
  change (struct_pack 8 APK_SIG_BLOCK_MAGIC_LO)
    with (Returns (Z_to_le 8 APK_SIG_BLOCK_MAGIC_LO)).
  change (struct_pack 8 APK_SIG_BLOCK_MAGIC_HI)
    with (Returns (Z_to_le 8 APK_SIG_BLOCK_MAGIC_HI)).
  cbn [mbind outcome_bind]. unfold container. rewrite <- !app_assoc. reflexivity.
Qed.

Lemma _create_apk_signing_block_inv (d : dict) (b : bytes) :
  _create_apk_signing_block d = Returns b ->
  b = container (pairs_bytes d) /\ Forall entry_fits d
  /\ len (pairs_bytes d) + 24 < 2 ^ 64.
Proof.
  destruct (_create_apk_signing_block_cases d) as [(-> & Hf & Hs)| ->]; [|discriminate].
  intros [= <-]. auto.
Qed.

Lemma len_pair_entry (k : Z) (v : bytes) : len (pair_entry k v) = 12 + len v.
Proof. unfold pair_entry. rewrite !len_app, !len_Z_to_le. lia. Qed.

Lemma len_container (p : bytes) : len (container p) = len p + 32.
Proof. unfold container. rewrite !len_app, !len_Z_to_le. lia. Qed.

Lemma pairs_bytes_cons (k : Z) (v : bytes) (d : dict) :
  pairs_bytes ((k, v) :: d) = pair_entry k v ++ pairs_bytes d.
Proof. reflexivity. Qed.

Lemma length_pairs_bytes (d : dict) : (length d <= length (pairs_bytes d))%nat.
Proof.
  induction d as [|[k v] r IH]; [simpl; lia|].
  rewrite pairs_bytes_cons, length_app. unfold pair_entry.
  rewrite !length_app, !length_Z_to_le. simpl length. lia.
Qed.

(** ** Decoding what the encoder wrote *)

Lemma take_drop_middle_bytes (a m b : bytes) (pos : Z) (n : nat) :
  pos = len a -> n = length m ->
  take n (drop (Z.to_nat pos) (a ++ m ++ b)) = m.
Proof.
  intros -> ->. unfold len. rewrite Nat2Z.id.
  rewrite drop_app_length. apply take_app_length.
Qed.

Lemma field_middle (n : nat) (a b : bytes) (v pos : Z) :
  pos = len a -> 0 <= v < 256 ^ Z.of_nat n ->
  field n (a ++ Z_to_le n v ++ b) pos = v.
Proof.
  intros Hp Hv. unfold field.
  rewrite take_drop_middle_bytes by (rewrite ?length_Z_to_le; auto).
  apply le_to_Z_to_le. exact Hv.
Qed.

Lemma decode_container (d : dict) :
  Forall entry_fits d ->
  forall (p1 : bytes) (acc : dict) (fuel : nat),
    (length d <= fuel)%nat ->
    find_id_values_loop fuel (container (p1 ++ pairs_bytes d))
      (len (container (p1 ++ pairs_bytes d)) - 24) (8 + len p1) acc
    = Returns (fold_left (fun a kv => dict_set kv.1 kv.2 a) d acc).
Proof.
  induction d as [|[k v] r IH]; intros Hf p1 acc fuel Hfuel.
  - simpl pairs_bytes. rewrite app_nil_r. rewrite len_container.
    destruct fuel; simpl;
      (destruct (Z.ltb_spec (8 + len p1) (len p1 + 32 - 24)); [lia|reflexivity]).
  - apply Forall_cons in Hf as [[Hk Hs] Hf]. simpl in Hk, Hs.
    destruct fuel as [|fuel]; [simpl in Hfuel; lia|].
    pose proof (len_nonneg p1) as Hp1. pose proof (len_nonneg v) as Hv.
    pose proof (len_nonneg (pairs_bytes r)) as Hr.
    assert (Hlen : len (container (p1 ++ pairs_bytes ((k, v) :: r)))
                   = len p1 + 12 + len v + len (pairs_bytes r) + 32).
    { rewrite len_container, len_app, pairs_bytes_cons, len_app, len_pair_entry. lia. }
    rewrite find_id_values_loop_step by lia.
    set (block := container (p1 ++ pairs_bytes ((k, v) :: r))).
    assert (Hblock : block
      = (Z_to_le 8 (len (p1 ++ pairs_bytes ((k, v) :: r)) + 24) ++ p1)
        ++ Z_to_le 8 (4 + len v)
        ++ Z_to_le 4 k ++ v ++ pairs_bytes r
           ++ Z_to_le 8 (len (p1 ++ pairs_bytes ((k, v) :: r)) + 24)
           ++ Z_to_le 8 APK_SIG_BLOCK_MAGIC_LO ++ Z_to_le 8 APK_SIG_BLOCK_MAGIC_HI).
    { unfold block, container. rewrite pairs_bytes_cons. unfold pair_entry.
      rewrite <- !app_assoc. reflexivity. }
    assert (E8 : field 8 block (8 + len p1) = 4 + len v).
    { rewrite Hblock. apply field_middle.
      - rewrite len_app, len_Z_to_le. lia.
      - change (256 ^ Z.of_nat 8) with (2 ^ 64). lia. }
    assert (E4 : field 4 block (8 + len p1 + 8) = k).
    { rewrite Hblock. rewrite (app_assoc _ (Z_to_le 8 (4 + len v))).
      apply field_middle.
      - rewrite !len_app, !len_Z_to_le. lia.
      - change (256 ^ Z.of_nat 4) with (2 ^ 32). lia. }
    assert (EV : take (Z.to_nat (4 + len v - 4)) (drop (Z.to_nat (8 + len p1 + 12)) block) = v).
    { rewrite Hblock. rewrite (app_assoc _ (Z_to_le 8 (4 + len v))).
      rewrite (app_assoc _ (Z_to_le 4 k)).
      apply take_drop_middle_bytes.
      - rewrite !len_app, !len_Z_to_le. lia.
      - unfold len. lia. }
    rewrite E8, E4, EV.
    replace (8 + len p1 + 8 + (4 + len v)) with (8 + len (p1 ++ pair_entry k v))
      by (rewrite len_app, len_pair_entry; lia).
    assert (Hb2 : block = container ((p1 ++ pair_entry k v) ++ pairs_bytes r)).
    { unfold block. rewrite pairs_bytes_cons, app_assoc. reflexivity. }
    rewrite Hb2. rewrite IH; [reflexivity | exact Hf | simpl in Hfuel; lia].
Qed.

(** Round trip of the pair codec. *)
Lemma find_create_roundtrip (d : dict) (b : bytes) :
  dict_ok d -> _create_apk_signing_block d = Returns b ->
  _find_id_values b = Returns d.
Proof.
  intros [Hnd _] Hc. apply _create_apk_signing_block_inv in Hc as (-> & Hf & _).
  unfold _find_id_values.
  pose proof (decode_container d Hf [] [] (length (container (pairs_bytes d)))) as D.
  simpl app in D. change (8 + len []) with 8 in D.
  rewrite D.
  - rewrite fold_dict_set_nodup by exact Hnd. reflexivity.
  - pose proof (length_pairs_bytes d). pose proof (len_container (pairs_bytes d)) as L.
    unfold len in L. lia.
Qed.

(** ** Reading a file that is there *)

Lemma _get_comment_length_data (fs : filesystem) (path : string) (data : bytes) :
  fs !! path = Some data -> _get_comment_length fs path = comment_length_of data.
Proof. intros E. unfold _get_comment_length. rewrite (open_rb_Returns _ _ _ E). reflexivity. Qed.

Lemma _find_central_dir_start_offset_data (fs : filesystem) (path : string)
    (data : bytes) (c : Z) :
  fs !! path = Some data ->
  _find_central_dir_start_offset fs path c = central_dir_offset_of data c.
Proof.
  intros E. unfold _find_central_dir_start_offset.
  rewrite (open_rb_Returns _ _ _ E). reflexivity.
Qed.

Lemma _find_apk_signing_block_data (fs : filesystem) (path : string)
    (data : bytes) (cd : Z) :
  fs !! path = Some data ->
  _find_apk_signing_block fs path cd = signing_block_spec data cd.
Proof.
  intros E. unfold _find_apk_signing_block.
  change APK_SIG_BLOCK_MIN_SIZE with 32.
  destruct (Z.ltb_spec cd 32) as [Hlt|Hge].
  - unfold signing_block_spec. destruct (Z.ltb_spec cd 32); [reflexivity|lia].
  - rewrite (open_rb_Returns _ _ _ E). cbn [mbind outcome_bind].
    apply signing_block_in_spec. exact Hge.
Qed.

Lemma open_rb_cases (fs : filesystem) (path : string) :
  (exists data, fs !! path = Some data /\ open_rb fs path = Returns data)
  \/ fs !! path = None /\ open_rb fs path = Raises FileNotFoundError.
Proof. unfold open_rb. destruct (fs !! path) as [data|]; eauto. Qed.

(** A successful comment-length lookup means the file is there. *)
Lemma _get_comment_length_file (fs : filesystem) (path : string) (c : Z) :
  _get_comment_length fs path = Returns c -> exists data, fs !! path = Some data.
Proof.
  unfold _get_comment_length.
  destruct (open_rb_cases fs path) as [(data & E & ->)|[_ ->]]; [eauto|discriminate].
Qed.

(** ** Facts about a located container *)

Lemma length_take_drop_inv (data : bytes) (pos : Z) (n : nat) :
  (0 < n)%nat -> 0 <= pos ->
  length (take n (drop (Z.to_nat pos) data)) = n -> pos + Z.of_nat n <= len data.
Proof.
  intros Hn Hp. unfold len. rewrite length_take, length_drop. lia.
Qed.

Lemma len_length (b : bytes) (n : nat) : length b = n -> len b = Z.of_nat n.
Proof. intros <-. reflexivity. Qed.

Lemma central_dir_offset_of_inv (data : bytes) (c cd : Z) :
  central_dir_offset_of data c = Returns cd ->
  0 <= len data - c - 6 /\ len data - c - 6 + 4 <= len data
  /\ cd = field 4 data (len data - c - 6) /\ 0 <= cd < 2 ^ 32.
Proof.
  unfold central_dir_offset_of, read_at.
  destruct (Z.ltb_spec (len data - c - 6) 0); [discriminate|].
  cbn [mbind outcome_bind]. intros E. apply struct_unpack_inv in E as [L ->].
  change (Z.to_nat 4) with 4%nat in *.
  assert (len data - c - 6 + 4 <= len data)
    by (apply (length_take_drop_inv data (len data - c - 6) 4); [lia | lia | exact L]).
  split; [lia|]. split; [lia|]. split; [reflexivity|].
  pose proof (le_to_Z_range (take 4 (drop (Z.to_nat (len data - c - 6)) data))) as R.
  rewrite (len_length _ _ L) in R. exact R.
Qed.

Lemma signing_block_spec_inv (data : bytes) (cd : Z) (block : bytes) (off : Z) :
  signing_block_spec data cd = Returns (block, off) ->
  32 <= cd /\ cd <= len data /\ 0 <= off /\ off + len block = cd
  /\ 8 <= len block
  /\ len block = field 8 data (cd - 24) + 8
  /\ block = take (Z.to_nat (len block)) (drop (Z.to_nat off) data)
  /\ field 8 data (cd - 16) = APK_SIG_BLOCK_MAGIC_LO
  /\ field 8 data (cd - 8) = APK_SIG_BLOCK_MAGIC_HI
  /\ field 8 data off = field 8 data (cd - 24).
Proof.
  unfold signing_block_spec.
  destruct (Z.ltb_spec cd 32); [discriminate|].
  destruct (Z.ltb_spec (len data) cd); [discriminate|].
  destruct (Z.eqb_spec (field 8 data (cd - 16)) APK_SIG_BLOCK_MAGIC_LO) as [Elo|];
    [|discriminate].
  destruct (Z.eqb_spec (field 8 data (cd - 8)) APK_SIG_BLOCK_MAGIC_HI) as [Ehi|];
    [|discriminate].
  simpl negb. cbn [orb].
  pose proof (field_nonneg 8 data (cd - 24)) as Hfs.
  destruct (Z.ltb_spec (cd - (field 8 data (cd - 24) + 8)) 0); [discriminate|].
  destruct (Z.eqb_spec (field 8 data (cd - (field 8 data (cd - 24) + 8)))
              (field 8 data (cd - 24))) as [Ehdr|]; [|discriminate].
  simpl negb. cbn iota. intros [= <- <-].
  assert (L : len (take (Z.to_nat (field 8 data (cd - 24) + 8))
                 (drop (Z.to_nat (cd - (field 8 data (cd - 24) + 8))) data))
              = field 8 data (cd - 24) + 8).
  { unfold len. rewrite length_take_drop; lia. }
  rewrite L. repeat split; try lia; try assumption.
Qed.

(** ** Writing through a handle *)

Lemma h_write_inside (data : bytes) (pos : Z) (b : bytes) :
  0 <= pos <= len data ->
  h_write {| h_data := data; h_pos := pos |} b
  = {| h_data := take (Z.to_nat pos) data ++ b ++ drop (Z.to_nat pos + length b) data;
       h_pos := pos + len b |}.
Proof.
  intros Hp. unfold h_write. cbn [h_data h_pos]. destruct b as [|x b].
  - simpl app. rewrite Nat.add_0_r, take_drop. f_equal. rewrite len_nil. lia.
  - replace (Z.to_nat pos - length data)%nat with 0%nat by (unfold len in Hp; lia).
    reflexivity.
Qed.

Lemma h_truncate_inside (data : bytes) (pos : Z) :
  0 <= pos <= len data ->
  h_truncate {| h_data := data; h_pos := pos |}
  = {| h_data := take (Z.to_nat pos) data; h_pos := pos |}.
Proof.
  intros Hp. unfold h_truncate. cbn [h_data h_pos].
  replace (Z.to_nat pos - length data)%nat with 0%nat by (unfold len in Hp; lia).
  simpl replicate. rewrite app_nil_r. reflexivity.
Qed.

(** Steps "seek to the container, write the new one, write the saved
    tail, truncate" leave [rewritten data off cd nb]. *)
Lemma write_write_truncate (data : bytes) (off : Z) (nb tail : bytes) :
  0 <= off <= len data ->
  h_truncate (h_write (h_write {| h_data := data; h_pos := off |} nb) tail)
  = {| h_data := take (Z.to_nat off) data ++ nb ++ tail;
       h_pos := off + len nb + len tail |}.
Proof.
  intros Hoff.
  rewrite h_write_inside by lia.
  assert (L1 : len (take (Z.to_nat off) data) = off).
  { unfold len in *. rewrite length_take. lia. }
  rewrite h_write_inside.
  2:{ rewrite !len_app, L1. pose proof (len_nonneg nb).
      pose proof (len_nonneg (drop (Z.to_nat off + length nb) data)). lia. }
  rewrite h_truncate_inside.
  2:{ rewrite !len_app. pose proof (len_nonneg tail). pose proof (len_nonneg nb).
      assert (len (take (Z.to_nat (off + len nb))
                (take (Z.to_nat off) data ++ nb
                 ++ drop (Z.to_nat off + length nb) data)) = off + len nb).
      { unfold len in *. rewrite length_take, !length_app, length_take. lia. }
      pose proof (len_nonneg (drop (Z.to_nat (off + len nb) + length tail)
        (take (Z.to_nat off) data ++ nb ++ drop (Z.to_nat off + length nb) data))).
      lia. }
  f_equal.
  assert (E : take (Z.to_nat (off + len nb))
                (take (Z.to_nat off) data ++ nb ++ drop (Z.to_nat off + length nb) data)
              = take (Z.to_nat off) data ++ nb).
  { rewrite app_assoc. apply take_app_length'.
    unfold len in *. rewrite length_app, length_take. lia. }
  rewrite E.
  set (rest := drop _ _).
  transitivity (take (Z.to_nat (off + len nb + len tail))
                  ((take (Z.to_nat off) data ++ nb ++ tail) ++ rest)).
  { f_equal. rewrite <- !app_assoc. reflexivity. }
  apply take_app_length'.
  unfold len in *. rewrite !length_app, length_take. lia.
Qed.

Lemma len_rewritten (data : bytes) (off cd : Z) (nb : bytes) :
  0 <= off <= len data -> 0 <= cd <= len data ->
  len (rewritten data off cd nb) = off + len nb + (len data - cd).
Proof.
  intros Ho Hc. unfold rewritten. rewrite !len_app. unfold len in *.
  rewrite length_take, length_drop. lia.
Qed.

Lemma len_patched (data : bytes) (c v : Z) :
  0 <= c -> 0 <= len data - c - 6 -> len (patched data c v) = len data.
Proof.
  intros Hc Hp. unfold patched. cbv zeta. rewrite !len_app, len_Z_to_le.
  unfold len in *. rewrite length_take, length_drop. lia.
Qed.

(** Step 10 of [inject_channel], for a container that lies inside the
    file: the rewritten file, then the patch of the offset field. *)
Lemma write_signing_block_spec (data : bytes) (cd off : Z) (nb : bytes) (c : Z) :
  0 <= off -> off <= cd -> cd <= len data -> 0 <= c ->
  write_signing_block {| h_data := data; h_pos := 0 |} cd off nb c
  = let data2 := rewritten data off cd nb in
    let p := len data2 - c - 6 in
    if p <? 0 then ({| h_data := data2; h_pos := len data2 |}, Raises SeekError)
    else match struct_pack 4 (off + len nb) with
         | Returns packed =>
             ({| h_data := patched data2 c (off + len nb); h_pos := p + 4 |}, Returns tt)
         | Raises e => ({| h_data := data2; h_pos := p |}, Raises e)
         | Diverges => ({| h_data := data2; h_pos := p |}, Diverges)
         end.
Proof.
  intros Ho Hoc Hcd Hc. unfold write_signing_block.
  unfold h_seek at 1. destruct (Z.ltb_spec cd 0); [lia|].
  cbn [h_try h_data h_pos]. unfold h_read_all. cbn [h_data h_pos].
  unfold h_seek at 1. destruct (Z.ltb_spec off 0); [lia|].
  cbn [h_try h_data h_pos].
  rewrite write_write_truncate by lia.
  fold (rewritten data off cd nb).
  set (data2 := rewritten data off cd nb).
  unfold h_seek_end, h_tell. cbn [h_data h_pos]. cbv zeta.
  unfold h_seek. cbn [h_data h_pos].
  destruct (Z.ltb_spec (len data2 - c - 6) 0) as [Hneg|Hpos]; [reflexivity|].
  cbn [h_try].
  destruct (struct_pack_cases 4 (off + len nb)) as [[-> _]| ->]; [|reflexivity].
  cbn [h_try]. rewrite h_write_inside by lia.
  rewrite len_Z_to_le, length_Z_to_le. reflexivity.
Qed.

(** ** No step of the program runs out of fuel *)

Lemma comment_length_of_returns_or_raises (data : bytes) :
  comment_length_of data <> Diverges.
Proof.
  pose proof (comment_length_of_spec data) as S. intros E. rewrite E in S. exact S.
Qed.

Lemma central_dir_offset_of_returns_or_raises (data : bytes) (c : Z) :
  central_dir_offset_of data c <> Diverges.
Proof.
  unfold central_dir_offset_of, read_at.
  destruct (len data - c - 6 <? 0); [discriminate|]. cbn [mbind outcome_bind].
  unfold struct_unpack. destruct (_ =? _)%nat; discriminate.
Qed.

Lemma signing_block_spec_returns_or_raises (data : bytes) (cd : Z) :
  signing_block_spec data cd <> Diverges.
Proof.
  unfold signing_block_spec.
  repeat match goal with
         | |- context [if ?b then _ else _] => destruct b
         end; discriminate.
Qed.

Lemma _create_apk_signing_block_returns_or_raises (d : dict) :
  _create_apk_signing_block d <> Diverges.
Proof.
  destruct (_create_apk_signing_block_cases d) as [[-> _]| ->]; discriminate.
Qed.

Section Injection.
Context `{PyLib}.

(** ** What [plan_injection] returns *)

Lemma plan_injection_inv (fs : filesystem) (target : string) (channel : str)
    (c cd off : Z) (nb : bytes) :
  plan_injection fs target channel = Returns (c, cd, off, nb) ->
  exists data block d channel_bytes,
    fs !! target = Some data
    /\ comment_length_of data = Returns c
    /\ central_dir_offset_of data c = Returns cd
    /\ signing_block_spec data cd = Returns (block, off)
    /\ _find_id_values block = Returns d
    /\ dict_mem APK_SIGNATURE_SCHEME_V2_BLOCK_ID d = true
    /\ str_encode (create_channel_info channel) = Some channel_bytes
    /\ _create_apk_signing_block (injected_dict d channel_bytes) = Returns nb.
Proof.
  unfold plan_injection.
  destruct (fs !! target) as [data|] eqn:E.
  2:{ unfold _get_comment_length, open_rb. rewrite E. discriminate. }
  rewrite (_get_comment_length_data _ _ _ E).
  destruct (comment_length_of data) as [c0| |] eqn:Ec; [|discriminate ..].
  cbn [mbind outcome_bind].
  rewrite (_find_central_dir_start_offset_data _ _ _ _ E).
  destruct (central_dir_offset_of data c0) as [cd0| |] eqn:Ecd; [|discriminate ..].
  cbn [mbind outcome_bind].
  rewrite (_find_apk_signing_block_data _ _ _ _ E).
  destruct (signing_block_spec data cd0) as [[block off0]| |] eqn:Eb; [|discriminate ..].
  cbn [mbind outcome_bind].
  destruct (_find_id_values block) as [d| |] eqn:Ed; [|discriminate ..].
  cbn [mbind outcome_bind].
  destruct (dict_mem APK_SIGNATURE_SCHEME_V2_BLOCK_ID d) eqn:Ev2; [|discriminate].
  cbn [negb].
  destruct (str_encode (create_channel_info channel)) as [chb|] eqn:Ech; [|discriminate].
  cbn [mbind outcome_bind]. fold (injected_dict d chb).
  destruct (_create_apk_signing_block (injected_dict d chb)) as [nb0| |] eqn:Enb;
    [|discriminate ..].
  cbn [mbind outcome_bind]. intros [= <- <- <- <-].
  exists data, block, d, chb. repeat split; auto.
Qed.

Lemma plan_injection_returns_or_raises (fs : filesystem) (target : string)
    (channel : str) :
  plan_injection fs target channel <> Diverges.
Proof.
  unfold plan_injection.
  destruct (fs !! target) as [data|] eqn:E.
  2:{ unfold _get_comment_length, open_rb. rewrite E. discriminate. }
  rewrite (_get_comment_length_data _ _ _ E).
  pose proof (comment_length_of_returns_or_raises data).
  destruct (comment_length_of data) as [c0| |]; [|discriminate|contradiction].
  cbn [mbind outcome_bind].
  rewrite (_find_central_dir_start_offset_data _ _ _ _ E).
  pose proof (central_dir_offset_of_returns_or_raises data c0).
  destruct (central_dir_offset_of data c0) as [cd0| |]; [|discriminate|contradiction].
  cbn [mbind outcome_bind].
  rewrite (_find_apk_signing_block_data _ _ _ _ E).
  pose proof (signing_block_spec_returns_or_raises data cd0).
  destruct (signing_block_spec data cd0) as [[block off0]| |]; [|discriminate|contradiction].
  cbn [mbind outcome_bind].
  destruct (_find_id_values_total block) as [d ->].
  cbn [mbind outcome_bind].
  destruct (negb _); [discriminate|].
  destruct (str_encode _) as [chb|]; [|discriminate].
  cbn [mbind outcome_bind].
  match goal with |- context [_create_apk_signing_block ?x] =>
    pose proof (_create_apk_signing_block_returns_or_raises x);
    destruct (_create_apk_signing_block x) as [nb| |]; [|discriminate|contradiction]
  end.
  discriminate.
Qed.

(** The file system after the copy of step 1. *)
Lemma copy_step (fs : filesystem) (source target : string) :
  (if decide (source = target) then Returns fs else copy2 fs source target)
  = match fs !! source with
    | Some data => Returns (<[target := data]> fs)
    | None => if decide (source = target) then Returns fs else Raises FileNotFoundError
    end.
Proof.
  unfold copy2. destruct (decide (source = target)) as [->|Hne].
  - destruct (fs !! target) as [data|] eqn:E; [|reflexivity].
    rewrite insert_id by exact E. reflexivity.
  - destruct (fs !! source); reflexivity.
Qed.

(** ** What a successful injection did *)

Lemma inject_channel_true_inv (fs fs' : filesystem) (source target : string)
    (channel : str) :
  inject_channel fs source target channel = Returns (fs', true) ->
  exists data c cd block off d channel_bytes nb,
    fs !! source = Some data
    /\ comment_length_of data = Returns c
    /\ central_dir_offset_of data c = Returns cd
    /\ signing_block_spec data cd = Returns (block, off)
    /\ _find_id_values block = Returns d
    /\ dict_mem APK_SIGNATURE_SCHEME_V2_BLOCK_ID d = true
    /\ str_encode (create_channel_info channel) = Some channel_bytes
    /\ _create_apk_signing_block (injected_dict d channel_bytes) = Returns nb
    /\ 0 <= len (rewritten data off cd nb) - c - 6
    /\ 0 <= off + len nb < 2 ^ 32
    /\ fs' = <[target := patched (rewritten data off cd nb) c (off + len nb)]> fs.
Proof.
  unfold inject_channel, inject_channel_body. rewrite copy_step.
  destruct (fs !! source) as [data|] eqn:Esrc.
  2:{ destruct (decide (source = target)) as [->|Hne]; [|discriminate].
      unfold plan_injection, _get_comment_length, open_rb. rewrite Esrc.
      cbn [mbind outcome_bind]. discriminate. }
  destruct (plan_injection (<[target:=data]> fs) target channel)
    as [[[[c cd] off] nb]| |] eqn:Eplan; [|discriminate ..].
  apply plan_injection_inv in Eplan
    as (data' & block & d & chb & Et & Ec & Ecd & Eb & Ed & Ev2 & Ech & Enb).
  rewrite lookup_insert_eq in Et. injection Et as <-.
  unfold with_open_rw. rewrite lookup_insert_eq.
  pose proof (comment_length_of_spec data) as Sc. rewrite Ec in Sc.
  destruct Sc as (Hc & _).
  apply signing_block_spec_inv in Eb as Fb.
  destruct Fb as (Hcd32 & Hcdl & Hoff & Hsum & Hlen8 & _).
  rewrite write_signing_block_spec by lia. cbv zeta.
  destruct (Z.ltb_spec (len (rewritten data off cd nb) - c - 6) 0) as [|Hp];
    [discriminate|].
  destruct (struct_pack 4 (off + len nb)) as [packed| |] eqn:Epk; [|discriminate ..].
  apply struct_pack_inv in Epk as [Hrange _].
  cbn [h_data]. rewrite insert_insert_eq. intros [= <-].
  exists data, c, cd, block, off, d, chb, nb.
  repeat split; auto; lia.
Qed.

End Injection.

(** ** Locating, seen from the file contents *)

Lemma located_file (fs : filesystem) (path : string) (c cd : Z) (block : bytes) (off : Z) :
  located fs path c cd block off -> exists data, fs !! path = Some data.
Proof. intros (Hc & _). eapply _get_comment_length_file. exact Hc. Qed.

Lemma located_data (fs : filesystem) (path : string) (data : bytes)
    (c cd : Z) (block : bytes) (off : Z) :
  fs !! path = Some data ->
  located fs path c cd block off <->
  comment_length_of data = Returns c
  /\ central_dir_offset_of data c = Returns cd
  /\ signing_block_spec data cd = Returns (block, off).
Proof.
  intros E. unfold located.
  rewrite (_get_comment_length_data _ _ _ E).
  rewrite (_find_central_dir_start_offset_data _ _ _ _ E).
  rewrite (_find_apk_signing_block_data _ _ _ _ E). reflexivity.
Qed.

Lemma located_same_data (fs1 fs2 : filesystem) (p1 p2 : string) (data : bytes)
    (c cd : Z) (block : bytes) (off : Z) :
  fs1 !! p1 = Some data -> fs2 !! p2 = Some data ->
  located fs1 p1 c cd block off -> located fs2 p2 c cd block off.
Proof.
  intros E1 E2 L. apply (located_data _ _ _ _ _ _ _ E2).
  apply (located_data _ _ _ _ _ _ _ E1). exact L.
Qed.

Lemma write_signing_block_returns_or_raises (f : handle) (cd off : Z) (nb : bytes) (c : Z) :
  (write_signing_block f cd off nb c).2 <> Diverges.
Proof.
  unfold write_signing_block, h_seek, h_read_all, h_seek_end, h_tell.
  destruct (cd <? 0); [discriminate|]. cbn [h_try h_data h_pos].
  destruct (off <? 0); [discriminate|]. cbn [h_try h_data h_pos].
  match goal with |- context [if ?b then _ else _] => destruct b end;
    [discriminate|].
  cbn [h_try].
  destruct (struct_pack_cases 4 (off + len nb)) as [[-> _]| ->]; discriminate.
Qed.

Section Failures.
Context `{PyLib}.

Lemma plan_injection_early_failure (fs : filesystem) (target : string)
    (channel : str) (e : exn) :
  early_failure fs target e -> plan_injection fs target channel = Raises e.
Proof.
  unfold plan_injection.
  intros [E|c Ec E|c cd Ec Ecd E|c cd off block (Ec & Ecd & Eb) E
          |c cd off block d (Ec & Ecd & Eb) Ed Ev2 ->].
  - rewrite E. reflexivity.
  - rewrite Ec. cbn [mbind outcome_bind]. rewrite E. reflexivity.
  - rewrite Ec. cbn [mbind outcome_bind]. rewrite Ecd. cbn [mbind outcome_bind].
    rewrite E. reflexivity.
  - rewrite Ec. cbn [mbind outcome_bind]. rewrite Ecd. cbn [mbind outcome_bind].
    rewrite Eb. cbn [mbind outcome_bind]. rewrite E. reflexivity.
  - rewrite Ec. cbn [mbind outcome_bind]. rewrite Ecd. cbn [mbind outcome_bind].
    rewrite Eb. cbn [mbind outcome_bind]. rewrite Ed. cbn [mbind outcome_bind].
    rewrite Ev2. reflexivity.
Qed.

(** When the steps before the write raise, only the copy has touched
    the file system. *)
Lemma inject_channel_body_plan_raises (fs : filesystem) (source target : string)
    (channel : str) (data : bytes) (e : exn) :
  fs !! source = Some data ->
  plan_injection (<[target := data]> fs) target channel = Raises e ->
  inject_channel_body fs source target channel = (<[target := data]> fs, Raises e).
Proof.
  intros Esrc Eplan. unfold inject_channel_body. rewrite copy_step, Esrc, Eplan.
  reflexivity.
Qed.

Lemma inject_channel_body_returns_or_raises (fs : filesystem) (source target : string)
    (channel : str) :
  (inject_channel_body fs source target channel).2 <> Diverges.
Proof.
  unfold inject_channel_body.
  destruct (if decide (source = target) then Returns fs else copy2 fs source target)
    as [fs1|e|] eqn:Ecopy; [|discriminate|].
  2:{ destruct (decide (source = target)); [discriminate|].
      unfold copy2 in Ecopy. destruct (fs !! source); discriminate. }
  pose proof (plan_injection_returns_or_raises fs1 target channel) as Hp.
  destruct (plan_injection fs1 target channel) as [[[[c cd] off] nb]|e|];
    [|discriminate|contradiction].
  unfold with_open_rw. destruct (fs1 !! target) as [data|]; [|discriminate].
  pose proof (write_signing_block_returns_or_raises
                {| h_data := data; h_pos := 0 |} cd off nb c) as Hw.
  destruct (write_signing_block _ cd off nb c) as [f r]. exact Hw.
Qed.

Lemma get_channel_body_returns_or_raises (fs : filesystem) (path : string) :
  get_channel_body fs path <> Diverges.
Proof.
  unfold get_channel_body.
  destruct (fs !! path) as [data|] eqn:E.
  2:{ unfold _get_comment_length, open_rb. rewrite E. discriminate. }
  rewrite (_get_comment_length_data _ _ _ E).
  pose proof (comment_length_of_returns_or_raises data).
  destruct (comment_length_of data) as [c0| |]; [|discriminate|contradiction].
  cbn [mbind outcome_bind].
  rewrite (_find_central_dir_start_offset_data _ _ _ _ E).
  pose proof (central_dir_offset_of_returns_or_raises data c0).
  destruct (central_dir_offset_of data c0) as [cd0| |]; [|discriminate|contradiction].
  cbn [mbind outcome_bind].
  rewrite (_find_apk_signing_block_data _ _ _ _ E).
  pose proof (signing_block_spec_returns_or_raises data cd0).
  destruct (signing_block_spec data cd0) as [[block off0]| |]; [|discriminate|contradiction].
  cbn [mbind outcome_bind].
  destruct (_find_id_values_total block) as [d ->].
  cbn [mbind outcome_bind].
  destruct (dict_mem WALLE_CHANNEL_BLOCK_ID d); [|discriminate].
  destruct (dict_get WALLE_CHANNEL_BLOCK_ID d) as [v|]; [|discriminate].
  unfold parse_channel_info, info_get_channel.
  destruct (bytes_decode v) as [s|]; [|discriminate].
  destruct (json_loads s) as [j| |e]; [|discriminate ..].
  cbn [mbind outcome_bind].
  destruct (value_get_channel j); discriminate.
Qed.

(** The reader on a located container. *)
Lemma get_channel_body_located (fs : filesystem) (path : string)
    (c cd : Z) (block : bytes) (off : Z) (d : dict) :
  located fs path c cd block off -> _find_id_values block = Returns d ->
  get_channel_body fs path =
    match dict_get WALLE_CHANNEL_BLOCK_ID d with
    | Some channel_value => parse_channel_info channel_value ≫= info_get_channel
    | None => Returns None
    end.
Proof.
  intros (Ec & Ecd & Eb) Ed. unfold get_channel_body.
  rewrite Ec. cbn [mbind outcome_bind]. rewrite Ecd. cbn [mbind outcome_bind].
  rewrite Eb. cbn [mbind outcome_bind]. rewrite Ed. cbn [mbind outcome_bind].
  unfold dict_mem. destruct (dict_get WALLE_CHANNEL_BLOCK_ID d) as [v|]; [|reflexivity].
  destruct (parse_channel_info v) as [ci| |]; [|reflexivity ..].
  cbn [mbind outcome_bind].
  destruct (info_get_channel ci); reflexivity.
Qed.

End Failures.

(* ================================================================== *)
(** * The claims *)

(** ** EOCD location *)

(** C5. [_get_comment_length] scans the comment lengths 0, 1, ... up to
    [min (size - 22) 65535]. When it returns [c], the four bytes at
    offset [size - 22 - c] are the EOCD signature, the 16-bit
    comment-length field of that record is [c], and every smaller
    candidate failed one of the two checks (so a signature match whose
    declared comment length differs is passed over). It raises the
    not-found exception exactly when no candidate of the range passes
    both checks. It never ends otherwise. *)
Theorem C5_get_comment_length (fs : filesystem) (path : string) (data : bytes) :
  fs !! path = Some data ->
  match _get_comment_length fs path with
  | Returns c =>
      0 <= c <= Z.min (len data - 22) 65535
      /\ field 4 data (len data - 22 - c) = EOCD_SIGNATURE
      /\ field 2 data (len data - 22 - c + 20) = c
      /\ forall c', 0 <= c' < c -> eocd_candidate data c' = false
  | Raises e =>
      e = SignatureNotFoundException EocdNotFound
      /\ forall c', 0 <= c' <= Z.min (len data - 22) 65535 ->
           eocd_candidate data c' = false
  | Diverges => False
  end.
Proof.
  intros E. rewrite (_get_comment_length_data _ _ _ E).
  pose proof (comment_length_of_spec data) as S.
  destruct (comment_length_of data) as [c|e|]; [|exact S|exact S].
  destruct S as (Hr & Hc & Hmin). split; [exact Hr|].
  unfold eocd_candidate in Hc. apply andb_prop in Hc as [H1 H2].
  apply Z.eqb_eq in H1, H2.
  replace (len data - 22 - c + 20) with (len data - 2 - c) by lia. auto.
Qed.

Lemma C5_get_comment_length_witness :
  demo_fs !! "ambiguous.apk"%string = Some ambiguous_apk
  /\ match _get_comment_length demo_fs "ambiguous.apk" with
     | Returns c =>
         0 <= c <= Z.min (len ambiguous_apk - 22) 65535
         /\ field 4 ambiguous_apk (len ambiguous_apk - 22 - c) = EOCD_SIGNATURE
         /\ field 2 ambiguous_apk (len ambiguous_apk - 22 - c + 20) = c
         /\ forall c', 0 <= c' < c -> eocd_candidate ambiguous_apk c' = false
     | Raises e =>
         e = SignatureNotFoundException EocdNotFound
         /\ forall c', 0 <= c' <= Z.min (len ambiguous_apk - 22) 65535 ->
              eocd_candidate ambiguous_apk c' = false
     | Diverges => False
     end.
Proof.
  split; [reflexivity|].
  apply (C5_get_comment_length demo_fs "ambiguous.apk" ambiguous_apk). reflexivity.
Defined.

(** ** Signing-block location *)

(** C6. With central-directory offset [cd], [_find_apk_signing_block]
    raises the too-small exception when [cd < 32]. Otherwise it reads
    the 24 bytes that end at [cd] as the footer, fails unless both magic
    words match, takes [footer size + 8] as the container size and
    [cd - size] as the start, fails when the start is negative, fails
    with the size-mismatch exception when the leading size field differs
    from the footer's, and then returns exactly [size] bytes from
    [start], with [start]. *)
Theorem C6_find_apk_signing_block (fs : filesystem) (path : string)
    (data : bytes) (cd : Z) :
  fs !! path = Some data ->
  _find_apk_signing_block fs path cd = signing_block_spec data cd
  /\ (cd < 32 ->
      _find_apk_signing_block fs path cd
      = Raises (SignatureNotFoundException BlockTooSmall))
  /\ forall block off,
       _find_apk_signing_block fs path cd = Returns (block, off) ->
       len block = field 8 data (cd - 24) + 8
       /\ off = cd - len block /\ 0 <= off
       /\ block = take (Z.to_nat (len block)) (drop (Z.to_nat off) data)
       /\ field 8 data off = field 8 data (cd - 24).
Proof.
  intros E. rewrite (_find_apk_signing_block_data _ _ _ _ E).
  split; [reflexivity|]. split.
  - intros Hlt. unfold signing_block_spec.
    destruct (Z.ltb_spec cd 32); [reflexivity|lia].
  - intros block off Hb.
    apply signing_block_spec_inv in Hb
      as (_ & _ & Hoff & Hsum & _ & Hlen & Hblock & _ & _ & Hhdr).
    repeat split; auto; lia.
Qed.

Lemma C6_find_apk_signing_block_witness :
  demo_fs !! "signed.apk"%string = Some signed_apk
  /\ (_find_apk_signing_block demo_fs "signed.apk" 70 = signing_block_spec signed_apk 70
      /\ (70 < 32 ->
          _find_apk_signing_block demo_fs "signed.apk" 70
          = Raises (SignatureNotFoundException BlockTooSmall))
      /\ forall block off,
           _find_apk_signing_block demo_fs "signed.apk" 70 = Returns (block, off) ->
           len block = field 8 signed_apk (70 - 24) + 8
           /\ off = 70 - len block /\ 0 <= off
           /\ block = take (Z.to_nat (len block)) (drop (Z.to_nat off) signed_apk)
           /\ field 8 signed_apk off = field 8 signed_apk (70 - 24)).
Proof.
  split; [reflexivity|].
  apply (C6_find_apk_signing_block demo_fs "signed.apk" signed_apk 70). reflexivity.
Defined.

(** ** Pair decoding *)

(** C2, as the claim states it, fails: this container's single entry
    declares 1000 bytes where 51 are there in all, and the decoder
    returns a dict, with the entry's value cut at the end of the
    container (footer bytes included). *)
Lemma C2_overlong_entry_accepted :
  len overlong_container = 51
  /\ field 8 overlong_container 8 = 1000
  /\ _find_id_values overlong_container
     = Returns [(APK_SIGNATURE_SCHEME_V2_BLOCK_ID, drop 20 overlong_container)].
Proof. vm_compute. repeat split; reflexivity. Qed.

(** C2, amended. [_find_id_values] has no bounds check and never
    raises: it returns a dict for every container. An entry whose
    declared length takes the cursor past the footer start
    ([len - 24]) is accepted as the last entry, and its value is the
    slice from the value start to the declared end, which Python cuts at
    the end of the container. *)
Theorem C2_decode_without_bounds_check (block : bytes) (fuel : nat) (pos : Z) (d : dict) :
  0 <= pos < len block - 24 ->
  len block - 24 < pos + 8 + field 8 block pos ->
  find_id_values_loop (S fuel) block (len block - 24) pos d
  = Returns (dict_set (field 4 block (pos + 8))
               (slice block (pos + 12) (pos + 8 + field 8 block pos)) d)
  /\ exists d', _find_id_values block = Returns d'.
Proof.
  intros Hp Hover. split; [|apply _find_id_values_total].
  rewrite find_id_values_loop_overrun by lia.
  pose proof (field_nonneg 8 block pos).
  rewrite slice_nonneg by lia.
  do 4 f_equal. lia.
Qed.

Lemma C2_decode_without_bounds_check_witness :
  0 <= 8 < len overlong_container - 24
  /\ len overlong_container - 24 < 8 + 8 + field 8 overlong_container 8
  /\ (find_id_values_loop 1 overlong_container (len overlong_container - 24) 8 []
      = Returns (dict_set (field 4 overlong_container (8 + 8))
                   (slice overlong_container (8 + 12)
                      (8 + 8 + field 8 overlong_container 8)) [])
      /\ exists d', _find_id_values overlong_container = Returns d').
Proof.
  assert (L : len overlong_container = 51) by (vm_compute; reflexivity).
  assert (F : field 8 overlong_container 8 = 1000) by (vm_compute; reflexivity).
  assert (H1 : 0 <= 8 < len overlong_container - 24) by (rewrite L; lia).
  assert (H2 : len overlong_container - 24 < 8 + 8 + field 8 overlong_container 8)
    by (rewrite L, F; lia).
  split; [exact H1|]. split; [exact H2|].
  apply (C2_decode_without_bounds_check overlong_container 0 8 [] H1 H2).
Defined.

Section ClaimsOfInjection.
Context `{PyLib}.

(** ** Failures of injection *)

(** C4. Injection into an archive whose container has no entry under
    the v2 signature id 0x7109871a raises the missing-signature-entry
    exception inside [inject_channel], which returns False; the
    destination holds the plain copy of the source, its container not
    rewritten. *)
Theorem C4_gate_enforcement (fs : filesystem) (source target : string) (channel : str)
    (data : bytes) (c cd : Z) (block : bytes) (off : Z) (d : dict) :
  fs !! source = Some data ->
  located fs source c cd block off ->
  _find_id_values block = Returns d ->
  dict_mem APK_SIGNATURE_SCHEME_V2_BLOCK_ID d = false ->
  inject_channel_body fs source target channel
  = (<[target := data]> fs,
     Raises (SignatureNotFoundException SignatureEntryMissing))
  /\ inject_channel fs source target channel = Returns (<[target := data]> fs, false)
  /\ located (<[target := data]> fs) target c cd block off.
Proof.
  intros Esrc L Ed Ev2.
  assert (L' : located (<[target := data]> fs) target c cd block off).
  { eapply located_same_data; [exact Esrc | apply lookup_insert_eq | exact L]. }
  assert (B : inject_channel_body fs source target channel
              = (<[target := data]> fs,
                 Raises (SignatureNotFoundException SignatureEntryMissing))).
  { apply inject_channel_body_plan_raises; [exact Esrc|].
    apply plan_injection_early_failure.
    eapply fail_gate; [exact L' | exact Ed | exact Ev2 | reflexivity]. }
  split; [exact B|]. split; [|exact L'].
  unfold inject_channel. rewrite B. reflexivity.
Qed.

(** C9. When injection fails in steps 2 to 4 (EOCD scan,
    central-directory offset read, container locator, pair decoder,
    check for the v2 signature entry), the destination holds exactly
    the copy of the source made in step 1 and nothing else of the file
    system has changed; [inject_channel] returns False. *)
Theorem C9_early_failure_leaves_copy (fs : filesystem) (source target : string)
    (channel : str) (data : bytes) (e : exn) :
  fs !! source = Some data ->
  early_failure (<[target := data]> fs) target e ->
  inject_channel_body fs source target channel = (<[target := data]> fs, Raises e)
  /\ inject_channel fs source target channel = Returns (<[target := data]> fs, false).
Proof.
  intros Esrc F.
  assert (B : inject_channel_body fs source target channel
              = (<[target := data]> fs, Raises e)).
  { apply inject_channel_body_plan_raises; [exact Esrc|].
    apply plan_injection_early_failure. exact F. }
  split; [exact B|]. unfold inject_channel. rewrite B. reflexivity.
Qed.

(** C10. No exception leaves the public operations. [inject_channel]
    always returns a boolean, False whenever its body raised;
    [get_channel] always returns, None whenever its body raised, and
    None as well when the container has no channel entry: the result
    None of a malformed archive and of an archive never injected are the
    same value. *)
Theorem C10_no_exception_escapes :
  (forall fs source target channel,
      (exists fs' b, inject_channel fs source target channel = Returns (fs', b))
      /\ forall fs' e,
           inject_channel_body fs source target channel = (fs', Raises e) ->
           inject_channel fs source target channel = Returns (fs', false))
  /\ (forall fs path,
        (exists r, get_channel fs path = Returns r)
        /\ (forall e, get_channel_body fs path = Raises e ->
                      get_channel fs path = Returns None)
        /\ (forall c cd block off d,
              located fs path c cd block off ->
              _find_id_values block = Returns d ->
              dict_mem WALLE_CHANNEL_BLOCK_ID d = false ->
              get_channel fs path = Returns None))
  /\ (exists e, get_channel_body demo_fs "broken.apk" = Raises e)
  /\ get_channel_body demo_fs "signed.apk" = Returns None
  /\ get_channel demo_fs "broken.apk" = get_channel demo_fs "signed.apk".
Proof.
  split; [|split].
  - intros fs source target channel. split.
    + pose proof (inject_channel_body_returns_or_raises fs source target channel) as N.
      unfold inject_channel.
      destruct (inject_channel_body fs source target channel) as [fs' [u|e|]];
        [eauto | eauto | contradiction].
    + intros fs' e B. unfold inject_channel. rewrite B. reflexivity.
  - intros fs path. split; [|split].
    + pose proof (get_channel_body_returns_or_raises fs path) as N.
      unfold get_channel.
      destruct (get_channel_body fs path) as [r|e|]; [eauto | eauto | contradiction].
    + intros e B. unfold get_channel. rewrite B. reflexivity.
    + intros c cd block off d L Ed Ech. unfold get_channel.
      rewrite (get_channel_body_located _ _ _ _ _ _ _ L Ed).
      unfold dict_mem in Ech.
      destruct (dict_get WALLE_CHANNEL_BLOCK_ID d); [discriminate|reflexivity].
  - split; [|split].
    + exists (SignatureNotFoundException EocdNotFound). vm_compute. reflexivity.
    + vm_compute. reflexivity.
    + vm_compute. reflexivity.
Qed.

(** ** The reader *)

(** C8. For an archive whose container is located and decoded and has
    no entry under the channel id 0x71777777, the body of
    [get_channel] ends without an exception and [get_channel] returns
    None. *)
Theorem C8_absence_is_not_an_error (fs : filesystem) (path : string)
    (c cd : Z) (block : bytes) (off : Z) (d : dict) :
  located fs path c cd block off ->
  _find_id_values block = Returns d ->
  dict_mem WALLE_CHANNEL_BLOCK_ID d = false ->
  get_channel_body fs path = Returns None
  /\ get_channel fs path = Returns None.
Proof.
  intros L Ed Ech.
  assert (B : get_channel_body fs path = Returns None).
  { rewrite (get_channel_body_located _ _ _ _ _ _ _ L Ed).
    unfold dict_mem in Ech.
    destruct (dict_get WALLE_CHANNEL_BLOCK_ID d); [discriminate|reflexivity]. }
  split; [exact B|]. unfold get_channel. rewrite B. reflexivity.
Qed.

End ClaimsOfInjection.

(** ** The patched offset field *)

Lemma field_patched (data : bytes) (c v : Z) :
  0 <= c -> 0 <= len data - c - 6 -> 0 <= v < 2 ^ 32 ->
  field 4 (patched data c v) (len data - c - 6) = v.
Proof.
  intros Hc Hp Hv. unfold patched. cbv zeta. apply field_middle; [|exact Hv].
  unfold len in *. rewrite length_take. lia.
Qed.

Lemma injected_dict_signature (d : dict) (channel_bytes : bytes) :
  dict_get APK_SIGNATURE_SCHEME_V2_BLOCK_ID (injected_dict d channel_bytes)
  = dict_get APK_SIGNATURE_SCHEME_V2_BLOCK_ID d.
Proof.
  unfold injected_dict. rewrite dict_get_set_ne by discriminate.
  destruct (dict_mem VERITY_PADDING_BLOCK_ID d); [|reflexivity].
  apply dict_get_del_ne. discriminate.
Qed.

Lemma injected_dict_channel (d : dict) (channel_bytes : bytes) :
  dict_get WALLE_CHANNEL_BLOCK_ID (injected_dict d channel_bytes) = Some channel_bytes.
Proof. unfold injected_dict. apply dict_get_set_eq. Qed.

Lemma injected_dict_ok (d : dict) (channel_bytes : bytes) :
  dict_ok d -> dict_ok (injected_dict d channel_bytes).
Proof.
  intros Hd. unfold injected_dict. apply dict_set_ok.
  - unfold WALLE_CHANNEL_BLOCK_ID. lia.
  - destruct (dict_mem VERITY_PADDING_BLOCK_ID d); [apply dict_del_ok|]; exact Hd.
Qed.

Section ClaimsOfSuccess.
Context `{PyLib}.

(** A successful injection, with the names of the located container
    fixed by the caller. *)
Lemma inject_channel_true_located (fs fs' : filesystem) (source target : string)
    (channel : str) (data : bytes) (c cd : Z) (block : bytes) (off : Z) :
  fs !! source = Some data ->
  located fs source c cd block off ->
  inject_channel fs source target channel = Returns (fs', true) ->
  exists d channel_bytes nb,
    _find_id_values block = Returns d
    /\ dict_mem APK_SIGNATURE_SCHEME_V2_BLOCK_ID d = true
    /\ str_encode (create_channel_info channel) = Some channel_bytes
    /\ _create_apk_signing_block (injected_dict d channel_bytes) = Returns nb
    /\ 0 <= len (rewritten data off cd nb) - c - 6
    /\ 0 <= off + len nb < 2 ^ 32
    /\ fs' = <[target := patched (rewritten data off cd nb) c (off + len nb)]> fs.
Proof.
  intros Esrc L Hinj.
  apply inject_channel_true_inv in Hinj
    as (data0 & c0 & cd0 & block0 & off0 & d & chb & nb
        & Esrc0 & Ec & Ecd & Eb & Ed & Ev2 & Ech & Enb & Hp & Hr & ->).
  rewrite Esrc in Esrc0. injection Esrc0 as <-.
  apply (located_data _ _ _ _ _ _ _ Esrc) in L as (Ec' & Ecd' & Eb').
  rewrite Ec in Ec'. injection Ec' as ->.
  rewrite Ecd in Ecd'. injection Ecd' as ->.
  rewrite Eb in Eb'. injection Eb' as -> ->.
  exists d, chb, nb. repeat split; auto; lia.
Qed.

(** ** Size accounting *)

(** C3. After a successful injection the destination has
    [source size - old container size + new container size] bytes, and
    the 4-byte field at [new size - comment length - 6] holds
    [old container start + new container length]. The new container is
    the encoding of the decoded dict with the padding entry dropped and
    the channel entry set. *)
Theorem C3_size_accounting (fs fs' : filesystem) (source target : string)
    (channel : str) (data : bytes) (c cd : Z) (block : bytes) (off : Z) :
  fs !! source = Some data ->
  located fs source c cd block off ->
  inject_channel fs source target channel = Returns (fs', true) ->
  exists d channel_bytes nb data',
    _find_id_values block = Returns d
    /\ str_encode (create_channel_info channel) = Some channel_bytes
    /\ _create_apk_signing_block (injected_dict d channel_bytes) = Returns nb
    /\ fs' !! target = Some data'
    /\ len data' = len data - len block + len nb
    /\ field 4 data' (len data' - c - 6) = off + len nb.
Proof.
  intros Esrc L Hinj.
  destruct (inject_channel_true_located _ _ _ _ _ _ _ _ _ _ Esrc L Hinj)
    as (d & chb & nb & Ed & _ & Ech & Enb & Hp & Hr & ->).
  apply (located_data _ _ _ _ _ _ _ Esrc) in L as (Ec & Ecd & Eb).
  pose proof (comment_length_of_spec data) as Sc. rewrite Ec in Sc.
  destruct Sc as (Hc & _).
  apply signing_block_spec_inv in Eb as (_ & Hcdl & Hoff & Hsum & _).
  pose proof (len_nonneg block) as Hbl.
  exists d, chb, nb, (patched (rewritten data off cd nb) c (off + len nb)).
  split; [exact Ed|]. split; [exact Ech|]. split; [exact Enb|].
  split; [apply lookup_insert_eq|].
  rewrite len_patched by lia. rewrite len_rewritten by lia.
  split; [lia|].
  rewrite <- (len_rewritten data off cd nb) by lia.
  apply field_patched; lia.
Qed.

End ClaimsOfSuccess.

(** ** Reading the rewritten file *)

Lemma central_dir_offset_of_field (data : bytes) (c : Z) :
  0 <= len data - c - 6 -> len data - c - 6 + 4 <= len data ->
  central_dir_offset_of data c = Returns (field 4 data (len data - c - 6)).
Proof.
  intros Hp Hl. unfold central_dir_offset_of.
  apply (read_field 4 data (len data - c - 6)); lia.
Qed.

Lemma patched_app (pre tail : bytes) (c v : Z) :
  0 <= c -> c + 6 <= len tail ->
  patched (pre ++ tail) c v = pre ++ patched tail c v.
Proof.
  intros Hc Hl. unfold patched. cbv zeta. rewrite len_app.
  assert (E : Z.to_nat (len pre + len tail - c - 6)
              = (length pre + Z.to_nat (len tail - c - 6))%nat)
    by (unfold len in *; lia).
  rewrite E. rewrite take_app_ge by lia. rewrite drop_app_ge by lia.
  rewrite <- app_assoc. f_equal.
  replace (length pre + Z.to_nat (len tail - c - 6) - length pre)%nat
    with (Z.to_nat (len tail - c - 6)) by lia.
  replace (length pre + Z.to_nat (len tail - c - 6) + 4 - length pre)%nat
    with (Z.to_nat (len tail - c - 6) + 4)%nat by lia.
  reflexivity.
Qed.

(** A field that ends before a replaced region, or starts after it,
    is not changed by the replacement. *)
Lemma field_before (n : nat) (a x : bytes) (k : Z) :
  0 <= k -> k + Z.of_nat n <= len a ->
  field n (a ++ x) k = field n a k.
Proof.
  intros Hk Hl. unfold field, len in *.
  rewrite drop_app_le by lia. rewrite take_app_le; [reflexivity|].
  rewrite length_drop. lia.
Qed.

Lemma field_after (n : nat) (a m m' b : bytes) (k : Z) :
  length m = length m' -> len a + len m <= k ->
  field n (a ++ m ++ b) k = field n (a ++ m' ++ b) k.
Proof.
  intros Hm Hk. unfold field, len in *.
  rewrite !drop_app_ge by lia. rewrite Hm. reflexivity.
Qed.

Lemma patched_split (data : bytes) (c v : Z) :
  0 <= c -> 0 <= len data - c - 6 ->
  let p := Z.to_nat (len data - c - 6) in
  data = take p data ++ take 4 (drop p data) ++ drop (p + 4) data
  /\ length (take 4 (drop p data)) = 4%nat
  /\ len (take p data) = len data - c - 6.
Proof.
  intros Hc Hp p. split; [|split].
  - rewrite <- drop_drop. rewrite take_drop, take_drop. reflexivity.
  - unfold len in *. rewrite length_take, length_drop. lia.
  - unfold len in *. rewrite length_take. lia.
Qed.

Lemma field_patched_before (n : nat) (data : bytes) (c v k : Z) :
  0 <= c -> 0 <= k -> k + Z.of_nat n <= len data - c - 6 ->
  field n (patched data c v) k = field n data k.
Proof.
  intros Hc Hk Hl.
  destruct (patched_split data c v Hc ltac:(lia)) as (Hs & _ & Hlp).
  rewrite Hs at 2. unfold patched. cbv zeta.
  rewrite !field_before by lia. reflexivity.
Qed.

Lemma field_patched_after (n : nat) (data : bytes) (c v k : Z) :
  0 <= c -> 0 <= len data - c - 6 -> len data - c - 2 <= k ->
  field n (patched data c v) k = field n data k.
Proof.
  intros Hc Hp Hk.
  destruct (patched_split data c v Hc Hp) as (Hs & H4 & Hlp).
  rewrite Hs at 2. unfold patched. cbv zeta.
  apply field_after.
  - rewrite length_Z_to_le, H4. reflexivity.
  - rewrite Hlp, len_Z_to_le. lia.
Qed.

Lemma field_app_end (n : nat) (pre tail : bytes) (k : Z) :
  0 <= k <= len tail ->
  field n (pre ++ tail) (len (pre ++ tail) - k) = field n tail (len tail - k).
Proof.
  intros Hk. unfold field. rewrite len_app. unfold len in *.
  rewrite drop_app_ge by lia. f_equal. f_equal. f_equal. lia.
Qed.

(** The EOCD checks only look at the end of the file. *)
Lemma eocd_candidate_app (pre tail : bytes) (c : Z) :
  0 <= c -> c + 22 <= len tail ->
  eocd_candidate (pre ++ tail) c = eocd_candidate tail c.
Proof.
  intros Hc Hl. unfold eocd_candidate.
  replace (len (pre ++ tail) - 22 - c) with (len (pre ++ tail) - (22 + c)) by lia.
  replace (len (pre ++ tail) - 2 - c) with (len (pre ++ tail) - (2 + c)) by lia.
  rewrite !field_app_end by lia.
  replace (len tail - (22 + c)) with (len tail - 22 - c) by lia.
  replace (len tail - (2 + c)) with (len tail - 2 - c) by lia.
  reflexivity.
Qed.

(** Patching the offset field of the record found at comment length
    [c] leaves the checks of every candidate [c' <= c] unchanged when
    the comment has at most 12 bytes. *)
Lemma eocd_candidate_patched (tail : bytes) (c c' v : Z) :
  0 <= c' <= c -> c <= 12 -> c + 22 <= len tail ->
  eocd_candidate (patched tail c v) c' = eocd_candidate tail c'.
Proof.
  intros Hc' Hc Hl. unfold eocd_candidate.
  rewrite len_patched by lia.
  rewrite (field_patched_before 4) by lia.
  rewrite (field_patched_after 2) by lia.
  reflexivity.
Qed.

Lemma comment_length_of_rewritten (pre pre' tail : bytes) (c v : Z) :
  c <= 12 -> c + 22 <= len tail ->
  comment_length_of (pre ++ tail) = Returns c ->
  comment_length_of (pre' ++ patched tail c v) = Returns c.
Proof.
  intros H12 Hl Ec.
  pose proof (comment_length_of_spec (pre ++ tail)) as S. rewrite Ec in S.
  destruct S as (Hr & Hc & Hmin).
  assert (Lp : len (patched tail c v) = len tail) by (apply len_patched; lia).
  apply comment_length_of_Returns.
  - rewrite len_app, Lp. pose proof (len_nonneg pre'). lia.
  - rewrite eocd_candidate_app by lia. rewrite eocd_candidate_patched by lia.
    rewrite <- (eocd_candidate_app pre) by lia. exact Hc.
  - intros c' Hc'. rewrite eocd_candidate_app by lia.
    rewrite eocd_candidate_patched by lia.
    rewrite <- (eocd_candidate_app pre) by lia. apply Hmin. exact Hc'.
Qed.

(** The locator finds a well-formed container that ends at [cd]. *)
Lemma signing_block_spec_container (pre pairs post : bytes) :
  len pairs + 24 < 2 ^ 64 ->
  signing_block_spec (pre ++ container pairs ++ post) (len pre + len (container pairs))
  = Returns (container pairs, len pre).
Proof.
  intros Hs. pose proof (len_nonneg pre) as Hpre. pose proof (len_nonneg pairs) as Hpairs.
  pose proof (len_nonneg post) as Hpost.
  rewrite len_container. unfold signing_block_spec.
  destruct (Z.ltb_spec (len pre + (len pairs + 32)) 32); [lia|].
  destruct (Z.ltb_spec (len (pre ++ container pairs ++ post))
              (len pre + (len pairs + 32))) as [Hlt|_].
  { rewrite !len_app, len_container in Hlt. lia. }
  assert (Hsz : 0 <= len pairs + 24 < 256 ^ Z.of_nat 8)
    by (change (256 ^ Z.of_nat 8) with (2 ^ 64); lia).
  assert (Elo : field 8 (pre ++ container pairs ++ post) (len pre + (len pairs + 32) - 16)
                = APK_SIG_BLOCK_MAGIC_LO).
  { unfold container.
    replace (pre ++ (Z_to_le 8 (len pairs + 24) ++ pairs ++ Z_to_le 8 (len pairs + 24)
               ++ Z_to_le 8 APK_SIG_BLOCK_MAGIC_LO ++ Z_to_le 8 APK_SIG_BLOCK_MAGIC_HI)
               ++ post)
      with ((pre ++ Z_to_le 8 (len pairs + 24) ++ pairs ++ Z_to_le 8 (len pairs + 24))
            ++ Z_to_le 8 APK_SIG_BLOCK_MAGIC_LO
            ++ (Z_to_le 8 APK_SIG_BLOCK_MAGIC_HI ++ post))
      by (rewrite <- !app_assoc; reflexivity).
    apply field_middle.
    - rewrite !len_app, !len_Z_to_le. lia.
    - vm_compute. split; [discriminate|reflexivity]. }
  assert (Ehi : field 8 (pre ++ container pairs ++ post) (len pre + (len pairs + 32) - 8)
                = APK_SIG_BLOCK_MAGIC_HI).
  { unfold container.
    replace (pre ++ (Z_to_le 8 (len pairs + 24) ++ pairs ++ Z_to_le 8 (len pairs + 24)
               ++ Z_to_le 8 APK_SIG_BLOCK_MAGIC_LO ++ Z_to_le 8 APK_SIG_BLOCK_MAGIC_HI)
               ++ post)
      with ((pre ++ Z_to_le 8 (len pairs + 24) ++ pairs ++ Z_to_le 8 (len pairs + 24)
             ++ Z_to_le 8 APK_SIG_BLOCK_MAGIC_LO)
            ++ Z_to_le 8 APK_SIG_BLOCK_MAGIC_HI ++ post)
      by (rewrite <- !app_assoc; reflexivity).
    apply field_middle.
    - rewrite !len_app, !len_Z_to_le. lia.
    - vm_compute. split; [discriminate|reflexivity]. }
  assert (Efs : field 8 (pre ++ container pairs ++ post) (len pre + (len pairs + 32) - 24)
                = len pairs + 24).
  { unfold container.
    replace (pre ++ (Z_to_le 8 (len pairs + 24) ++ pairs ++ Z_to_le 8 (len pairs + 24)
               ++ Z_to_le 8 APK_SIG_BLOCK_MAGIC_LO ++ Z_to_le 8 APK_SIG_BLOCK_MAGIC_HI)
               ++ post)
      with ((pre ++ Z_to_le 8 (len pairs + 24) ++ pairs)
            ++ Z_to_le 8 (len pairs + 24)
            ++ (Z_to_le 8 APK_SIG_BLOCK_MAGIC_LO ++ Z_to_le 8 APK_SIG_BLOCK_MAGIC_HI
                ++ post))
      by (rewrite <- !app_assoc; reflexivity).
    apply field_middle; [|exact Hsz].
    rewrite !len_app, !len_Z_to_le. lia. }
  rewrite Elo, Ehi, Efs, !Z.eqb_refl. cbn [negb orb].
  replace (len pre + (len pairs + 32) - (len pairs + 24 + 8)) with (len pre) by lia.
  destruct (Z.ltb_spec (len pre) 0); [lia|].
  assert (Ehdr : field 8 (pre ++ container pairs ++ post) (len pre) = len pairs + 24).
  { unfold container. rewrite <- !app_assoc.
    apply field_middle; [reflexivity | exact Hsz]. }
  rewrite Ehdr, Z.eqb_refl. cbn [negb]. f_equal. f_equal.
  apply take_drop_middle_bytes; [reflexivity|].
  pose proof (len_container pairs) as Lc. unfold len in *. lia.
Qed.

(** The shape of the file that a successful injection leaves. *)
Lemma patched_rewritten (data : bytes) (off cd c v : Z) (nb : bytes) :
  0 <= c -> 0 <= off -> 0 <= cd <= len data -> cd + c + 6 <= len data ->
  patched (rewritten data off cd nb) c v
  = take (Z.to_nat off) data ++ nb ++ patched (drop (Z.to_nat cd) data) c v.
Proof.
  intros Hc Ho Hcd Hw. unfold rewritten.
  rewrite (app_assoc _ nb). rewrite patched_app.
  - rewrite <- app_assoc. reflexivity.
  - exact Hc.
  - unfold len in *. rewrite length_drop. lia.
Qed.

(** Where the new container lies in the destination, when the offset
    field lies in the part from the central directory on. *)
Lemma injected_container_in_destination (data : bytes) (off cd c : Z) (nb : bytes) :
  0 <= c -> 0 <= off -> off <= cd -> cd <= len data -> cd + c + 6 <= len data ->
  0 <= off + len nb < 2 ^ 32 ->
  field 4 (patched (rewritten data off cd nb) c (off + len nb))
    (len (patched (rewritten data off cd nb) c (off + len nb)) - c - 6)
  = off + len nb
  /\ take (Z.to_nat (len nb))
       (drop (Z.to_nat off) (patched (rewritten data off cd nb) c (off + len nb)))
     = nb.
Proof.
  intros Hc Ho Hoc Hcd Hw Hr. pose proof (len_nonneg nb) as Hnb.
  assert (L2 : len (rewritten data off cd nb) = off + len nb + (len data - cd))
    by (apply len_rewritten; lia).
  split.
  - rewrite len_patched by lia. apply field_patched; lia.
  - rewrite patched_rewritten by lia.
    apply take_drop_middle_bytes.
    + unfold len in *. rewrite length_take. lia.
    + unfold len. lia.
Qed.

Section RoundTrip.
Context `{PyLib}.

(** The rewritten file, seen by the locating steps of the reader. *)
Lemma located_after_injection (fs : filesystem) (target : string) (data : bytes)
    (c cd off : Z) (block : bytes) (d' : dict) :
  comment_length_of data = Returns c ->
  signing_block_spec data cd = Returns (block, off) ->
  cd + 22 + c <= len data ->
  Forall entry_fits d' -> len (pairs_bytes d') + 24 < 2 ^ 64 ->
  let nb := container (pairs_bytes d') in
  let data3 := patched (rewritten data off cd nb) c (off + len nb) in
  0 <= off + len nb < 2 ^ 32 ->
  (c <= 12 \/ comment_length_of data3 = Returns c) ->
  comment_length_of data3 = Returns c
  /\ central_dir_offset_of data3 c = Returns (off + len nb)
  /\ signing_block_spec data3 (off + len nb) = Returns (nb, off).
Proof.
  intros Ec Eb Hw Hf Hs nb data3 Hr Hstable.
  pose proof (comment_length_of_spec data) as Sc. rewrite Ec in Sc.
  destruct Sc as (Hc & _).
  apply signing_block_spec_inv in Eb as (Hcd32 & Hcdl & Hoff & Hsum & Hb8 & _).
  pose proof (len_nonneg nb) as Hnb.
  set (pre' := take (Z.to_nat off) data).
  set (tail := drop (Z.to_nat cd) data).
  assert (Lpre : len pre' = off) by (unfold pre', len in *; rewrite length_take; lia).
  assert (Ltail : len tail = len data - cd)
    by (unfold tail, len in *; rewrite length_drop; lia).
  assert (E3 : data3 = pre' ++ nb ++ patched tail c (off + len nb)).
  { unfold data3, rewritten. fold pre' tail.
    rewrite (app_assoc pre' nb tail). rewrite patched_app by lia.
    rewrite <- app_assoc. reflexivity. }
  assert (L2 : len (rewritten data off cd nb) = off + len nb + (len data - cd))
    by (apply len_rewritten; lia).
  assert (L3 : len data3 = off + len nb + (len data - cd))
    by (unfold data3; rewrite len_patched by lia; exact L2).
  assert (C : comment_length_of data3 = Returns c).
  { destruct Hstable as [H12|Hst]; [|exact Hst].
    rewrite E3, app_assoc.
    apply (comment_length_of_rewritten (take (Z.to_nat cd) data)); [lia | lia |].
    unfold tail. rewrite take_drop. exact Ec. }
  split; [exact C|]. split.
  - rewrite central_dir_offset_of_field by lia. f_equal.
    unfold data3 at 1. rewrite L3, <- L2. apply field_patched; lia.
  - pose proof (signing_block_spec_container pre' (pairs_bytes d')
                  (patched tail c (off + len nb)) Hs) as S.
    rewrite Lpre in S. rewrite E3. exact S.
Qed.

(** ** Round trip *)

(** C1, as the claim states it, fails. The archive [ambiguous_apk] has
    a valid container with a v2 signature entry; injecting the channel
    [c] succeeds, and [get_channel] on the result returns None: the
    patched offset field completes the bytes 50 4b 05 06 at the
    candidate comment length 0, whose comment-length field is 0, so the
    scan stops there and reads a central-directory offset of 0. *)
Lemma C1_ambiguous_eocd_breaks_round_trip :
  exists fs' : filesystem,
    located demo_fs "ambiguous.apk" 13 234
      (container (pair_entry APK_SIGNATURE_SCHEME_V2_BLOCK_ID v2_signature)) 175
    /\ inject_channel (H := plain_lib) demo_fs "ambiguous.apk" "out.apk" (ascii "c")
       = Returns (fs', true)
    /\ _get_comment_length fs' "out.apk" = Returns 0
    /\ get_channel (H := plain_lib) fs' "out.apk" = Returns None.
Proof.
  destruct (inject_channel (H := plain_lib) demo_fs "ambiguous.apk" "out.apk" (ascii "c"))
    as [[fs' b]| |] eqn:E.
  - exists fs'. revert E. vm_compute. intros [= <- <-].
    repeat split; reflexivity.
  - exfalso. revert E. vm_compute. discriminate.
  - exfalso. revert E. vm_compute. discriminate.
Qed.

(** C1, amended. Let injection succeed ([inject_channel] returns True)
    on an archive whose central-directory offset lies at or before the
    EOCD record that the scan found, and let the scan find the EOCD of
    the rewritten file at the same comment length, which is always so
    when the comment has at most 12 bytes. If the library decodes the
    encoded channel back to [V], then [get_channel] on the destination
    returns [V]. *)
Theorem C1_round_trip (fs fs' : filesystem) (source target : string) (V : str)
    (data : bytes) (c cd : Z) (channel_bytes : bytes) :
  fs !! source = Some data ->
  _get_comment_length fs source = Returns c ->
  _find_central_dir_start_offset fs source c = Returns cd ->
  cd + 22 + c <= len data ->
  inject_channel fs source target V = Returns (fs', true) ->
  (c <= 12 \/ _get_comment_length fs' target = Returns c) ->
  str_encode (create_channel_info V) = Some channel_bytes ->
  (parse_channel_info channel_bytes ≫= info_get_channel)
  = Returns (Some (value_of_str V)) ->
  get_channel fs' target = Returns (Some (value_of_str V)).
Proof.
  intros Esrc Ec Ecd Hw Hinj Hstable Ech Hcodec.
  apply inject_channel_true_inv in Hinj
    as (data0 & c0 & cd0 & block & off & d & chb & nb
        & Esrc0 & Ec0 & Ecd0 & Eb & Ed & Ev2 & Ech0 & Enb & Hp & Hr & ->).
  rewrite Esrc in Esrc0. injection Esrc0 as <-.
  rewrite (_get_comment_length_data _ _ _ Esrc) in Ec.
  rewrite Ec in Ec0. injection Ec0 as <-.
  rewrite (_find_central_dir_start_offset_data _ _ _ _ Esrc) in Ecd.
  rewrite Ecd in Ecd0. injection Ecd0 as <-.
  rewrite Ech in Ech0. injection Ech0 as <-.
  pose proof (_create_apk_signing_block_inv _ _ Enb) as (Enb' & Hf & Hs).
  set (data3 := patched (rewritten data off cd nb) c (off + len nb)) in *.
  assert (E3 : (<[target := data3]> fs) !! target = Some data3)
    by apply lookup_insert_eq.
  rewrite (_get_comment_length_data _ _ _ E3) in Hstable.
  assert (L : located (<[target := data3]> fs) target c (off + len nb) nb off).
  { apply (located_data _ _ _ _ _ _ _ E3). unfold data3 in *. subst nb.
    apply (located_after_injection fs target data c cd off block
             (injected_dict d channel_bytes)); auto. }
  assert (Dd : _find_id_values nb = Returns (injected_dict d channel_bytes)).
  { apply find_create_roundtrip; [|exact Enb].
    apply injected_dict_ok. eapply _find_id_values_ok. exact Ed. }
  unfold get_channel.
  rewrite (get_channel_body_located _ _ _ _ _ _ _ L Dd).
  rewrite injected_dict_channel, Hcodec. reflexivity.
Qed.

End RoundTrip.

Section SignaturePassThrough.
Context `{PyLib}.

(** ** Signature pass-through *)

(** C7, amended. Let injection succeed on an archive whose offset field
    lies in the part from the central directory on
    ([cd + c + 6 <= size]). Then the bytes of the destination from the
    old container start up to the patched central-directory offset are
    the new container, and it decodes to a dict in which the value under
    the v2 signature id 0x7109871a is byte for byte the value decoded
    from the original container, whatever else the injection dropped
    (padding) or set (channel). *)
Theorem C7_signature_pass_through (fs fs' : filesystem) (source target : string)
    (channel : str) (data : bytes) (c cd : Z) (block : bytes) (off : Z) (d : dict) :
  fs !! source = Some data ->
  located fs source c cd block off ->
  _find_id_values block = Returns d ->
  cd + c + 6 <= len data ->
  inject_channel fs source target channel = Returns (fs', true) ->
  exists data' new_cd d' v,
    fs' !! target = Some data'
    /\ field 4 data' (len data' - c - 6) = new_cd
    /\ off <= new_cd
    /\ _find_id_values (take (Z.to_nat (new_cd - off)) (drop (Z.to_nat off) data'))
       = Returns d'
    /\ dict_get APK_SIGNATURE_SCHEME_V2_BLOCK_ID d = Some v
    /\ dict_get APK_SIGNATURE_SCHEME_V2_BLOCK_ID d' = Some v.
Proof.
  intros Esrc L Ed Hw Hinj.
  destruct (inject_channel_true_located _ _ _ _ _ _ _ _ _ _ Esrc L Hinj)
    as (d0 & chb & nb & Ed0 & Ev2 & Ech & Enb & Hp & Hr & ->).
  rewrite Ed in Ed0. injection Ed0 as <-.
  apply (located_data _ _ _ _ _ _ _ Esrc) in L as (Ec & Ecd & Eb).
  pose proof (comment_length_of_spec data) as Sc. rewrite Ec in Sc.
  destruct Sc as (Hc & _).
  apply signing_block_spec_inv in Eb as (Hcd32 & Hcdl & Hoff & Hsum & Hb8 & _).
  pose proof (len_nonneg nb) as Hnb.
  destruct (injected_container_in_destination data off cd c nb) as (Ef & Et); try lia.
  apply dict_mem_get in Ev2 as [v Ev].
  exists (patched (rewritten data off cd nb) c (off + len nb)), (off + len nb),
    (injected_dict d chb), v.
  split; [apply lookup_insert_eq|]. split; [exact Ef|]. split; [lia|].
  replace (off + len nb - off) with (len nb) by lia. rewrite Et.
  split.
  - apply find_create_roundtrip; [|exact Enb].
    apply injected_dict_ok. eapply _find_id_values_ok. exact Ed.
  - split; [exact Ev|]. rewrite injected_dict_signature. exact Ev.
Qed.

End SignaturePassThrough.

(** C7, as the claim states it, fails. In [inside_apk] the container
    lies inside the EOCD comment, so that the central directory offset
    86 is beyond the offset field. Injecting the channel [c] succeeds;
    the new file has 116 bytes and the offset is written at
    [116 - 63 - 6 = 47], which is inside the new container at 27: the
    first four bytes of the v2 signature value are overwritten. *)
Lemma C7_patch_inside_container_alters_signature :
  exists (fs' : filesystem) (data' : bytes) (d' : dict) (v' : bytes),
    located inside_fs "inside.apk" 63 86 signed_container 27
    /\ _find_id_values signed_container
       = Returns [(APK_SIGNATURE_SCHEME_V2_BLOCK_ID, v2_signature)]
    /\ inject_channel (H := plain_lib) inside_fs "inside.apk" "out.apk" (ascii "c")
       = Returns (fs', true)
    /\ fs' !! "out.apk"%string = Some data'
    /\ len data' = 116
    /\ _find_id_values (take 87 (drop 27 data')) = Returns d'
    /\ dict_get APK_SIGNATURE_SCHEME_V2_BLOCK_ID d' = Some v'
    /\ v' = [x72; x00; x00; x00] ++ ascii "ature-bytes"
    /\ v' <> v2_signature.
Proof.
  destruct (inject_channel (H := plain_lib) inside_fs "inside.apk" "out.apk" (ascii "c"))
    as [[fs' b]| |] eqn:E.
  - revert E. vm_compute. intros [= <- <-].
    eexists _, _, _, _.
    split; [repeat split; reflexivity|]. split; [reflexivity|]. split; [reflexivity|].
    split; [reflexivity|]. split; [reflexivity|]. split; [reflexivity|].
    split; [reflexivity|]. split; [reflexivity|]. discriminate.
  - exfalso. revert E. vm_compute. discriminate.
  - exfalso. revert E. vm_compute. discriminate.
Qed.

(** ** The theorems on concrete archives

    Each theorem with hypotheses is applied to an archive of [demo_fs],
    with the small library instance where a channel is involved. *)

Lemma located_signed : located demo_fs "signed.apk" 0 70 signed_container 11.
Proof. repeat split; vm_compute; reflexivity. Defined.

Lemma located_unsigned : located demo_fs "unsigned.apk" 0 60 unsigned_container 11.
Proof. repeat split; vm_compute; reflexivity. Defined.

Lemma inject_signed :
  inject_channel (H := plain_lib) demo_fs "signed.apk" "out.apk" test_channel
  = Returns (<["out.apk"%string := injected_apk]> demo_fs, true).
Proof. vm_compute. reflexivity. Defined.

Lemma C4_gate_enforcement_witness :
  demo_fs !! "unsigned.apk"%string = Some unsigned_apk
  /\ located demo_fs "unsigned.apk" 0 60 unsigned_container 11
  /\ _find_id_values unsigned_container = Returns [(0x12345678, ascii "other")]
  /\ dict_mem APK_SIGNATURE_SCHEME_V2_BLOCK_ID [(0x12345678, ascii "other")] = false
  /\ (inject_channel_body (H := plain_lib) demo_fs "unsigned.apk" "out.apk" test_channel
      = (<["out.apk"%string := unsigned_apk]> demo_fs,
         Raises (SignatureNotFoundException SignatureEntryMissing))
      /\ inject_channel (H := plain_lib) demo_fs "unsigned.apk" "out.apk" test_channel
         = Returns (<["out.apk"%string := unsigned_apk]> demo_fs, false)
      /\ located (<["out.apk"%string := unsigned_apk]> demo_fs) "out.apk"
           0 60 unsigned_container 11).
Proof.
  assert (H1 : demo_fs !! "unsigned.apk"%string = Some unsigned_apk) by reflexivity.
  assert (H3 : _find_id_values unsigned_container = Returns [(0x12345678, ascii "other")])
    by (vm_compute; reflexivity).
  assert (H4 : dict_mem APK_SIGNATURE_SCHEME_V2_BLOCK_ID [(0x12345678, ascii "other")]
               = false) by reflexivity.
  split; [exact H1|]. split; [exact located_unsigned|].
  split; [exact H3|]. split; [exact H4|].
  exact (C4_gate_enforcement (H := plain_lib) demo_fs "unsigned.apk" "out.apk"
           test_channel unsigned_apk 0 60 unsigned_container 11
           [(0x12345678, ascii "other")] H1 located_unsigned H3 H4).
Defined.

Lemma C9_early_failure_leaves_copy_witness :
  demo_fs !! "broken.apk"%string = Some (ascii "not a zip archive")
  /\ early_failure (<["out.apk"%string := ascii "not a zip archive"]> demo_fs) "out.apk"
       (SignatureNotFoundException EocdNotFound)
  /\ (inject_channel_body (H := plain_lib) demo_fs "broken.apk" "out.apk" test_channel
      = (<["out.apk"%string := ascii "not a zip archive"]> demo_fs,
         Raises (SignatureNotFoundException EocdNotFound))
      /\ inject_channel (H := plain_lib) demo_fs "broken.apk" "out.apk" test_channel
         = Returns (<["out.apk"%string := ascii "not a zip archive"]> demo_fs, false)).
Proof.
  assert (H1 : demo_fs !! "broken.apk"%string = Some (ascii "not a zip archive"))
    by reflexivity.
  assert (H2 : early_failure (<["out.apk"%string := ascii "not a zip archive"]> demo_fs)
                 "out.apk" (SignatureNotFoundException EocdNotFound))
    by (apply fail_eocd; vm_compute; reflexivity).
  split; [exact H1|]. split; [exact H2|].
  exact (C9_early_failure_leaves_copy (H := plain_lib) demo_fs "broken.apk" "out.apk"
           test_channel (ascii "not a zip archive")
           (SignatureNotFoundException EocdNotFound) H1 H2).
Defined.

Lemma C8_absence_is_not_an_error_witness :
  located demo_fs "signed.apk" 0 70 signed_container 11
  /\ _find_id_values signed_container
     = Returns [(APK_SIGNATURE_SCHEME_V2_BLOCK_ID, v2_signature)]
  /\ dict_mem WALLE_CHANNEL_BLOCK_ID [(APK_SIGNATURE_SCHEME_V2_BLOCK_ID, v2_signature)]
     = false
  /\ (get_channel_body (H := plain_lib) demo_fs "signed.apk" = Returns None
      /\ get_channel (H := plain_lib) demo_fs "signed.apk" = Returns None).
Proof.
  assert (H2 : _find_id_values signed_container
               = Returns [(APK_SIGNATURE_SCHEME_V2_BLOCK_ID, v2_signature)])
    by (vm_compute; reflexivity).
  assert (H3 : dict_mem WALLE_CHANNEL_BLOCK_ID
                 [(APK_SIGNATURE_SCHEME_V2_BLOCK_ID, v2_signature)] = false)
    by reflexivity.
  split; [exact located_signed|]. split; [exact H2|]. split; [exact H3|].
  exact (C8_absence_is_not_an_error (H := plain_lib) demo_fs "signed.apk" 0 70
           signed_container 11 [(APK_SIGNATURE_SCHEME_V2_BLOCK_ID, v2_signature)]
           located_signed H2 H3).
Defined.

Lemma C3_size_accounting_witness :
  demo_fs !! "signed.apk"%string = Some signed_apk
  /\ located demo_fs "signed.apk" 0 70 signed_container 11
  /\ inject_channel (H := plain_lib) demo_fs "signed.apk" "out.apk" test_channel
     = Returns (<["out.apk"%string := injected_apk]> demo_fs, true)
  /\ exists d channel_bytes nb data',
       _find_id_values signed_container = Returns d
       /\ str_encode (create_channel_info test_channel) = Some channel_bytes
       /\ _create_apk_signing_block (injected_dict d channel_bytes) = Returns nb
       /\ (<["out.apk"%string := injected_apk]> demo_fs) !! "out.apk"%string = Some data'
       /\ len data' = len signed_apk - len signed_container + len nb
       /\ field 4 data' (len data' - 0 - 6) = 11 + len nb.
Proof.
  assert (H1 : demo_fs !! "signed.apk"%string = Some signed_apk) by reflexivity.
  split; [exact H1|]. split; [exact located_signed|]. split; [exact inject_signed|].
  exact (C3_size_accounting (H := plain_lib) demo_fs
           (<["out.apk"%string := injected_apk]> demo_fs) "signed.apk" "out.apk"
           test_channel signed_apk 0 70 signed_container 11
           H1 located_signed inject_signed).
Defined.

Lemma C7_signature_pass_through_witness :
  demo_fs !! "signed.apk"%string = Some signed_apk
  /\ located demo_fs "signed.apk" 0 70 signed_container 11
  /\ _find_id_values signed_container
     = Returns [(APK_SIGNATURE_SCHEME_V2_BLOCK_ID, v2_signature)]
  /\ 70 + 0 + 6 <= len signed_apk
  /\ inject_channel (H := plain_lib) demo_fs "signed.apk" "out.apk" test_channel
     = Returns (<["out.apk"%string := injected_apk]> demo_fs, true)
  /\ exists data' new_cd d' v,
       (<["out.apk"%string := injected_apk]> demo_fs) !! "out.apk"%string = Some data'
       /\ field 4 data' (len data' - 0 - 6) = new_cd
       /\ 11 <= new_cd
       /\ _find_id_values (take (Z.to_nat (new_cd - 11)) (drop (Z.to_nat 11) data'))
          = Returns d'
       /\ dict_get APK_SIGNATURE_SCHEME_V2_BLOCK_ID
            [(APK_SIGNATURE_SCHEME_V2_BLOCK_ID, v2_signature)] = Some v
       /\ dict_get APK_SIGNATURE_SCHEME_V2_BLOCK_ID d' = Some v.
Proof.
  assert (H1 : demo_fs !! "signed.apk"%string = Some signed_apk) by reflexivity.
  assert (H3 : _find_id_values signed_container
               = Returns [(APK_SIGNATURE_SCHEME_V2_BLOCK_ID, v2_signature)])
    by (vm_compute; reflexivity).
  assert (H4 : 70 + 0 + 6 <= len signed_apk) by (vm_compute; discriminate).
  split; [exact H1|]. split; [exact located_signed|]. split; [exact H3|].
  split; [exact H4|]. split; [exact inject_signed|].
  exact (C7_signature_pass_through (H := plain_lib) demo_fs
           (<["out.apk"%string := injected_apk]> demo_fs) "signed.apk" "out.apk"
           test_channel signed_apk 0 70 signed_container 11
           [(APK_SIGNATURE_SCHEME_V2_BLOCK_ID, v2_signature)]
           H1 located_signed H3 H4 inject_signed).
Defined.

Lemma C1_round_trip_witness :
  demo_fs !! "signed.apk"%string = Some signed_apk
  /\ _get_comment_length demo_fs "signed.apk" = Returns 0
  /\ _find_central_dir_start_offset demo_fs "signed.apk" 0 = Returns 70
  /\ 70 + 22 + 0 <= len signed_apk
  /\ inject_channel (H := plain_lib) demo_fs "signed.apk" "out.apk" test_channel
     = Returns (<["out.apk"%string := injected_apk]> demo_fs, true)
  /\ (0 <= 12
      \/ _get_comment_length (<["out.apk"%string := injected_apk]> demo_fs) "out.apk"
         = Returns 0)
  /\ str_encode (create_channel_info test_channel) = Some test_channel_bytes
  /\ (parse_channel_info test_channel_bytes ≫= info_get_channel)
     = Returns (Some (value_of_str test_channel))
  /\ get_channel (H := plain_lib) (<["out.apk"%string := injected_apk]> demo_fs) "out.apk"
     = Returns (Some (value_of_str test_channel)).
Proof.
  assert (H1 : demo_fs !! "signed.apk"%string = Some signed_apk) by reflexivity.
  assert (H2 : _get_comment_length demo_fs "signed.apk" = Returns 0)
    by (vm_compute; reflexivity).
  assert (H3 : _find_central_dir_start_offset demo_fs "signed.apk" 0 = Returns 70)
    by (vm_compute; reflexivity).
  assert (H4 : 70 + 22 + 0 <= len signed_apk) by (vm_compute; discriminate).
  assert (H6 : 0 <= 12
               \/ _get_comment_length (<["out.apk"%string := injected_apk]> demo_fs)
                    "out.apk" = Returns 0) by (left; lia).
  assert (H7 : str_encode (create_channel_info test_channel) = Some test_channel_bytes)
    by reflexivity.
  assert (H8 : (parse_channel_info test_channel_bytes ≫= info_get_channel)
               = Returns (Some (value_of_str test_channel)))
    by (vm_compute; reflexivity).
  split; [exact H1|]. split; [exact H2|]. split; [exact H3|]. split; [exact H4|].
  split; [exact inject_signed|]. split; [exact H6|]. split; [exact H7|].
  split; [exact H8|].
  exact (C1_round_trip (H := plain_lib) demo_fs
           (<["out.apk"%string := injected_apk]> demo_fs) "signed.apk" "out.apk"
           test_channel signed_apk 0 70 test_channel_bytes
           H1 H2 H3 H4 inject_signed H6 H7 H8).
Defined.

(* ================================================================== *)
(** * Further properties of the code *)

(** ** The pair codec *)

Lemma dict_get_fold_set (k : Z) (l acc : dict) :
  dict_get k (fold_left (fun a kv => dict_set kv.1 kv.2 a) l acc)
  = match last_value k l with
    | Some v => Some v
    | None => dict_get k acc
    end.
Proof.
  revert acc. induction l as [|[k' v] r IH]; intros acc; [reflexivity|].
  simpl fold_left. rewrite IH. simpl last_value.
  destruct (last_value k r) as [w|]; [reflexivity|].
  destruct (Z.eqb_spec k' k) as [->|Hne].
  - apply dict_get_set_eq.
  - apply dict_get_set_ne. exact Hne.
Qed.

Lemma fold_dict_set_ok (l acc : dict) :
  Forall entry_fits l -> dict_ok acc ->
  dict_ok (fold_left (fun a kv => dict_set kv.1 kv.2 a) l acc).
Proof.
  revert acc. induction l as [|[k v] r IH]; intros acc Hf Ha; [exact Ha|].
  apply Forall_cons in Hf as [[Hk _] Hf]. simpl. apply IH; [exact Hf|].
  apply dict_set_ok; [exact Hk | exact Ha].
Qed.

Lemma _find_id_values_container (l : dict) :
  Forall entry_fits l ->
  _find_id_values (container (pairs_bytes l))
  = Returns (fold_left (fun a kv => dict_set kv.1 kv.2 a) l []).
Proof.
  intros Hf. unfold _find_id_values.
  pose proof (decode_container l Hf [] [] (length (container (pairs_bytes l)))) as D.
  simpl app in D. change (8 + len []) with 8 in D. apply D.
  pose proof (length_pairs_bytes l). pose proof (len_container (pairs_bytes l)) as L.
  unfold len in L. lia.
Qed.

(** X1. Decoding inverts encoding: when [_create_apk_signing_block]
    returns a container for a dict whose keys are distinct 32-bit
    identifiers, [_find_id_values] on that container returns the same
    dict, entries in the same order. *)
Theorem X1_pair_codec_round_trip (d : dict) (b : bytes) :
  dict_ok d ->
  _create_apk_signing_block d = Returns b ->
  _find_id_values b = Returns d.
Proof.
  intros [Hnd _] Hc. apply _create_apk_signing_block_inv in Hc as (-> & Hf & _).
  rewrite _find_id_values_container by exact Hf.
  rewrite fold_dict_set_nodup by exact Hnd. reflexivity.
Qed.

Lemma X1_pair_codec_round_trip_witness :
  dict_ok padded_entries
  /\ _create_apk_signing_block padded_entries
     = Returns (container (pairs_bytes padded_entries))
  /\ _find_id_values (container (pairs_bytes padded_entries)) = Returns padded_entries.
Proof.
  assert (H1 : dict_ok padded_entries).
  { unfold padded_entries. split.
    - cbn [fmap list_fmap fst].
      repeat (apply NoDup_cons_2; [rewrite ?not_elem_of_cons; repeat split;
        try discriminate; apply not_elem_of_nil|]). apply NoDup_nil_2.
    - unfold APK_SIGNATURE_SCHEME_V2_BLOCK_ID, VERITY_PADDING_BLOCK_ID.
      repeat (apply Forall_cons_2; [simpl; lia|]). apply Forall_nil_2. }
  assert (H2 : _create_apk_signing_block padded_entries
               = Returns (container (pairs_bytes padded_entries)))
    by (vm_compute; reflexivity).
  split; [exact H1|]. split; [exact H2|].
  exact (X1_pair_codec_round_trip padded_entries _ H1 H2).
Defined.

(** X2. Duplicate identifiers: when a well-formed container holds
    several entries under one identifier, [_find_id_values] keeps one
    key for it, bound to the value of the last such entry. The decoded
    dict has pairwise distinct keys, and an identifier is a key exactly
    when some entry carries it. *)
Theorem X2_duplicate_ids_last_wins (l : dict) :
  Forall entry_fits l ->
  exists d,
    _find_id_values (container (pairs_bytes l)) = Returns d
    /\ NoDup (d.*1)
    /\ forall k, dict_get k d = last_value k l.
Proof.
  intros Hf. exists (fold_left (fun a kv => dict_set kv.1 kv.2 a) l []).
  split; [apply _find_id_values_container; exact Hf|]. split.
  - apply (fold_dict_set_ok l [] Hf dict_ok_nil).
  - intros k. rewrite dict_get_fold_set. destruct (last_value k l); reflexivity.
Qed.

Lemma X2_duplicate_ids_last_wins_witness :
  Forall entry_fits duplicate_entries
  /\ exists d,
       _find_id_values (container (pairs_bytes duplicate_entries)) = Returns d
       /\ NoDup (d.*1)
       /\ forall k, dict_get k d = last_value k duplicate_entries.
Proof.
  assert (H1 : Forall entry_fits duplicate_entries).
  { unfold duplicate_entries, APK_SIGNATURE_SCHEME_V2_BLOCK_ID.
    repeat (apply Forall_cons_2; [split; [simpl; lia | vm_compute; reflexivity]|]).
    apply Forall_nil_2. }
  split; [exact H1|]. exact (X2_duplicate_ids_last_wins duplicate_entries H1).
Defined.

(** ** The encoder, its sizes and its failures *)

Lemma _create_apk_signing_block_Returns (d : dict) :
  Forall entry_fits d -> len (pairs_bytes d) + 24 < 2 ^ 64 ->
  _create_apk_signing_block d = Returns (container (pairs_bytes d)).
Proof.
  intros Hf Hs. unfold _create_apk_signing_block.
  destruct (pairs_of_cases d []) as [[-> _]|[_ Hn]]; [|contradiction].
  cbn [mbind outcome_bind]. rewrite !app_nil_l.
  replace (8 + len (pairs_bytes d) + 24 - 8) with (len (pairs_bytes d) + 24) by lia.
  assert (R : 0 <= len (pairs_bytes d) + 24 < 256 ^ Z.of_nat 8).
  { pose proof (len_nonneg (pairs_bytes d)).
    change (256 ^ Z.of_nat 8) with (2 ^ 64). lia. }
  rewrite (struct_pack_Returns 8 _ R).
  cbn [mbind outcome_bind].
  change (struct_pack 8 APK_SIG_BLOCK_MAGIC_LO)
    with (Returns (Z_to_le 8 APK_SIG_BLOCK_MAGIC_LO)).
  change (struct_pack 8 APK_SIG_BLOCK_MAGIC_HI)
    with (Returns (Z_to_le 8 APK_SIG_BLOCK_MAGIC_HI)).
  cbn [mbind outcome_bind]. unfold container. rewrite <- !app_assoc. reflexivity.
Qed.

(** X3. The container that [_create_apk_signing_block] returns is one
    that [_find_apk_signing_block] finds: placed in a file so that it
    ends at the central-directory offset, it is returned whole, with the
    offset at which it starts. *)
Theorem X3_created_block_is_located (fs : filesystem) (path : string) (d : dict)
    (nb pre post : bytes) :
  _create_apk_signing_block d = Returns nb ->
  fs !! path = Some (pre ++ nb ++ post) ->
  _find_apk_signing_block fs path (len pre + len nb) = Returns (nb, len pre).
Proof.
  intros Hc E. rewrite (_find_apk_signing_block_data _ _ _ _ E).
  apply _create_apk_signing_block_inv in Hc as (-> & _ & Hs).
  apply signing_block_spec_container. exact Hs.
Qed.

Lemma X3_created_block_is_located_witness :
  _create_apk_signing_block padded_entries
  = Returns (container (pairs_bytes padded_entries))
  /\ ({[ "a.apk"%string :=
           ascii "entries" ++ container (pairs_bytes padded_entries) ++ ascii "rest" ]}
        : filesystem) !! "a.apk"%string
     = Some (ascii "entries" ++ container (pairs_bytes padded_entries) ++ ascii "rest")
  /\ _find_apk_signing_block
       {[ "a.apk"%string :=
            ascii "entries" ++ container (pairs_bytes padded_entries) ++ ascii "rest" ]}
       "a.apk" (len (ascii "entries") + len (container (pairs_bytes padded_entries)))
     = Returns (container (pairs_bytes padded_entries), len (ascii "entries")).
Proof.
  assert (H1 : _create_apk_signing_block padded_entries
               = Returns (container (pairs_bytes padded_entries)))
    by (vm_compute; reflexivity).
  assert (H2 : ({[ "a.apk"%string :=
                     ascii "entries" ++ container (pairs_bytes padded_entries)
                       ++ ascii "rest" ]} : filesystem) !! "a.apk"%string
               = Some (ascii "entries" ++ container (pairs_bytes padded_entries)
                         ++ ascii "rest")) by reflexivity.
  split; [exact H1|]. split; [exact H2|].
  exact (X3_created_block_is_located _ "a.apk" padded_entries _ _ _ H1 H2).
Defined.

Lemma len_pairs_bytes_cons (k : Z) (v : bytes) (d : dict) :
  len (pairs_bytes ((k, v) :: d)) = 12 + len v + len (pairs_bytes d).
Proof. rewrite pairs_bytes_cons, len_app, len_pair_entry. reflexivity. Qed.

Lemma len_pairs_bytes_set (k : Z) (v : bytes) (d : dict) :
  len (pairs_bytes (dict_set k v d))
  = len (pairs_bytes d) - entry_span k d + 12 + len v.
Proof.
  unfold entry_span. induction d as [|[k0 v0] r IH].
  - simpl dict_set. simpl dict_get. rewrite len_pairs_bytes_cons.
    change (pairs_bytes []) with (@nil byte). rewrite len_nil. lia.
  - simpl dict_set. simpl dict_get. destruct (Z.eqb_spec k0 k) as [->|Hne].
    + rewrite !len_pairs_bytes_cons. lia.
    + rewrite !len_pairs_bytes_cons, IH. lia.
Qed.

Lemma len_pairs_bytes_del (k : Z) (d : dict) :
  len (pairs_bytes (dict_del k d)) = len (pairs_bytes d) - entry_span k d.
Proof.
  unfold entry_span. induction d as [|[k0 v0] r IH].
  - simpl. lia.
  - simpl dict_del. simpl dict_get. destruct (Z.eqb_spec k0 k) as [->|Hne].
    + rewrite len_pairs_bytes_cons. lia.
    + rewrite !len_pairs_bytes_cons, IH. lia.
Qed.

Lemma entry_span_del_ne (k k' : Z) (d : dict) :
  k <> k' -> entry_span k' (dict_del k d) = entry_span k' d.
Proof. intros Hne. unfold entry_span. rewrite dict_get_del_ne by exact Hne. reflexivity. Qed.

Lemma entry_span_absent (k : Z) (d : dict) :
  dict_mem k d = false -> entry_span k d = 0.
Proof.
  unfold dict_mem, entry_span. destruct (dict_get k d); [discriminate|reflexivity].
Qed.

(** X4. Size of the re-encoded container. If [b0] encodes the dict [d]
    and [nb] encodes what injection makes of it, then [nb] is [b0]
    without the bytes of the padding entry and of the old channel
    entry, plus 12 bytes and the new channel value: 8 of entry size, 4
    of identifier, then the value. A first injection into a container
    without padding therefore adds [12 + len channel_bytes] bytes. *)
Theorem X4_injected_container_size (d : dict) (channel_bytes b0 nb : bytes) :
  _create_apk_signing_block d = Returns b0 ->
  _create_apk_signing_block (injected_dict d channel_bytes) = Returns nb ->
  len b0 = 32 + len (pairs_bytes d)
  /\ len nb = len b0 - entry_span VERITY_PADDING_BLOCK_ID d
              - entry_span WALLE_CHANNEL_BLOCK_ID d + 12 + len channel_bytes.
Proof.
  intros H0 H1.
  apply _create_apk_signing_block_inv in H0 as (-> & _ & _).
  apply _create_apk_signing_block_inv in H1 as (-> & _ & _).
  rewrite !len_container. split; [lia|].
  unfold injected_dict. rewrite len_pairs_bytes_set.
  destruct (dict_mem VERITY_PADDING_BLOCK_ID d) eqn:Ep.
  - rewrite len_pairs_bytes_del, entry_span_del_ne by discriminate. lia.
  - rewrite (entry_span_absent _ _ Ep). lia.
Qed.

Lemma X4_injected_container_size_witness :
  _create_apk_signing_block padded_entries
  = Returns (container (pairs_bytes padded_entries))
  /\ _create_apk_signing_block (injected_dict padded_entries test_channel_bytes)
     = Returns (container (pairs_bytes (injected_dict padded_entries test_channel_bytes)))
  /\ (len (container (pairs_bytes padded_entries)) = 32 + len (pairs_bytes padded_entries)
      /\ len (container (pairs_bytes (injected_dict padded_entries test_channel_bytes)))
         = len (container (pairs_bytes padded_entries))
           - entry_span VERITY_PADDING_BLOCK_ID padded_entries
           - entry_span WALLE_CHANNEL_BLOCK_ID padded_entries
           + 12 + len test_channel_bytes).
Proof.
  assert (H1 : _create_apk_signing_block padded_entries
               = Returns (container (pairs_bytes padded_entries)))
    by (vm_compute; reflexivity).
  assert (H2 : _create_apk_signing_block (injected_dict padded_entries test_channel_bytes)
               = Returns (container (pairs_bytes
                            (injected_dict padded_entries test_channel_bytes))))
    by (vm_compute; reflexivity).
  split; [exact H1|]. split; [exact H2|].
  exact (X4_injected_container_size padded_entries test_channel_bytes _ _ H1 H2).
Defined.

(** X5. [_create_apk_signing_block] raises [struct.error] exactly when
    some entry does not fit its fields (an identifier outside
    [0 .. 2^32 - 1], or a value so long that [4 + len] needs more than
    64 bits) or the size field overflows 64 bits; in every other case
    it returns the container. It never wraps a value around. *)
Theorem X5_create_raises_iff_entry_does_not_fit (d : dict) :
  (_create_apk_signing_block d = Raises StructError
   <-> ~ (Forall entry_fits d /\ len (pairs_bytes d) + 24 < 2 ^ 64))
  /\ (_create_apk_signing_block d = Returns (container (pairs_bytes d))
      <-> Forall entry_fits d /\ len (pairs_bytes d) + 24 < 2 ^ 64).
Proof.
  destruct (_create_apk_signing_block_cases d) as [(E & Hf & Hs)|E].
  - rewrite E. split; split.
    + discriminate.
    + intros Hn. exfalso. apply Hn. auto.
    + auto.
    + reflexivity.
  - rewrite E. split; split.
    + intros _ [Hf Hs].
      rewrite (_create_apk_signing_block_Returns d Hf Hs) in E. discriminate.
    + reflexivity.
    + discriminate.
    + intros [Hf Hs].
      rewrite (_create_apk_signing_block_Returns d Hf Hs) in E. discriminate.
Qed.

(** ** The central-directory offset *)

(** X6. For a comment length [c >= 0], [_find_central_dir_start_offset]
    returns the 32-bit field at offset [size - c - 6] whenever the file
    has at least [c + 6] bytes, a value in [0 .. 2^32 - 1] that is not
    checked against the file size; on a shorter file the seek to a
    negative position raises. It never raises [struct.error]. *)
Theorem X6_central_dir_offset_read (fs : filesystem) (path : string)
    (data : bytes) (c : Z) :
  fs !! path = Some data -> 0 <= c ->
  (c + 6 <= len data ->
   _find_central_dir_start_offset fs path c
   = Returns (field 4 data (len data - c - 6))
   /\ 0 <= field 4 data (len data - c - 6) < 2 ^ 32)
  /\ (len data < c + 6 ->
      _find_central_dir_start_offset fs path c = Raises SeekError).
Proof.
  intros E Hc. rewrite (_find_central_dir_start_offset_data _ _ _ _ E). split.
  - intros Hl. assert (R : central_dir_offset_of data c
                           = Returns (field 4 data (len data - c - 6)))
      by (apply central_dir_offset_of_field; lia).
    split; [exact R|].
    apply central_dir_offset_of_inv in R as (_ & _ & _ & Hr). exact Hr.
  - intros Hl. unfold central_dir_offset_of, read_at.
    destruct (Z.ltb_spec (len data - c - 6) 0); [reflexivity|lia].
Qed.

Lemma X6_central_dir_offset_read_witness :
  demo_fs !! "signed.apk"%string = Some signed_apk /\ 0 <= 0
  /\ ((0 + 6 <= len signed_apk ->
       _find_central_dir_start_offset demo_fs "signed.apk" 0
       = Returns (field 4 signed_apk (len signed_apk - 0 - 6))
       /\ 0 <= field 4 signed_apk (len signed_apk - 0 - 6) < 2 ^ 32)
      /\ (len signed_apk < 0 + 6 ->
          _find_central_dir_start_offset demo_fs "signed.apk" 0 = Raises SeekError)).
Proof.
  assert (H1 : demo_fs !! "signed.apk"%string = Some signed_apk) by reflexivity.
  assert (H2 : 0 <= 0) by lia.
  split; [exact H1|]. split; [exact H2|].
  exact (X6_central_dir_offset_read demo_fs "signed.apk" signed_apk 0 H1 H2).
Defined.

(** ** What injection leaves alone *)

Lemma dict_get_del_eq (k : Z) (d : dict) :
  NoDup (d.*1) -> dict_get k (dict_del k d) = None.
Proof.
  induction d as [|[k0 v0] r IH]; intros Hnd; [reflexivity|].
  simpl in Hnd. apply NoDup_cons in Hnd as [Hk0 Hnd]. simpl dict_del.
  destruct (Z.eqb_spec k0 k) as [->|Hne].
  - apply dict_get_None_keys. exact Hk0.
  - simpl dict_get. destruct (Z.eqb_spec k0 k); [contradiction|]. apply IH. exact Hnd.
Qed.

Lemma injected_dict_padding (d : dict) (channel_bytes : bytes) :
  NoDup (d.*1) ->
  dict_get VERITY_PADDING_BLOCK_ID (injected_dict d channel_bytes) = None.
Proof.
  intros Hnd. unfold injected_dict. rewrite dict_get_set_ne by discriminate.
  unfold dict_mem.
  destruct (dict_get VERITY_PADDING_BLOCK_ID d) eqn:E; [|exact E].
  apply dict_get_del_eq. exact Hnd.
Qed.

Lemma injected_dict_other (d : dict) (channel_bytes : bytes) (k : Z) :
  k <> WALLE_CHANNEL_BLOCK_ID -> k <> VERITY_PADDING_BLOCK_ID ->
  dict_get k (injected_dict d channel_bytes) = dict_get k d.
Proof.
  intros Hc Hp. unfold injected_dict. rewrite dict_get_set_ne by congruence.
  destruct (dict_mem VERITY_PADDING_BLOCK_ID d); [|reflexivity].
  apply dict_get_del_ne. congruence.
Qed.

Lemma patched_lookup_before (data : bytes) (c v : Z) (i : nat) :
  0 <= c -> 0 <= len data - c - 6 -> (i < Z.to_nat (len data - c - 6))%nat ->
  patched data c v !! i = data !! i.
Proof.
  intros Hc Hp Hi. unfold patched. cbv zeta.
  rewrite lookup_app_l by (unfold len in *; rewrite length_take; lia).
  apply lookup_take_lt. exact Hi.
Qed.

Lemma patched_lookup_after (data : bytes) (c v : Z) (i : nat) :
  0 <= c -> 0 <= len data - c - 6 -> (Z.to_nat (len data - c - 6) + 4 <= i)%nat ->
  patched data c v !! i = data !! i.
Proof.
  intros Hc Hp Hi. unfold patched. cbv zeta.
  assert (Lt : length (take (Z.to_nat (len data - c - 6)) data)
               = Z.to_nat (len data - c - 6))
    by (unfold len in *; rewrite length_take; lia).
  rewrite lookup_app_r by lia. rewrite Lt.
  rewrite lookup_app_r by (rewrite length_Z_to_le; lia).
  rewrite length_Z_to_le, lookup_drop. f_equal. lia.
Qed.

Section Kept.
Context `{PyLib}.

(** X8. The bytes injection keeps. After a successful injection into an
    archive whose offset field lies in the part from the central
    directory on ([cd + c + 6 <= size]), the destination is the source's
    bytes before the container, then the new container, then the
    source's bytes from the central directory on, in which only the four
    bytes of the offset field may differ. *)
Theorem X8_bytes_outside_the_container_survive (fs fs' : filesystem)
    (source target : string) (channel : str) (data : bytes)
    (c cd : Z) (block : bytes) (off : Z) :
  fs !! source = Some data ->
  located fs source c cd block off ->
  cd + c + 6 <= len data ->
  inject_channel fs source target channel = Returns (fs', true) ->
  exists nb tail',
    fs' !! target = Some (take (Z.to_nat off) data ++ nb ++ tail')
    /\ length tail' = length (drop (Z.to_nat cd) data)
    /\ forall i : nat,
         (i < Z.to_nat (len data - cd - c - 6)
          \/ Z.to_nat (len data - cd - c - 6) + 4 <= i)%nat ->
         tail' !! i = drop (Z.to_nat cd) data !! i.
Proof.
  intros Esrc L Hw Hinj.
  destruct (inject_channel_true_located _ _ _ _ _ _ _ _ _ _ Esrc L Hinj)
    as (d & chb & nb & _ & _ & _ & _ & Hp & Hr & ->).
  apply (located_data _ _ _ _ _ _ _ Esrc) in L as (Ec & Ecd & Eb).
  pose proof (comment_length_of_spec data) as Sc. rewrite Ec in Sc.
  destruct Sc as (Hc & _).
  apply signing_block_spec_inv in Eb as (Hcd32 & Hcdl & Hoff & Hsum & Hb8 & _).
  set (tail := drop (Z.to_nat cd) data).
  assert (Ltail : len tail = len data - cd)
    by (unfold tail, len in *; rewrite length_drop; lia).
  exists nb, (patched tail c (off + len nb)).
  split; [|split].
  - rewrite lookup_insert_eq. f_equal. unfold rewritten. fold tail.
    rewrite (app_assoc _ nb tail). rewrite patched_app by lia.
    rewrite <- app_assoc. reflexivity.
  - pose proof (len_patched tail c (off + len nb) ltac:(lia) ltac:(lia)) as Lp.
    fold tail. apply Nat2Z.inj. exact Lp.
  - intros i Hi. fold tail. rewrite <- Ltail in Hi. destruct Hi as [Hi|Hi].
    + apply patched_lookup_before; [lia | lia | exact Hi].
    + apply patched_lookup_after; [lia | lia | exact Hi].
Qed.

(** X10. The entries injection keeps. After a successful injection
    into an archive whose offset field lies in the part from the
    central directory on ([cd + c + 6 <= size]), the bytes of the
    destination from the old container start up to the patched
    central-directory offset decode to a dict in which the channel id is
    bound to the encoded channel, the verity padding id is absent, and
    every other identifier has exactly the value (or the absence) it
    had in the dict decoded from the original container. *)
Theorem X10_other_entries_pass_through (fs fs' : filesystem)
    (source target : string) (channel : str) (data : bytes)
    (c cd : Z) (block : bytes) (off : Z) (d : dict) :
  fs !! source = Some data ->
  located fs source c cd block off ->
  _find_id_values block = Returns d ->
  cd + c + 6 <= len data ->
  inject_channel fs source target channel = Returns (fs', true) ->
  exists channel_bytes data' new_cd d',
    str_encode (create_channel_info channel) = Some channel_bytes
    /\ fs' !! target = Some data'
    /\ field 4 data' (len data' - c - 6) = new_cd
    /\ off <= new_cd
    /\ _find_id_values (take (Z.to_nat (new_cd - off)) (drop (Z.to_nat off) data'))
       = Returns d'
    /\ dict_get WALLE_CHANNEL_BLOCK_ID d' = Some channel_bytes
    /\ dict_get VERITY_PADDING_BLOCK_ID d' = None
    /\ forall k, k <> WALLE_CHANNEL_BLOCK_ID -> k <> VERITY_PADDING_BLOCK_ID ->
                 dict_get k d' = dict_get k d.
Proof.
  intros Esrc L Ed Hw Hinj.
  destruct (inject_channel_true_located _ _ _ _ _ _ _ _ _ _ Esrc L Hinj)
    as (d0 & chb & nb & Ed0 & _ & Ech & Enb & Hp & Hr & ->).
  rewrite Ed in Ed0. injection Ed0 as <-.
  pose proof (_find_id_values_ok _ _ Ed) as Hok.
  apply (located_data _ _ _ _ _ _ _ Esrc) in L as (Ec & Ecd & Eb).
  pose proof (comment_length_of_spec data) as Sc. rewrite Ec in Sc.
  destruct Sc as (Hc & _).
  apply signing_block_spec_inv in Eb as (Hcd32 & Hcdl & Hoff & Hsum & Hb8 & _).
  pose proof (len_nonneg nb) as Hnb.
  destruct (injected_container_in_destination data off cd c nb) as (Ef & Et); try lia.
  exists chb, (patched (rewritten data off cd nb) c (off + len nb)), (off + len nb),
    (injected_dict d chb).
  split; [exact Ech|]. split; [apply lookup_insert_eq|]. split; [exact Ef|].
  split; [lia|].
  replace (off + len nb - off) with (len nb) by lia. rewrite Et.
  split.
  - apply find_create_roundtrip; [apply injected_dict_ok; exact Hok | exact Enb].
  - split; [apply injected_dict_channel|]. split.
    + apply injected_dict_padding. apply Hok.
    + intros k Hk Hp'. apply injected_dict_other; assumption.
Qed.

(** ** Files that are missing or too short *)

(** X12. A missing file. When the source path does not exist,
    [inject_channel] returns False and the file system is as before: no
    destination is created. [get_channel] on a missing path returns
    None. *)
Theorem X12_missing_file (fs : filesystem) (source target : string) (channel : str) :
  fs !! source = None ->
  inject_channel fs source target channel = Returns (fs, false)
  /\ get_channel fs source = Returns None.
Proof.
  intros E. split.
  - unfold inject_channel, inject_channel_body. rewrite copy_step, E.
    destruct (decide (source = target)) as [->|Hne]; [|reflexivity].
    unfold plan_injection, _get_comment_length, open_rb. rewrite E. reflexivity.
  - unfold get_channel, get_channel_body, _get_comment_length, open_rb.
    rewrite E. reflexivity.
Qed.

(** X13. A file shorter than the 22 bytes of an EOCD record. The scan
    has no candidate and raises the not-found exception, so
    [get_channel] returns None and [inject_channel] returns False with
    the destination holding a copy of the file. *)
Theorem X13_file_shorter_than_an_eocd (fs : filesystem) (source target : string)
    (channel : str) (data : bytes) :
  fs !! source = Some data -> len data < 22 ->
  _get_comment_length fs source = Raises (SignatureNotFoundException EocdNotFound)
  /\ get_channel fs source = Returns None
  /\ inject_channel fs source target channel = Returns (<[target := data]> fs, false).
Proof.
  intros E Hl.
  assert (S : comment_length_of data = Raises (SignatureNotFoundException EocdNotFound)).
  { unfold comment_length_of.
    replace (Z.to_nat (Z.min (len data - 22) 65535 + 1)) with 0%nat by lia.
    reflexivity. }
  split; [|split].
  - rewrite (_get_comment_length_data _ _ _ E). exact S.
  - unfold get_channel, get_channel_body.
    rewrite (_get_comment_length_data _ _ _ E), S. reflexivity.
  - unfold inject_channel.
    rewrite (inject_channel_body_plan_raises fs source target channel data
               (SignatureNotFoundException EocdNotFound) E); [reflexivity|].
    unfold plan_injection.
    rewrite (_get_comment_length_data _ _ data) by apply lookup_insert_eq.
    rewrite S. reflexivity.
Qed.

(** ** Channel values and what the reader makes of them *)

(** X11. What [get_channel] returns for a located archive with a
    channel entry. Bytes that are not UTF-8, and text on which
    [json.loads] raises [JSONDecodeError], are returned as text (the
    bytes decoded with errors ignored), through the [except] branch of
    [parse_channel_info]. When [json.loads] raises anything else, or
    returns a value without [.get], the exception is swallowed and the
    result is None. Otherwise the result is [value.get('channel', None)]. *)
Theorem X11_channel_value_decoding (fs : filesystem) (path : string)
    (c cd : Z) (block : bytes) (off : Z) (d : dict) (channel_value : bytes) :
  located fs path c cd block off ->
  _find_id_values block = Returns d ->
  dict_get WALLE_CHANNEL_BLOCK_ID d = Some channel_value ->
  get_channel fs path
  = Returns
      match bytes_decode channel_value with
      | None => Some (value_of_str (bytes_decode_ignore channel_value))
      | Some s =>
          match json_loads s with
          | DecodeError => Some (value_of_str (bytes_decode_ignore channel_value))
          | OtherError _ => None
          | Parsed j =>
              match value_get_channel j with
              | Some r => r
              | None => None
              end
          end
      end.
Proof.
  intros L Ed Ev. unfold get_channel.
  rewrite (get_channel_body_located _ _ _ _ _ _ _ L Ed), Ev.
  unfold parse_channel_info.
  destruct (bytes_decode channel_value) as [s|]; [|reflexivity].
  destruct (json_loads s) as [j| |e]; [|reflexivity ..].
  cbn [mbind outcome_bind info_get_channel].
  destruct (value_get_channel j); reflexivity.
Qed.

End Kept.

(** ** Injecting again *)

Lemma dict_set_set (k : Z) (v w : bytes) (d : dict) :
  dict_set k w (dict_set k v d) = dict_set k w d.
Proof.
  induction d as [|[k0 v0] r IH]; simpl.
  - rewrite Z.eqb_refl. reflexivity.
  - destruct (Z.eqb_spec k0 k) as [->|Hne]; simpl.
    + rewrite Z.eqb_refl. reflexivity.
    + destruct (Z.eqb_spec k0 k); [contradiction|]. rewrite IH. reflexivity.
Qed.

Lemma injected_dict_again (d : dict) (a b : bytes) :
  NoDup (d.*1) -> injected_dict (injected_dict d a) b = injected_dict d b.
Proof.
  intros Hnd. unfold injected_dict at 1.
  assert (E : dict_mem VERITY_PADDING_BLOCK_ID (injected_dict d a) = false)
    by (unfold dict_mem; rewrite injected_dict_padding by exact Hnd; reflexivity).
  rewrite E. unfold injected_dict. apply dict_set_set.
Qed.

Lemma patched_again (t : bytes) (c v w : Z) :
  0 <= c -> 0 <= len t - c - 6 ->
  patched (patched t c v) c w = patched t c w.
Proof.
  intros Hc Hp. unfold patched at 1. cbv zeta.
  rewrite len_patched by lia.
  set (p := Z.to_nat (len t - c - 6)).
  assert (Lt : length (take p t) = p)
    by (unfold p, len in *; rewrite length_take; lia).
  unfold patched. cbv zeta. fold p.
  rewrite take_app_length' by (symmetry; exact Lt).
  rewrite drop_app_ge by lia. rewrite Lt.
  replace (p + 4 - p)%nat with 4%nat by lia.
  rewrite drop_app_length' by (rewrite length_Z_to_le; reflexivity).
  reflexivity.
Qed.

Lemma rewritten_app (pre nb1 nb2 t : bytes) (off : Z) :
  off = len pre ->
  rewritten (pre ++ nb1 ++ t) off (off + len nb1) nb2 = pre ++ nb2 ++ t.
Proof.
  intros ->. unfold rewritten, len.
  rewrite Nat2Z.id. rewrite take_app_length.
  replace (Z.to_nat (Z.of_nat (length pre) + Z.of_nat (length nb1)))
    with (length pre + length nb1)%nat by lia.
  rewrite (app_assoc pre nb1 t).
  rewrite drop_app_length' by (rewrite length_app; reflexivity).
  reflexivity.
Qed.

Section Again.
Context `{PyLib}.

(** The converse of [inject_channel_true_inv]. *)
Lemma inject_channel_true_intro (fs : filesystem) (source target : string)
    (channel : str) (data : bytes) (c cd : Z) (block : bytes) (off : Z) (d : dict)
    (channel_bytes nb : bytes) :
  fs !! source = Some data ->
  comment_length_of data = Returns c ->
  central_dir_offset_of data c = Returns cd ->
  signing_block_spec data cd = Returns (block, off) ->
  _find_id_values block = Returns d ->
  dict_mem APK_SIGNATURE_SCHEME_V2_BLOCK_ID d = true ->
  str_encode (create_channel_info channel) = Some channel_bytes ->
  _create_apk_signing_block (injected_dict d channel_bytes) = Returns nb ->
  0 <= len (rewritten data off cd nb) - c - 6 ->
  0 <= off + len nb < 2 ^ 32 ->
  inject_channel fs source target channel
  = Returns (<[target := patched (rewritten data off cd nb) c (off + len nb)]> fs, true).
Proof.
  intros Esrc Ec Ecd Eb Ed Ev2 Ech Enb Hp Hr.
  unfold inject_channel, inject_channel_body. rewrite copy_step, Esrc.
  assert (Et : (<[target := data]> fs) !! target = Some data) by apply lookup_insert_eq.
  assert (P : plan_injection (<[target := data]> fs) target channel
              = Returns (c, cd, off, nb)).
  { unfold plan_injection.
    rewrite (_get_comment_length_data _ _ _ Et), Ec. cbn [mbind outcome_bind].
    rewrite (_find_central_dir_start_offset_data _ _ _ _ Et), Ecd.
    cbn [mbind outcome_bind].
    rewrite (_find_apk_signing_block_data _ _ _ _ Et), Eb. cbn [mbind outcome_bind].
    rewrite Ed. cbn [mbind outcome_bind]. rewrite Ev2. cbn [negb].
    rewrite Ech. cbn [mbind outcome_bind]. fold (injected_dict d channel_bytes).
    rewrite Enb. reflexivity. }
  rewrite P. unfold with_open_rw. rewrite Et.
  pose proof (comment_length_of_spec data) as Sc. rewrite Ec in Sc.
  destruct Sc as (Hc & _).
  apply signing_block_spec_inv in Eb as (Hcd32 & Hcdl & Hoff & Hsum & Hb8 & _).
  rewrite write_signing_block_spec by lia. cbv zeta.
  destruct (Z.ltb_spec (len (rewritten data off cd nb) - c - 6) 0); [lia|].
  rewrite struct_pack_Returns by (change (256 ^ Z.of_nat 4) with (2 ^ 32); lia).
  cbn [h_data]. rewrite insert_insert_eq. reflexivity.
Qed.

(** X9. Injecting again supersedes. Take an archive whose
    central-directory offset lies at or before its EOCD record and whose
    comment has at most 12 bytes. If injecting [V1] into it succeeds and
    injecting [V2] into it succeeds, then injecting [V2] in place into
    the result of the first gives exactly the file that injecting [V2]
    directly gives: the old channel entry is replaced, not kept beside
    the new one, and nothing of [V1] remains. *)
Theorem X9_reinjection_supersedes (fs fs1 fs2 : filesystem) (source target : string)
    (V1 V2 : str) (data : bytes) (c cd : Z) :
  fs !! source = Some data ->
  _get_comment_length fs source = Returns c ->
  _find_central_dir_start_offset fs source c = Returns cd ->
  cd + 22 + c <= len data -> c <= 12 ->
  inject_channel fs source target V1 = Returns (fs1, true) ->
  inject_channel fs source target V2 = Returns (fs2, true) ->
  inject_channel fs1 target target V2 = Returns (fs2, true).
Proof.
  intros Esrc Ec Ecd Hw H12 Hinj1 Hinj2.
  rewrite (_get_comment_length_data _ _ _ Esrc) in Ec.
  rewrite (_find_central_dir_start_offset_data _ _ _ _ Esrc) in Ecd.
  apply inject_channel_true_inv in Hinj1
    as (data1 & c1 & cd1 & block & off & d & chb1 & nb1
        & Esrc1 & Ec1 & Ecd1 & Eb & Ed & Ev2 & Ech1 & Enb1 & Hp1 & Hr1 & ->).
  rewrite Esrc in Esrc1. injection Esrc1 as <-.
  rewrite Ec in Ec1. injection Ec1 as <-.
  rewrite Ecd in Ecd1. injection Ecd1 as <-.
  apply inject_channel_true_inv in Hinj2
    as (data2 & c2 & cd2 & block2 & off2 & d2 & chb2 & nb2
        & Esrc2 & Ec2 & Ecd2 & Eb2 & Ed2 & _ & Ech2 & Enb2 & Hp2 & Hr2 & ->).
  rewrite Esrc in Esrc2. injection Esrc2 as <-.
  rewrite Ec in Ec2. injection Ec2 as <-.
  rewrite Ecd in Ecd2. injection Ecd2 as <-.
  rewrite Eb in Eb2. injection Eb2 as <- <-.
  rewrite Ed in Ed2. injection Ed2 as <-.
  pose proof (_find_id_values_ok _ _ Ed) as Hok.
  pose proof (_create_apk_signing_block_inv _ _ Enb1) as (Enb1' & Hf1 & Hs1).
  pose proof (comment_length_of_spec data) as Sc. rewrite Ec in Sc.
  destruct Sc as (Hc & _).
  pose proof (signing_block_spec_inv _ _ _ _ Eb)
    as (Hcd32 & Hcdl & Hoff & Hsum & Hb8 & _).
  set (D1 := patched (rewritten data off cd nb1) c (off + len nb1)).
  assert (L1 : comment_length_of D1 = Returns c
               /\ central_dir_offset_of D1 c = Returns (off + len nb1)
               /\ signing_block_spec D1 (off + len nb1) = Returns (nb1, off)).
  { unfold D1. rewrite Enb1'.
    apply (located_after_injection fs target data c cd off block
             (injected_dict d chb1)); auto.
    rewrite <- Enb1'. exact Hr1. }
  destruct L1 as (Ec' & Ecd' & Eb').
  assert (Dd : _find_id_values nb1 = Returns (injected_dict d chb1)).
  { apply find_create_roundtrip; [apply injected_dict_ok; exact Hok | exact Enb1]. }
  assert (Ev2' : dict_mem APK_SIGNATURE_SCHEME_V2_BLOCK_ID (injected_dict d chb1) = true).
  { unfold dict_mem in *. rewrite injected_dict_signature. exact Ev2. }
  assert (Enb2' : _create_apk_signing_block (injected_dict (injected_dict d chb1) chb2)
                  = Returns nb2).
  { rewrite injected_dict_again by apply Hok. exact Enb2. }
  set (pre := take (Z.to_nat off) data) in *.
  set (tail := drop (Z.to_nat cd) data) in *.
  assert (Lpre : off = len pre)
    by (unfold pre, len in *; rewrite length_take; lia).
  assert (Ltail : len tail = len data - cd)
    by (unfold tail, len in *; rewrite length_drop; lia).
  assert (S1 : D1 = pre ++ nb1 ++ patched tail c (off + len nb1))
    by (apply patched_rewritten; lia).
  assert (R2 : rewritten D1 off (off + len nb1) nb2
               = pre ++ nb2 ++ patched tail c (off + len nb1))
    by (rewrite S1; apply rewritten_app; exact Lpre).
  assert (Lp1 : len (patched tail c (off + len nb1)) = len tail)
    by (apply len_patched; lia).
  assert (Hp' : 0 <= len (rewritten D1 off (off + len nb1) nb2) - c - 6).
  { rewrite R2, !len_app, Lp1. pose proof (len_nonneg pre). pose proof (len_nonneg nb2).
    lia. }
  assert (Et : (<[target := D1]> fs) !! target = Some D1) by apply lookup_insert_eq.
  rewrite (inject_channel_true_intro (<[target := D1]> fs) target target V2 D1 c
             (off + len nb1) nb1 off (injected_dict d chb1) chb2 nb2
             Et Ec' Ecd' Eb' Dd Ev2' Ech2 Enb2' Hp' Hr2).
  rewrite insert_insert_eq. do 3 f_equal.
  rewrite R2.
  rewrite (app_assoc pre nb2), patched_app by lia.
  rewrite patched_again by lia. rewrite <- app_assoc.
  symmetry. apply patched_rewritten; lia.
Qed.

End Again.

(** ** The further properties on concrete archives *)

Lemma X8_bytes_outside_the_container_survive_witness :
  demo_fs !! "signed.apk"%string = Some signed_apk
  /\ located demo_fs "signed.apk" 0 70 signed_container 11
  /\ 70 + 0 + 6 <= len signed_apk
  /\ inject_channel (H := plain_lib) demo_fs "signed.apk" "out.apk" test_channel
     = Returns (<["out.apk"%string := injected_apk]> demo_fs, true)
  /\ exists nb tail',
       (<["out.apk"%string := injected_apk]> demo_fs) !! "out.apk"%string
       = Some (take (Z.to_nat 11) signed_apk ++ nb ++ tail')
       /\ length tail' = length (drop (Z.to_nat 70) signed_apk)
       /\ forall i : nat,
            (i < Z.to_nat (len signed_apk - 70 - 0 - 6)
             \/ Z.to_nat (len signed_apk - 70 - 0 - 6) + 4 <= i)%nat ->
            tail' !! i = drop (Z.to_nat 70) signed_apk !! i.
Proof.
  assert (H1 : demo_fs !! "signed.apk"%string = Some signed_apk) by reflexivity.
  assert (H3 : 70 + 0 + 6 <= len signed_apk) by (vm_compute; discriminate).
  split; [exact H1|]. split; [exact located_signed|]. split; [exact H3|].
  split; [exact inject_signed|].
  exact (X8_bytes_outside_the_container_survive (H := plain_lib) demo_fs _
           "signed.apk" "out.apk" test_channel signed_apk 0 70 signed_container 11
           H1 located_signed H3 inject_signed).
Defined.

Lemma X10_other_entries_pass_through_witness :
  demo_fs !! "signed.apk"%string = Some signed_apk
  /\ located demo_fs "signed.apk" 0 70 signed_container 11
  /\ _find_id_values signed_container
     = Returns [(APK_SIGNATURE_SCHEME_V2_BLOCK_ID, v2_signature)]
  /\ 70 + 0 + 6 <= len signed_apk
  /\ inject_channel (H := plain_lib) demo_fs "signed.apk" "out.apk" test_channel
     = Returns (<["out.apk"%string := injected_apk]> demo_fs, true)
  /\ exists channel_bytes data' new_cd d',
       str_encode (create_channel_info test_channel) = Some channel_bytes
       /\ (<["out.apk"%string := injected_apk]> demo_fs) !! "out.apk"%string = Some data'
       /\ field 4 data' (len data' - 0 - 6) = new_cd
       /\ 11 <= new_cd
       /\ _find_id_values (take (Z.to_nat (new_cd - 11)) (drop (Z.to_nat 11) data'))
          = Returns d'
       /\ dict_get WALLE_CHANNEL_BLOCK_ID d' = Some channel_bytes
       /\ dict_get VERITY_PADDING_BLOCK_ID d' = None
       /\ forall k, k <> WALLE_CHANNEL_BLOCK_ID -> k <> VERITY_PADDING_BLOCK_ID ->
            dict_get k d'
            = dict_get k [(APK_SIGNATURE_SCHEME_V2_BLOCK_ID, v2_signature)].
Proof.
  assert (H1 : demo_fs !! "signed.apk"%string = Some signed_apk) by reflexivity.
  assert (H3 : _find_id_values signed_container
               = Returns [(APK_SIGNATURE_SCHEME_V2_BLOCK_ID, v2_signature)])
    by (vm_compute; reflexivity).
  assert (H4 : 70 + 0 + 6 <= len signed_apk) by (vm_compute; discriminate).
  split; [exact H1|]. split; [exact located_signed|]. split; [exact H3|].
  split; [exact H4|]. split; [exact inject_signed|].
  exact (X10_other_entries_pass_through (H := plain_lib) demo_fs _
           "signed.apk" "out.apk" test_channel signed_apk 0 70 signed_container 11
           [(APK_SIGNATURE_SCHEME_V2_BLOCK_ID, v2_signature)]
           H1 located_signed H3 H4 inject_signed).
Defined.

Lemma X11_channel_value_decoding_witness :
  located legacy_fs "legacy.apk" 0 (11 + len legacy_container) legacy_container 11
  /\ _find_id_values legacy_container
     = Returns [(APK_SIGNATURE_SCHEME_V2_BLOCK_ID, v2_signature);
                (WALLE_CHANNEL_BLOCK_ID, ascii "huawei")]
  /\ dict_get WALLE_CHANNEL_BLOCK_ID
       [(APK_SIGNATURE_SCHEME_V2_BLOCK_ID, v2_signature);
        (WALLE_CHANNEL_BLOCK_ID, ascii "huawei")] = Some (ascii "huawei")
  /\ get_channel (H := plain_lib) legacy_fs "legacy.apk"
     = Returns
         match bytes_decode (PyLib := plain_lib) (ascii "huawei") with
         | None => Some (value_of_str (bytes_decode_ignore (ascii "huawei")))
         | Some s =>
             match json_loads s with
             | DecodeError => Some (value_of_str (bytes_decode_ignore (ascii "huawei")))
             | OtherError _ => None
             | Parsed j =>
                 match value_get_channel j with
                 | Some r => r
                 | None => None
                 end
             end
         end.
Proof.
  assert (H1 : located legacy_fs "legacy.apk" 0 (11 + len legacy_container)
                 legacy_container 11)
    by (repeat split; vm_compute; reflexivity).
  assert (H2 : _find_id_values legacy_container
               = Returns [(APK_SIGNATURE_SCHEME_V2_BLOCK_ID, v2_signature);
                          (WALLE_CHANNEL_BLOCK_ID, ascii "huawei")])
    by (vm_compute; reflexivity).
  assert (H3 : dict_get WALLE_CHANNEL_BLOCK_ID
                 [(APK_SIGNATURE_SCHEME_V2_BLOCK_ID, v2_signature);
                  (WALLE_CHANNEL_BLOCK_ID, ascii "huawei")] = Some (ascii "huawei"))
    by reflexivity.
  split; [exact H1|]. split; [exact H2|]. split; [exact H3|].
  exact (X11_channel_value_decoding (H := plain_lib) legacy_fs "legacy.apk" 0
           (11 + len legacy_container) legacy_container 11 _ (ascii "huawei")
           H1 H2 H3).
Defined.

Lemma X12_missing_file_witness :
  demo_fs !! "missing.apk"%string = None
  /\ inject_channel (H := plain_lib) demo_fs "missing.apk" "out.apk" test_channel
     = Returns (demo_fs, false)
  /\ get_channel (H := plain_lib) demo_fs "missing.apk" = Returns None.
Proof.
  assert (H1 : demo_fs !! "missing.apk"%string = None) by reflexivity.
  split; [exact H1|].
  exact (X12_missing_file (H := plain_lib) demo_fs "missing.apk" "out.apk"
           test_channel H1).
Defined.

Lemma X13_file_shorter_than_an_eocd_witness :
  demo_fs !! "broken.apk"%string = Some (ascii "not a zip archive")
  /\ len (ascii "not a zip archive") < 22
  /\ _get_comment_length demo_fs "broken.apk"
     = Raises (SignatureNotFoundException EocdNotFound)
  /\ get_channel (H := plain_lib) demo_fs "broken.apk" = Returns None
  /\ inject_channel (H := plain_lib) demo_fs "broken.apk" "out.apk" test_channel
     = Returns (<["out.apk"%string := ascii "not a zip archive"]> demo_fs, false).
Proof.
  assert (H1 : demo_fs !! "broken.apk"%string = Some (ascii "not a zip archive"))
    by reflexivity.
  assert (H2 : len (ascii "not a zip archive") < 22) by (vm_compute; reflexivity).
  split; [exact H1|]. split; [exact H2|].
  exact (X13_file_shorter_than_an_eocd (H := plain_lib) demo_fs "broken.apk" "out.apk"
           test_channel (ascii "not a zip archive") H1 H2).
Defined.

Lemma X9_reinjection_supersedes_witness :
  demo_fs !! "signed.apk"%string = Some signed_apk
  /\ _get_comment_length demo_fs "signed.apk" = Returns 0
  /\ _find_central_dir_start_offset demo_fs "signed.apk" 0 = Returns 70
  /\ 70 + 22 + 0 <= len signed_apk /\ 0 <= 12
  /\ inject_channel (H := plain_lib) demo_fs "signed.apk" "out.apk" test_channel
     = Returns (<["out.apk"%string := injected_apk]> demo_fs, true)
  /\ inject_channel (H := plain_lib) demo_fs "signed.apk" "out.apk" other_channel
     = Returns (<["out.apk"%string := reinjected_apk]> demo_fs, true)
  /\ inject_channel (H := plain_lib) (<["out.apk"%string := injected_apk]> demo_fs)
       "out.apk" "out.apk" other_channel
     = Returns (<["out.apk"%string := reinjected_apk]> demo_fs, true).
Proof.
  assert (H1 : demo_fs !! "signed.apk"%string = Some signed_apk) by reflexivity.
  assert (H2 : _get_comment_length demo_fs "signed.apk" = Returns 0)
    by (vm_compute; reflexivity).
  assert (H3 : _find_central_dir_start_offset demo_fs "signed.apk" 0 = Returns 70)
    by (vm_compute; reflexivity).
  assert (H4 : 70 + 22 + 0 <= len signed_apk) by (vm_compute; discriminate).
  assert (H5 : 0 <= 12) by lia.
  assert (H7 : inject_channel (H := plain_lib) demo_fs "signed.apk" "out.apk"
                 other_channel
               = Returns (<["out.apk"%string := reinjected_apk]> demo_fs, true))
    by (vm_compute; reflexivity).
  split; [exact H1|]. split; [exact H2|]. split; [exact H3|]. split; [exact H4|].
  split; [exact H5|]. split; [exact inject_signed|]. split; [exact H7|].
  exact (X9_reinjection_supersedes (H := plain_lib) demo_fs _ _ "signed.apk" "out.apk"
           test_channel other_channel signed_apk 0 70
           H1 H2 H3 H4 H5 inject_signed H7).
Defined.

(** ** The rewritten archive is an archive again *)

Section Again2.
Context `{PyLib}.

(** X14. What a successful injection leaves can be read and injected
    again. For an archive whose central-directory offset lies at or
    before its EOCD record and whose comment has at most 12 bytes, the
    three locating steps succeed on the destination: same comment
    length, central-directory offset [off + len nb], and the new
    container [nb] at the old start [off]. That offset points at the
    preserved central directory: the bytes from there up to the offset
    field are the source's bytes from its central-directory offset on. *)
Theorem X14_destination_is_located (fs fs' : filesystem) (source target : string)
    (channel : str) (data : bytes) (c cd : Z) (block : bytes) (off : Z) :
  fs !! source = Some data ->
  located fs source c cd block off ->
  cd + 22 + c <= len data -> c <= 12 ->
  inject_channel fs source target channel = Returns (fs', true) ->
  exists nb data',
    fs' !! target = Some data'
    /\ located fs' target c (off + len nb) nb off
    /\ forall i : nat,
         (i < Z.to_nat (len data - cd - c - 6))%nat ->
         data' !! (Z.to_nat (off + len nb) + i)%nat = data !! (Z.to_nat cd + i)%nat.
Proof.
  intros Esrc L Hw H12 Hinj.
  destruct (inject_channel_true_located _ _ _ _ _ _ _ _ _ _ Esrc L Hinj)
    as (d & chb & nb & Ed & Ev2 & Ech & Enb & Hp & Hr & ->).
  apply (located_data _ _ _ _ _ _ _ Esrc) in L as (Ec & Ecd & Eb).
  pose proof (_create_apk_signing_block_inv _ _ Enb) as (Enb' & Hf & Hs).
  pose proof (comment_length_of_spec data) as Sc. rewrite Ec in Sc.
  destruct Sc as (Hc & _).
  pose proof (signing_block_spec_inv _ _ _ _ Eb)
    as (Hcd32 & Hcdl & Hoff & Hsum & Hb8 & _).
  set (data3 := patched (rewritten data off cd nb) c (off + len nb)).
  assert (E3 : (<[target := data3]> fs) !! target = Some data3)
    by apply lookup_insert_eq.
  exists nb, data3. split; [exact E3|]. split.
  - apply (located_data _ _ _ _ _ _ _ E3). unfold data3. rewrite Enb'.
    apply (located_after_injection fs target data c cd off block
             (injected_dict d chb)); auto.
    rewrite <- Enb'. exact Hr.
  - intros i Hi. unfold data3. rewrite patched_rewritten by lia.
    assert (Lpre : length (take (Z.to_nat off) data) = Z.to_nat off)
      by (unfold len in *; rewrite length_take; lia).
    pose proof (len_nonneg nb) as Hnb.
    rewrite lookup_app_r by lia. rewrite Lpre.
    rewrite lookup_app_r by (unfold len; lia).
    replace (Z.to_nat (off + len nb) + i - Z.to_nat off - length nb)%nat with i
      by (unfold len; lia).
    assert (Ltail : len (drop (Z.to_nat cd) data) = len data - cd)
      by (unfold len in *; rewrite length_drop; lia).
    rewrite patched_lookup_before by (rewrite ?Ltail; lia).
    apply lookup_drop.
Qed.

End Again2.

Lemma X14_destination_is_located_witness :
  demo_fs !! "signed.apk"%string = Some signed_apk
  /\ located demo_fs "signed.apk" 0 70 signed_container 11
  /\ 70 + 22 + 0 <= len signed_apk /\ 0 <= 12
  /\ inject_channel (H := plain_lib) demo_fs "signed.apk" "out.apk" test_channel
     = Returns (<["out.apk"%string := injected_apk]> demo_fs, true)
  /\ exists nb data',
       (<["out.apk"%string := injected_apk]> demo_fs) !! "out.apk"%string = Some data'
       /\ located (<["out.apk"%string := injected_apk]> demo_fs) "out.apk"
            0 (11 + len nb) nb 11
       /\ forall i : nat,
            (i < Z.to_nat (len signed_apk - 70 - 0 - 6))%nat ->
            data' !! (Z.to_nat (11 + len nb) + i)%nat
            = signed_apk !! (Z.to_nat 70 + i)%nat.
Proof.
  assert (H1 : demo_fs !! "signed.apk"%string = Some signed_apk) by reflexivity.
  assert (H3 : 70 + 22 + 0 <= len signed_apk) by (vm_compute; discriminate).
  assert (H4 : 0 <= 12) by lia.
  split; [exact H1|]. split; [exact located_signed|]. split; [exact H3|].
  split; [exact H4|]. split; [exact inject_signed|].
  exact (X14_destination_is_located (H := plain_lib) demo_fs _ "signed.apk" "out.apk"
           test_channel signed_apk 0 70 signed_container 11
           H1 located_signed H3 H4 inject_signed).
Defined.
